(** * A shallow embedding of [rapair_docx.py], the DOCX repair pipeline

    The Python program unpacks a DOCX package into a scratch directory,
    repairs the core-properties part, re-serialises three XML parts, moves
    the custom-XML directory aside, rebuilds the package, validates it with
    python-docx and falls back to a pandoc round trip.

    The embedding follows the source function by function.  Every function
    of the script that touches the report, the file system or a third-party
    library becomes a computation in a state-and-exception monad [M]:
    - the state holds the files outside the scratch directory ([disk]), the
      scratch directory itself ([scratch], addressed by relative path), the
      [RepairReport] object, the number of clock readings and a ghost
      [trace] of the calls made to the outside world;
    - a Python exception is the result [Raise e], where [e] is the text of
      the exception, the [{e}] of the script's f-strings;
    - the collaborators that are not part of the script (lxml, python-docx,
      pypandoc, the clock, the operating system's refusals and the texts
      of its errors and of those of [zipfile]) are the fields of a
      [World].

    A string holds a Python [str] in UTF-8.  The names of the members of
    an archive and the paths of the scratch directory are read as
    [zipfile] and [posixpath] read them on a POSIX system, where the
    backslash is a character of a file name like any other.  A refusal of
    the operating system changes nothing. *)

From stdpp Require Import gmap strings list fin_maps pretty.
From Stdlib Require Import Ascii String.

(** ** Strings *)

Definition dquote : string := String (ascii_of_nat 34) EmptyString.
Definition newline : string := String (ascii_of_nat 10) EmptyString.

(** [str.rfind('.')]: the index of the last dot. *)
Fixpoint rfind_dot (s : string) : option nat :=
  match s with
  | EmptyString => None
  | String c r =>
      match rfind_dot r with
      | Some i => Some (S i)
      | None => if Ascii.eqb c "."%char then Some 0 else None
      end
  end.

(** A Python [str] is a sequence of code points; the strings of this file
    hold it in UTF-8.  [code_points] reads the code points back: one to
    four bytes for each, as the encoding has them (no overlong form, no
    surrogate); a byte that starts no such sequence stands for the code
    point of its own value. *)
Definition continuation (c : ascii) : option N :=
  let n := N_of_ascii c in
  if ((128 <=? n) && (n <? 192))%N then Some (n - 128)%N else None.

Fixpoint code_points (s : string) : list N :=
  match s with
  | EmptyString => []
  | String c r =>
      let n := N_of_ascii c in
      let single := n :: code_points r in
      match r with
      | String c1 r1 =>
          match continuation c1 with
          | Some x1 =>
              if ((194 <=? n) && (n <? 224))%N
              then ((n - 192) * 64 + x1)%N :: code_points r1
              else
                match r1 with
                | String c2 r2 =>
                    match continuation c2 with
                    | Some x2 =>
                        let cp := ((n - 224) * 4096 + x1 * 64 + x2)%N in
                        if ((224 <=? n) && (n <? 240) && (2048 <=? cp)
                            && negb ((55296 <=? cp) && (cp <? 57344)))%N
                        then cp :: code_points r2
                        else
                          match r2 with
                          | String c3 r3 =>
                              match continuation c3 with
                              | Some x3 =>
                                  let cp := ((n - 240) * 262144 + x1 * 4096
                                             + x2 * 64 + x3)%N in
                                  if ((240 <=? n) && (n <? 248)
                                      && (65536 <=? cp)
                                      && (cp <? 1114112))%N
                                  then cp :: code_points r3
                                  else single
                              | None => single
                              end
                          | EmptyString => single
                          end
                    | None => single
                    end
                | EmptyString => single
                end
          | None => single
          end
      | EmptyString => single
      end
  end.

(** The code points [str.strip()] removes, those for which
    [str.isspace()] holds: the ASCII white space and separators, NEL,
    the no-break space and the spaces and separators of Unicode. *)
Definition is_space (c : N) : bool :=
  (((9 <=? c) && (c <=? 13)) || ((28 <=? c) && (c <=? 32))
   || (c =? 133) || (c =? 160) || (c =? 5760)
   || ((8192 <=? c) && (c <=? 8202))
   || (c =? 8232) || (c =? 8233) || (c =? 8239) || (c =? 8287)
   || (c =? 12288))%N.

(** [(t or "").strip() == ""] *)
Definition blank_text (t : option string) : bool :=
  forallb is_space (code_points (default "" t)).

(** [s[n:]] *)
Fixpoint drop_string (n : nat) (s : string) : string :=
  match n, s with
  | O, _ => s
  | S n', String _ r => drop_string n' r
  | S _, EmptyString => EmptyString
  end.

(** ** [pathlib.Path]

    A path is its directory part (empty, or ending in the separator) and
    its final component. *)

Record Path := mkPath { dirpart : string; name : string }.

Definition str (p : Path) : string := dirpart p +:+ name p.

(** [PurePath.stem] and [PurePath.suffix]: the name is split at its last
    dot, unless that dot is the first or the last character. *)
Definition split_suffix (n : string) : string * string :=
  match rfind_dot n with
  | Some i =>
      if (0 <? i) && (i <? String.length n - 1)
      then (substring 0 i n, drop_string i n)
      else (n, "")
  | None => (n, "")
  end.

Definition stem (p : Path) : string := fst (split_suffix (name p)).
Definition suffix (p : Path) : string := snd (split_suffix (name p)).

Definition empty_name_error (p : Path) : string :=
  "PosixPath('" +:+ str p +:+ "') has an empty name".

(** [with_name] and [with_suffix] raise [ValueError] on a path without a
    final component. *)
Definition with_name (p : Path) (n : string) : string + Path :=
  if String.eqb (name p) "" then inl (empty_name_error p)
  else inr (mkPath (dirpart p) n).

Definition with_suffix (p : Path) (suf : string) : string + Path :=
  if String.eqb (name p) "" then inl (empty_name_error p)
  else inr (mkPath (dirpart p) (stem p +:+ suf)).

(** ** Path names, as [posixpath] and [zipfile] read them *)

(** [s.split("/")] and ["/".join(l)] *)
Fixpoint split_path (s : string) : list string :=
  match s with
  | EmptyString => [EmptyString]
  | String c r =>
      if Ascii.eqb c "/"%char then EmptyString :: split_path r
      else match split_path r with
           | x :: l => String c x :: l
           | [] => [String c EmptyString]
           end
  end.

Fixpoint join_path (l : list string) : string :=
  match l with
  | [] => ""
  | x :: r =>
      match r with
      | [] => x
      | _ :: _ => x +:+ "/" +:+ join_path r
      end
  end.

(** [s.endswith("/")] *)
Fixpoint ends_with_sep (s : string) : bool :=
  match s with
  | EmptyString => false
  | String c r =>
      match r with
      | EmptyString => Ascii.eqb c "/"%char
      | String _ _ => ends_with_sep r
      end
  end.

(** [s.replace("\", "/")] *)
Fixpoint backslash_to_slash (s : string) : string :=
  match s with
  | EmptyString => EmptyString
  | String c r =>
      String (if Ascii.eqb c (ascii_of_nat 92) then "/"%char else c)
             (backslash_to_slash r)
  end.

(** The components that [zipfile] drops from the name of a member when it
    extracts it: [x not in ('', os.path.curdir, os.path.pardir)]. *)
Definition valid_part (x : string) : bool :=
  negb (String.eqb x "" || String.eqb x "." || String.eqb x "..").

(** One step of the loop of [posixpath.normpath] over the components. *)
Definition normpath_step (initial_slashes : nat) (new_comps : list string)
    (comp : string) : list string :=
  if String.eqb comp "" || String.eqb comp "." then new_comps
  else if negb (String.eqb comp "..")
          || ((initial_slashes =? 0) && bool_decide (new_comps = []))
          || bool_decide (last new_comps = Some "..")
       then new_comps ++ [comp]
       else removelast new_comps.

Fixpoint slashes (n : nat) : string :=
  match n with
  | O => ""
  | S n' => String "/"%char (slashes n')
  end.

(** [posixpath.normpath(path)] *)
Definition normpath (path : string) : string :=
  if String.eqb path "" then "."
  else
    let initial_slashes :=
      if String.prefix "/" path
      then if String.prefix "//" path && negb (String.prefix "///" path)
           then 2 else 1
      else 0 in
    let comps := foldl (normpath_step initial_slashes) [] (split_path path) in
    let p := slashes initial_slashes +:+ join_path comps in
    if String.eqb p "" then "." else p.

(** [while arcname[0] in (os.sep, os.altsep): arcname = arcname[1:]] of
    [ZipInfo.from_file], which raises [IndexError] when nothing is left. *)
Fixpoint strip_leading_sep (s : string) : string + string :=
  match s with
  | EmptyString => inl "string index out of range"
  | String c r =>
      if Ascii.eqb c "/"%char then strip_leading_sep r else inr s
  end.

(** The name under which [z.write(fpath, arcname)] stores the file whose
    path relative to the scratch directory is [rel]: line 132 of the
    script replaces the backslashes, [ZipInfo.from_file] normalises the
    result and removes the leading separators. *)
Definition arcname (rel : string) : string + string :=
  strip_leading_sep (normpath (backslash_to_slash rel)).

(** The string has no backslash; it has no separator. *)
Fixpoint backslash_free (s : string) : bool :=
  match s with
  | EmptyString => true
  | String c r => negb (Ascii.eqb c (ascii_of_nat 92)) && backslash_free r
  end.

Fixpoint sep_free (s : string) : bool :=
  match s with
  | EmptyString => true
  | String c r => negb (Ascii.eqb c "/"%char) && sep_free r
  end.

(** A relative path as a directory tree has it: no component is empty,
    [.] or [..]. *)
Definition tidy (k : string) : bool := forallb valid_part (split_path k).

(** ** The report *)

Record entry := mkEntry { time : string; msg : string }.

(** [RepairReport.data], one field per key of [REPORT_KEYS]; [None] is
    Python's [None]. *)
Record RepairReport := mkReport {
  input_path : string;
  backup_path : option string;
  timestamp : string;
  actions : list entry;
  errors : list entry;
  final_docx : option string;
  final_docx_ok : option bool
}.

(** ** Files *)

(** What a file outside the scratch directory holds: plain bytes, a zip
    archive (its members in order, name and content, as
    [ZipFile.infolist()] has them; a member whose name ends in the
    separator is a directory) or the JSON dump of a report. *)
Inductive file_data :=
| Bytes (b : string)
| ZipArchive (entries : list (string * string))
| JsonReport (r : RepairReport).

(** ** XML trees, as lxml presents them *)

#[warning="-register-all"]
Inductive element :=
| Element (tag : string) (attrib : list (string * string))
          (text : option string) (children : list element)
          (tail : option string).

Definition el_tag (e : element) : string :=
  match e with Element t _ _ _ _ => t end.
Definition el_text (e : element) : option string :=
  match e with Element _ _ t _ _ => t end.
Definition el_children (e : element) : list element :=
  match e with Element _ _ _ cs _ => cs end.

(** [root.find('.//' + tg)]: the first descendant of [e] in document order
    whose tag is [tg]. *)
Fixpoint find_descendant (tg : string) (e : element) : option element :=
  match e with
  | Element _ _ _ cs _ =>
      (fix go (l : list element) : option element :=
         match l with
         | [] => None
         | c :: r =>
             if String.eqb (el_tag c) tg then Some c
             else match find_descendant tg c with
                  | Some x => Some x
                  | None => go r
                  end
         end) cs
  end.

(** [etree.Element(tg)] followed by [el.text = t]. *)
Definition new_element (tg t : string) : element :=
  Element tg [] (Some t) [] None.

(** [root.insert(0, el)] *)
Definition insert_first (el root : element) : element :=
  match root with
  | Element t a x cs tl => Element t a x (el :: cs) tl
  end.

Definition dc_title : string := "{http://purl.org/dc/elements/1.1/}title".
Definition dc_creator : string := "{http://purl.org/dc/elements/1.1/}creator".

(** ** The world outside the script *)

(** A place where the operating system can refuse an operation. *)
Inductive site :=
| SCopy2 (src dst : string)
| SMkdtemp
| SExtractAll (src : string)
| SWriteText (rel : string)
| SMove (src dst : string)
| SZipWrite (out : string)
| SSave (p : string)
| SUnlink (p : string)
| SRmtree.

(** What one call of [pypandoc.convert_file] does: it raises, it returns
    without having written its output file, or it writes the output. *)
Inductive conversion :=
| ConvRaises (e : string)
| ConvSilent
| ConvWrites (d : file_data).

Record World := mkWorld {
  (** [datetime.datetime.utcnow()] at the n-th reading of the clock, as
      [isoformat()] and as [strftime("%Y%m%d%H%M%S")] *)
  utcnow_isoformat : nat -> string;
  utcnow_compact : nat -> string;
  (** did the three guarded imports succeed? *)
  Document_imported : bool;
  etree_imported : bool;
  pypandoc_imported : bool;
  (** lxml: the recovering parser of [safe_parse_xml], the default parser
      of [etree.fromstring] ([inl e]: it raises [e]), and [etree.tostring]
      with declaration and pretty printing, decoded *)
  etree_parse : string -> string + element;
  etree_fromstring : string -> string + element;
  etree_tostring : element -> string;
  (** the text of the error that [etree.parse] raises on a path that it
      cannot read; the flag says whether the path is a directory *)
  etree_read_error : string -> bool -> string;
  (** python-docx: [Some e] when [Document(...)] raises [e] on the file *)
  Document : file_data -> option string;
  (** pypandoc *)
  get_pandoc_version : option string;
  convert_file : file_data -> string -> conversion;
  (** [zipfile]: the text of the exception that [ZipFile(p, 'r')] raises
      on a file that is not an archive it can read *)
  bad_zip_file : file_data -> string;
  (** the directory [tempfile.mkdtemp] creates *)
  mkdtemp : string;
  (** the text of the [OSError] that the operating system's error of a
      given number has on a given path, as in
      [[Errno 2] No such file or directory: '/tmp/x'] *)
  oserror : nat -> string -> string;
  (** [Some e]: the operating system refuses the operation with [e] *)
  os_error : site -> option string
}.

(** ** State *)

(** The functions of the script, for the ghost trace. *)
Inductive fname :=
| Fbackup_file | Funzip_to_temp | Ffix_core_properties | Fsanitize_xml_files
| Fremove_custom_xml | Frezip_from_temp | Ftry_open_with_python_docx
| Fpandoc_roundtrip.

(** The ghost trace: calls of the script's functions and of the
    collaborators, in the order they happen.  An event records the attempt;
    [LoadDocument] and [Save] also record whether the call went through,
    and [ConvertFile] what pandoc did. *)
Inductive event :=
| Call (f : fname)
| Copy2 (src dst : string)
| ExtractAll (src : string)
| PathExists (rel : string)
| ParseXml (rel : string)
| WriteText (rel : string)
| Move (src dst : string)
| ZipWrite (out : string)
| LoadDocument (p : string) (ok : bool)
| PandocVersion
| ConvertFile (src fmt dst : string) (outcome : conversion)
| Unlink (p : string)
| Save (p : string) (ok : bool)
| Rmtree.

Record state := mkState {
  disk : gmap string file_data;
  scratch : option (gmap string string);
  report : RepairReport;
  ticks : nat;
  trace : list event
}.

Definition with_disk (f : gmap string file_data -> gmap string file_data)
    (s : state) : state :=
  mkState (f (disk s)) (scratch s) (report s) (ticks s) (trace s).
Definition with_scratch (c : option (gmap string string)) (s : state) : state :=
  mkState (disk s) c (report s) (ticks s) (trace s).
Definition with_report (f : RepairReport -> RepairReport) (s : state) : state :=
  mkState (disk s) (scratch s) (f (report s)) (ticks s) (trace s).
Definition with_tick (s : state) : state :=
  mkState (disk s) (scratch s) (report s) (S (ticks s)) (trace s).
Definition with_event (ev : event) (s : state) : state :=
  mkState (disk s) (scratch s) (report s) (ticks s) (trace s ++ [ev]).

(** The files of the scratch directory; none when it does not exist. *)
Definition files (s : state) : gmap string string := default ∅ (scratch s).

(** A change of the files of the scratch directory, which is there
    afterwards. *)
Definition with_files (f : gmap string string -> gmap string string)
    (s : state) : state :=
  with_scratch (Some (f (files s))) s.

(** ** The monad: state and exceptions *)

Inductive result (A : Type) :=
| Ok (a : A)
| Raise (e : string).
Arguments Ok {A} a.
Arguments Raise {A} e.

Definition M (A : Type) : Type := state -> result A * state.

#[global] Instance M_ret : MRet M := λ A a s, (Ok a, s).

#[global] Instance M_bind : MBind M := λ A B f m s,
  match m s with
  | (Ok a, s') => f a s'
  | (Raise e, s') => (Raise e, s')
  end.

Definition raise {A} (e : string) : M A := λ s, (Raise e, s).

(** [try: m  except Exception as e: h e] *)
Definition try_except {A} (m : M A) (h : string -> M A) : M A := λ s,
  match m s with
  | (Ok a, s') => (Ok a, s')
  | (Raise e, s') => h e s'
  end.

(** [try: m  finally: fin] *)
Definition try_finally {A} (m : M A) (fin : M unit) : M A := λ s,
  match m s with
  | (r, s') =>
      match fin s' with
      | (Ok _, s'') => (r, s'')
      | (Raise e, s'') => (Raise e, s'')
      end
  end.

Definition get : M state := λ s, (Ok s, s).
Definition modify (f : state -> state) : M unit := λ s, (Ok tt, f s).
Definition emit (ev : event) : M unit := modify (with_event ev).

(** A value computed outside the monad that may be a [ValueError]. *)
Definition lift {A} (r : string + A) : M A :=
  match r with
  | inl e => raise e
  | inr a => mret a
  end.

(** The operating system may refuse at [x]. *)
Definition os_check (w : World) (x : site) : M unit :=
  match os_error w x with
  | Some e => raise e
  | None => mret tt
  end.

(** ** The script *)

Section Script.

Variable w : World.

(** *** Clock *)

(** [datetime.datetime.utcnow().isoformat()] *)
Definition utcnow_iso : M string := λ s,
  (Ok (utcnow_isoformat w (ticks s)), with_tick s).

(** [datetime.datetime.utcnow().strftime("%Y%m%d%H%M%S")] *)
Definition utcnow_strftime : M string := λ s,
  (Ok (utcnow_compact w (ticks s)), with_tick s).

Definition now_ts : M string :=
  t ← utcnow_iso; mret (t +:+ "Z").

(** *** [RepairReport] *)

Definition RepairReport_init (input : string) : M unit :=
  t ← now_ts;
  modify (with_report (λ _, mkReport input None t [] [] None None)).

(** [self.data["actions"].append(e)] and [self.data["errors"].append(e)] *)
Definition push_action (e : entry) (r : RepairReport) : RepairReport :=
  mkReport (input_path r) (backup_path r) (timestamp r)
           (actions r ++ [e]) (errors r) (final_docx r) (final_docx_ok r).

Definition push_error (e : entry) (r : RepairReport) : RepairReport :=
  mkReport (input_path r) (backup_path r) (timestamp r)
           (actions r) (errors r ++ [e]) (final_docx r) (final_docx_ok r).

Definition add_action (m : string) : M unit :=
  t ← now_ts;
  modify (with_report (push_action (mkEntry t m))).

Definition add_error (m : string) : M unit :=
  t ← now_ts;
  modify (with_report (push_error (mkEntry t m))).

(** [self.data[key] = value], for the three keys the script sets. *)
Definition put_backup_path (v : string) (r : RepairReport) : RepairReport :=
  mkReport (input_path r) (Some v) (timestamp r) (actions r) (errors r)
           (final_docx r) (final_docx_ok r).

Definition put_final_docx (v : string) (r : RepairReport) : RepairReport :=
  mkReport (input_path r) (backup_path r) (timestamp r) (actions r)
           (errors r) (Some v) (final_docx_ok r).

Definition put_final_docx_ok (v : bool) (r : RepairReport) : RepairReport :=
  mkReport (input_path r) (backup_path r) (timestamp r) (actions r)
           (errors r) (final_docx r) (Some v).

(** [report.set(key, value)] *)
Definition set_backup_path (v : string) : M unit :=
  modify (with_report (put_backup_path v)).

Definition set_final_docx (v : string) : M unit :=
  modify (with_report (put_final_docx v)).

Definition set_final_docx_ok (v : bool) : M unit :=
  modify (with_report (put_final_docx_ok v)).

(** [report.save(path)]: the file receives the report as it is now. *)
Definition save (p : string) : M unit :=
  match os_error w (SSave p) with
  | Some e => emit (Save p false);; raise e
  | None =>
      emit (Save p true);;
      s ← get;
      modify (with_disk <[p := JsonReport (report s)]>)
  end.

(** *** Files outside the scratch directory *)

Definition no_such_file (p : string) : string := oserror w 2 p.

(** [Path.exists()] *)
Definition disk_exists (p : string) : M bool :=
  s ← get; mret (bool_decide (is_Some (disk s !! p))).

(** [shutil.copy2(src, dst)] *)
Definition copy2 (src dst : string) : M unit :=
  emit (Copy2 src dst);;
  os_check w (SCopy2 src dst);;
  s ← get;
  match disk s !! src with
  | None => raise (no_such_file src)
  | Some d => modify (with_disk <[dst := d]>)
  end.

(** [Path.unlink()] *)
Definition unlink (p : string) : M unit :=
  emit (Unlink p);;
  os_check w (SUnlink p);;
  modify (with_disk (delete p)).

(** *** The scratch directory

    Its files are addressed by their path relative to the directory.  A
    key that ends in the separator is a directory that was made as such,
    with no content of its own: this is how an empty directory is there.
    A directory is there when a key lies below it. *)

Definition is_dir (t : gmap string string) (rel : string) : bool :=
  bool_decide (map_Exists (λ k _, String.prefix (rel +:+ "/") k = true) t).

Definition is_file (t : gmap string string) (rel : string) : bool :=
  bool_decide (is_Some (t !! rel)).

(** [(tmpdir / rel).exists()] *)
Definition path_exists (rel : string) : M bool :=
  emit (PathExists rel);;
  s ← get; mret (is_file (files s) rel || is_dir (files s) rel).

(** [tempfile.mkdtemp(prefix="docx_repair_")] *)
Definition mkdtemp_call : M string :=
  os_check w SMkdtemp;;
  modify (with_scratch (Some ∅));;
  mret (mkdtemp w).

(** [ZipFile.extractall(tmp)] makes the upper directories of a member
    before it writes it.  On the way to the member with the components
    [parts], below [at_], the first directory that is a file of [t] cannot
    be entered: the result is the path that the operating system refuses,
    the one of the component after it. *)
Fixpoint blocked (t : gmap string string) (at_ : string)
    (parts : list string) : option string :=
  match parts with
  | [] => None
  | x :: rest =>
      match rest with
      | [] => None
      | y :: _ =>
          let here := if String.eqb at_ "" then x else at_ +:+ "/" +:+ x in
          if is_file t here then Some (here +:+ "/" +:+ y)
          else blocked t here rest
      end
  end.

(** [ZipFile._extract_member]: the name of the member loses its empty
    components and its [.] and [..]; a member that is a directory is made
    unless it is there, a member that is a file is written, over an
    earlier file of the same path. *)
Definition extract_member (tmpdir : string) (t : gmap string string)
    (e : string * string) : string + gmap string string :=
  let parts := List.filter valid_part (split_path e.1) in
  let rel := join_path parts in
  let target := if String.eqb rel "" then tmpdir
                else tmpdir +:+ "/" +:+ rel in
  match blocked t "" parts with
  | Some p =>
      inl (oserror w 20 (tmpdir +:+ "/" +:+ p))
  | None =>
      if String.eqb e.1 "" then inl "string index out of range"
      else if ends_with_sep e.1 then
        if String.eqb rel "" then inr t
        else if is_file t rel
        then inl (oserror w 17 target)
        else inr (<[rel +:+ "/" := ""]> t)
      else
        if String.eqb rel "" || is_dir t rel
        then inl (oserror w 21 target)
        else inr (<[rel := e.2]> t)
  end.

(** The members are extracted in their order; what was extracted before a
    member that fails stays. *)
Fixpoint extract_entries (tmpdir : string) (es : list (string * string))
    (t : gmap string string) : gmap string string * option string :=
  match es with
  | [] => (t, None)
  | e :: rest =>
      match extract_member tmpdir t e with
      | inl err => (t, Some err)
      | inr t' => extract_entries tmpdir rest t'
      end
  end.

(** [ZipFile(p, 'r').extractall(tmp)] *)
Definition extractall (tmpdir p : string) : M unit :=
  emit (ExtractAll p);;
  s ← get;
  match disk s !! p with
  | None => raise (no_such_file p)
  | Some (ZipArchive es) =>
      os_check w (SExtractAll p);;
      let '(t, err) := extract_entries tmpdir es (files s) in
      modify (with_files (λ _, t));;
      match err with
      | Some e => raise e
      | None => mret tt
      end
  | Some d => raise (bad_zip_file w d)
  end.

(** [shutil.rmtree(tmpdir)] *)
Definition rmtree : M unit :=
  emit Rmtree;;
  os_check w SRmtree;;
  modify (with_scratch None).

(** The new place of [k] when [src] is renamed to [dst]. *)
Definition rename_key (src dst k : string) : string :=
  if String.eqb k src then dst
  else if String.prefix (src +:+ "/") k
       then dst +:+ drop_string (String.length src) k
       else k.

(** [os.rename(src, dst)]: a file that is at [dst] is replaced. *)
Definition rename_tree (src dst : string) (t : gmap string string)
    : gmap string string :=
  list_to_map (map (λ kv, (rename_key src dst kv.1, kv.2))
                   (map_to_list (delete dst t))).

(** [shutil.move(src, dst)] inside the scratch directory: into [dst] when
    [dst] is a directory, unless the place is taken; onto [dst] otherwise,
    which a directory cannot be moved onto when [dst] is a file. *)
Definition shutil_move (tmpdir src dst : string) : M unit :=
  emit (Move src dst);;
  os_check w (SMove src dst);;
  s ← get;
  let t := files s in
  let real_dst := if is_dir t dst then dst +:+ "/" +:+ src else dst in
  if is_dir t dst && (is_file t real_dst || is_dir t real_dst)
  then raise ("Destination path '" +:+ tmpdir +:+ "/" +:+ real_dst
              +:+ "' already exists")
  else if is_dir t src && is_file t real_dst
  then raise (oserror w 17 (tmpdir +:+ "/" +:+ real_dst))
  else modify (with_files (rename_tree src real_dst)).

(** *** Low-level helpers *)

Definition ensure_pandoc_available : M bool :=
  if negb (pypandoc_imported w) then
    add_action "pypandoc not installed; pandoc fallback disabled.";;
    mret false
  else
    try_except
      (emit PandocVersion;;
       match get_pandoc_version w with
       | Some e => raise e
       | None => mret tt
       end;;
       add_action "pandoc found via pypandoc.";;
       mret true)
      (λ e, add_error ("pandoc not available: " +:+ e);; mret false).

Definition backup_file (src : Path) : M Path :=
  emit (Call Fbackup_file);;
  ts ← utcnow_strftime;
  dst ← lift (with_suffix src (suffix src +:+ ".backup." +:+ ts));
  copy2 (str src) (str dst);;
  set_backup_path (str dst);;
  add_action ("Backed up original file to " +:+ str dst);;
  mret dst.

Definition unzip_to_temp (docx_path : Path) : M string :=
  emit (Call Funzip_to_temp);;
  tmp ← mkdtemp_call;
  add_action ("Created temp dir " +:+ tmp);;
  try_except
    (extractall tmp (str docx_path);;
     add_action "Extracted docx zip to temp dir";;
     mret tmp)
    (λ e, add_error ("Failed to unzip " +:+ str docx_path +:+ ": " +:+ e);;
          raise e).

(** The members that the loop of [rezip_from_temp] writes for the keys [l]
    of the scratch directory: [os.walk] lists the files, so that a
    directory gives no member; a file is stored under its [arcname], and
    the loop ends with the exception of [z.write] when there is none. *)
Fixpoint zip_members (l : list (string * string))
    : list (string * string) * option string :=
  match l with
  | [] => ([], None)
  | kv :: rest =>
      if ends_with_sep kv.1 then zip_members rest
      else match arcname kv.1 with
           | inl e => ([], Some e)
           | inr n => let '(es, err) := zip_members rest in
                      ((n, kv.2) :: es, err)
           end
  end.

(** The archive is closed by the [with] statement, with the members
    written so far, also when the loop is left by an exception. *)
Definition rezip_from_temp (tmpdir : string) (out_docx : Path) : M unit :=
  emit (Call Frezip_from_temp);;
  emit (ZipWrite (str out_docx));;
  os_check w (SZipWrite (str out_docx));;
  s ← get;
  let '(es, err) := zip_members (map_to_list (files s)) in
  modify (with_disk <[str out_docx := ZipArchive es]>);;
  match err with
  | Some e => raise e
  | None => add_action ("Rebuilt docx as " +:+ str out_docx)
  end.

(** [etree.parse(str(path), parser)] followed by [etree.tostring]. *)
Definition parse_and_print (tmpdir rel : string) : M string :=
  emit (ParseXml rel);;
  s ← get;
  match files s !! rel with
  | None => raise (etree_read_error w (tmpdir +:+ "/" +:+ rel)
                                      (is_dir (files s) rel))
  | Some c => t ← lift (etree_parse w c); mret (etree_tostring w t)
  end.

Definition safe_parse_xml (tmpdir rel : string) : M (bool * string) :=
  if negb (etree_imported w) then
    add_error "lxml not installed; cannot parse XML safely.";;
    mret (false, "lxml missing")
  else
    try_except
      (pretty ← parse_and_print tmpdir rel; mret (true, pretty))
      (λ e, add_error ("XML parse error for " +:+ tmpdir +:+ "/" +:+ rel
                       +:+ ": " +:+ e);;
            mret (false, e)).

Definition write_text_file (tmpdir rel text : string) : M unit :=
  emit (WriteText rel);;
  os_check w (SWriteText rel);;
  s ← get;
  if is_dir (files s) rel
  then raise (oserror w 21 (tmpdir +:+ "/" +:+ rel))
  else modify (with_files <[rel := text]>).

(** *** High-level repair strategies *)

Definition core_xml : string := "docProps/core.xml".

(** The f-string of [fix_core_properties]; [t1] and [t2] are its two
    readings of the clock. *)
Definition minimal_core (t1 t2 : string) : string :=
  "<?xml version=" +:+ dquote +:+ "1.0" +:+ dquote +:+ " encoding=" +:+ dquote
  +:+ "UTF-8" +:+ dquote +:+ " standalone=" +:+ dquote +:+ "yes" +:+ dquote
  +:+ "?>" +:+ newline
  +:+ "<cp:coreProperties xmlns:cp=" +:+ dquote
  +:+ "http://schemas.openxmlformats.org/package/2006/metadata/core-properties"
  +:+ dquote +:+ newline
  +:+ " xmlns:dc=" +:+ dquote +:+ "http://purl.org/dc/elements/1.1/" +:+ dquote
  +:+ newline
  +:+ " xmlns:dcterms=" +:+ dquote +:+ "http://purl.org/dc/terms/" +:+ dquote
  +:+ newline
  +:+ " xmlns:xsi=" +:+ dquote +:+ "http://www.w3.org/2001/XMLSchema-instance"
  +:+ dquote +:+ ">" +:+ newline
  +:+ "  <dc:title>Repaired Document</dc:title>" +:+ newline
  +:+ "  <dc:creator>AutoRepair</dc:creator>" +:+ newline
  +:+ "  <cp:lastModifiedBy>AutoRepair</cp:lastModifiedBy>" +:+ newline
  +:+ "  <dcterms:created xsi:type=" +:+ dquote +:+ "dcterms:W3CDTF" +:+ dquote
  +:+ ">" +:+ t1 +:+ "Z</dcterms:created>" +:+ newline
  +:+ "  <dcterms:modified xsi:type=" +:+ dquote +:+ "dcterms:W3CDTF" +:+ dquote
  +:+ ">" +:+ t2 +:+ "Z</dcterms:modified>" +:+ newline
  +:+ "</cp:coreProperties>".

(** [title is None or (title.text or "").strip() == ""] *)
Definition title_missing (root : element) : bool :=
  match find_descendant dc_title root with
  | None => true
  | Some title => blank_text (el_text title)
  end.

(** [creator is None] *)
Definition creator_missing (root : element) : bool :=
  match find_descendant dc_creator root with
  | None => true
  | Some _ => false
  end.

Definition fix_core_properties (tmpdir : string) : M unit :=
  emit (Call Ffix_core_properties);;
  present ← path_exists core_xml;
  if negb present then
    add_action "No core.xml found - nothing to fix for metadata."
  else
    '(ok, content) ← safe_parse_xml tmpdir core_xml;
    if negb ok then
      add_action "Attempting to rewrite core.xml with safer template.";;
      t1 ← utcnow_iso;
      t2 ← utcnow_iso;
      write_text_file tmpdir core_xml (minimal_core t1 t2);;
      add_action "Wrote minimal core.xml"
    else
      try_except
        (root ← lift (etree_fromstring w content);
         let no_title := title_missing root in
         let no_creator := creator_missing root in
         root ← (if no_title then
                   add_action "Inserted missing title tag in core.xml";;
                   mret (insert_first
                           (new_element dc_title "Repaired Document") root)
                 else mret root);
         root ← (if no_creator then
                   add_action "Inserted missing creator tag in core.xml";;
                   mret (insert_first
                           (new_element dc_creator "AutoRepair") root)
                 else mret root);
         write_text_file tmpdir core_xml (etree_tostring w root);;
         add_action "Rewrote core.xml with ensured basic metadata")
        (λ e, add_error ("Failed to rewrite core.xml properly: " +:+ e)).

(** The body of the loop of [sanitize_xml_files]. *)
Definition sanitize_one (tmpdir rel : string) : M unit :=
  present ← path_exists rel;
  if negb present then
    add_action (rel +:+ " not present; skipping.")
  else
    '(ok, content) ← safe_parse_xml tmpdir rel;
    if (ok : bool) then
      try_except
        (write_text_file tmpdir rel content;;
         add_action ("Sanitized XML for " +:+ rel))
        (λ e, add_error ("Failed to write sanitized XML to " +:+ rel
                         +:+ ": " +:+ e))
    else
      add_action ("Could not fully parse " +:+ rel
                  +:+ "; leaving for pandoc fallback.").

Fixpoint sanitize_each (tmpdir : string) (target_files : list string)
    : M unit :=
  match target_files with
  | [] => mret tt
  | rel :: rest => sanitize_one tmpdir rel;; sanitize_each tmpdir rest
  end.

Definition sanitize_xml_files (tmpdir : string) (target_files : list string)
    : M unit :=
  emit (Call Fsanitize_xml_files);;
  sanitize_each tmpdir target_files.

Definition remove_custom_xml (tmpdir : string) : M unit :=
  emit (Call Fremove_custom_xml);;
  present ← path_exists "customXml";
  if (present : bool) then
    shutil_move tmpdir "customXml" "customXml.removed";;
    add_action "Moved customXml to customXml.removed (some Word versions choke on custom XML)."
  else mret tt.

(** [Document(str(docx_path))] *)
Definition load_document (p : string) : M unit :=
  s ← get;
  match disk s !! p with
  | None =>
      emit (LoadDocument p false);;
      raise ("Package not found at '" +:+ p +:+ "'")
  | Some d =>
      match Document w d with
      | Some e => emit (LoadDocument p false);; raise e
      | None => emit (LoadDocument p true)
      end
  end.

Definition try_open_with_python_docx (docx_path : Path) : M bool :=
  emit (Call Ftry_open_with_python_docx);;
  if negb (Document_imported w) then
    add_error "python-docx not installed; cannot validate with Document().";;
    mret false
  else
    try_except
      (load_document (str docx_path);;
       add_action "python-docx successfully opened the file (basic validation OK).";;
       mret true)
      (λ e, add_error ("python-docx failed to open file: " +:+ e);;
            mret false).

(** [pypandoc.convert_file(src, fmt, outputfile=dst)] *)
Definition convert (src fmt dst : string) : M unit :=
  s ← get;
  match disk s !! src with
  | None =>
      let e := "source_file is not a valid path" in
      emit (ConvertFile src fmt dst (ConvRaises e));; raise e
  | Some d =>
      let o := convert_file w d fmt in
      emit (ConvertFile src fmt dst o);;
      match o with
      | ConvRaises e => raise e
      | ConvSilent => mret tt
      | ConvWrites d' => modify (with_disk <[dst := d']>)
      end
  end.

(** The [finally] clause of [pandoc_roundtrip]. *)
Fixpoint cleanup (fs : list Path) : M unit :=
  match fs with
  | [] => mret tt
  | f :: rest =>
      try_except
        (present ← disk_exists (str f);
         if (present : bool) then unlink (str f) else mret tt)
        (λ _, mret tt);;
      cleanup rest
  end.

(** The result of the guarded block is [Some b] when it executed
    [return b] and [None] when control runs on to the final
    [return False]. *)
Definition pandoc_roundtrip (tmpdir : string) (repaired_docx_path : Path)
    : M bool :=
  emit (Call Fpandoc_roundtrip);;
  available ← ensure_pandoc_available;
  if negb available then mret false
  else
    tmp_rezip ← lift (with_name repaired_docx_path
                        (stem repaired_docx_path +:+ ".pandoc_temp.docx"));
    rezip_from_temp tmpdir tmp_rezip;;
    md ← lift (with_suffix tmp_rezip ".md");
    returned ←
      try_finally
        (try_except
           (add_action "Running pandoc docx -> md";;
            convert (str tmp_rezip) "md" (str md);;
            add_action ("Pandoc conversion to markdown saved at " +:+ str md);;
            new_docx ← lift (with_name repaired_docx_path
                               (stem repaired_docx_path
                                +:+ ".pandoc_rebuilt.docx"));
            add_action "Running pandoc md -> docx to rebuild structure";;
            convert (str md) "docx" (str new_docx);;
            present ← disk_exists (str new_docx);
            if (present : bool) then
              copy2 (str new_docx) (str repaired_docx_path);;
              add_action ("Pandoc rebuilt document replaced repaired docx: "
                          +:+ str repaired_docx_path);;
              mret (Some true)
            else mret None)
           (λ e, add_error ("Pandoc roundtrip failed: " +:+ e);; mret None))
        (cleanup [tmp_rezip; md]);
    mret (default false returned).

(** *** Orchestration *)

Definition sanitize_targets : list string :=
  ["word/document.xml"; "word/styles.xml"; "word/_rels/document.xml.rels"].

(** [input_path.with_name(input_path.stem + ".repaired.docx")
     if output_path is None else output_path] *)
Definition repaired_docx_path (input : Path) (output_path : option Path)
    : string + Path :=
  match output_path with
  | None => with_name input (stem input +:+ ".repaired.docx")
  | Some o => inr o
  end.

(** The report is the one of the state; the function returns when the
    computation does. *)
Definition repair_docx (input : Path) (output_path : option Path) : M unit :=
  RepairReport_init (str input);;
  try_except
    (present ← disk_exists (str input);
     if negb present then
       add_error ("Input file not found: " +:+ str input)
     else
       bak ← backup_file input;
       tmpdir ← unzip_to_temp input;
       fix_core_properties tmpdir;;
       sanitize_xml_files tmpdir sanitize_targets;;
       remove_custom_xml tmpdir;;
       repaired_docx ← lift (repaired_docx_path input output_path);
       rezip_from_temp tmpdir repaired_docx;;
       add_action "Attempting to validate repaired docx with python-docx.";;
       ok ← try_open_with_python_docx repaired_docx;
       (if negb ok then
          add_action "python-docx validation failed - attempting pandoc roundtrip fallback.";;
          pandoc_ok ← pandoc_roundtrip tmpdir repaired_docx;
          if (pandoc_ok : bool) then add_action "Pandoc fallback succeeded."
          else add_error "Pandoc fallback also failed. Final docx may still be corrupt."
        else
          add_action "Repaired document validated successfully with python-docx.");;
       set_final_docx (str repaired_docx);;
       set_final_docx_ok ok;;
       report_file ← lift (with_suffix input ".repair_report.json");
       save (str report_file);;
       add_action ("Saved repair report to " +:+ str report_file);;
       try_except
         (rmtree;;
          add_action ("Removed temp dir " +:+ tmpdir))
         (λ e, add_error ("Failed to remove temp dir " +:+ tmpdir +:+ ": "
                          +:+ e)))
    (λ e, add_error ("Unexpected error during repair: " +:+ e)).

End Script.

(** A run of the script on a file system: no scratch directory yet, a
    clock never read, nothing traced. *)
Definition initial (d : gmap string file_data) : state :=
  mkState d None (mkReport "" None "" [] [] None None) 0 [].

Definition run (w : World) (d : gmap string file_data) (input : Path)
    (output_path : option Path) : state :=
  (repair_docx w input output_path (initial d)).2.

(** * Reasoning about computations *)

(** [outcome m s Q]: running [m] from [s] ends with a result and a state
    that satisfy [Q]. *)
Definition outcome {A} (m : M A) (s : state)
    (Q : result A -> state -> Prop) : Prop :=
  Q (m s).1 (m s).2.

(** [preserves R m]: the state [m] ends in is related by [R] to the one
    it started from, whether [m] returns or raises. *)
Definition preserves {A} (R : relation state) (m : M A) : Prop :=
  ∀ s, R s (m s).2.

(** [returns m]: [m] never raises. *)
Definition returns {A} (m : M A) : Prop :=
  ∀ s, ∃ a, (m s).1 = Ok a.

(** The trace only grows, and by events that satisfy [P]. *)
Definition appends (P : event -> bool) (s s' : state) : Prop :=
  ∃ evs, trace s' = trace s ++ evs ∧ forallb P evs = true.

(** The observation [f] of the state does not change. *)
Definition keeps {X} (f : state -> X) (s s' : state) : Prop :=
  f s' = f s.

(** The property [J] of the state is not lost. *)
Definition maintains (J : state -> Prop) (s s' : state) : Prop :=
  J s -> J s'.

(** ** The phases of [repair_docx]

    The end of the [try] block of [repair_docx], cut out of it so that a
    proof can stop there: [closing] is the block from
    [report.set("final_docx", ...)] on, [epilogue] the block from the
    validation on, [unexpected] the handler of the block and [started] the
    state in which the block is entered.  [repair_docx_phases] below shows
    that [repair_docx] is made of them. *)

Section Phases.

Variable w : World.

Definition closing (input : Path) (tmpdir : string) (repaired_docx : Path)
    (ok : bool) : M unit :=
  set_final_docx (str repaired_docx);;
  set_final_docx_ok ok;;
  report_file ← lift (with_suffix input ".repair_report.json");
  save w (str report_file);;
  add_action w ("Saved repair report to " +:+ str report_file);;
  try_except
    (rmtree w;;
     add_action w ("Removed temp dir " +:+ tmpdir))
    (λ e, add_error w ("Failed to remove temp dir " +:+ tmpdir +:+ ": "
                       +:+ e)).

Definition epilogue (input : Path) (tmpdir : string) (repaired_docx : Path)
    : M unit :=
  add_action w "Attempting to validate repaired docx with python-docx.";;
  ok ← try_open_with_python_docx w repaired_docx;
  (if negb ok then
     add_action w "python-docx validation failed - attempting pandoc roundtrip fallback.";;
     pandoc_ok ← pandoc_roundtrip w tmpdir repaired_docx;
     if (pandoc_ok : bool) then add_action w "Pandoc fallback succeeded."
     else add_error w "Pandoc fallback also failed. Final docx may still be corrupt."
   else
     add_action w "Repaired document validated successfully with python-docx.");;
  closing input tmpdir repaired_docx ok.

Definition unexpected (e : string) : M unit :=
  add_error w ("Unexpected error during repair: " +:+ e).

Definition started (d : gmap string file_data) (input : Path) : state :=
  (RepairReport_init w (str input) (initial d)).2.

(** The states of a run between the stages of the [try] block of
    [repair_docx], lines 305 to 318 of the script:
    [reaches d input out f tmpdir s] when the input file is there, the
    stages before [f] have returned and [f] is the next one to be called,
    in the state [s]; [tmpdir] is the scratch directory that
    [unzip_to_temp] has returned.  At [Ftry_open_with_python_docx] the
    package has been rebuilt and the validation is next. *)
Inductive reaches (d : gmap string file_data) (input : Path)
    (out : option Path) : fname -> string -> state -> Prop :=
| reaches_backup_file :
    is_Some (d !! str input) ->
    reaches d input out Fbackup_file "" (started d input)
| reaches_unzip_to_temp s bak s' :
    reaches d input out Fbackup_file "" s ->
    backup_file w input s = (Ok bak, s') ->
    reaches d input out Funzip_to_temp "" s'
| reaches_fix_core_properties s tmpdir s' :
    reaches d input out Funzip_to_temp "" s ->
    unzip_to_temp w input s = (Ok tmpdir, s') ->
    reaches d input out Ffix_core_properties tmpdir s'
| reaches_sanitize_xml_files tmpdir s s' :
    reaches d input out Ffix_core_properties tmpdir s ->
    fix_core_properties w tmpdir s = (Ok tt, s') ->
    reaches d input out Fsanitize_xml_files tmpdir s'
| reaches_remove_custom_xml tmpdir s s' :
    reaches d input out Fsanitize_xml_files tmpdir s ->
    sanitize_xml_files w tmpdir sanitize_targets s = (Ok tt, s') ->
    reaches d input out Fremove_custom_xml tmpdir s'
| reaches_rezip_from_temp tmpdir s s' :
    reaches d input out Fremove_custom_xml tmpdir s ->
    remove_custom_xml w tmpdir s = (Ok tt, s') ->
    reaches d input out Frezip_from_temp tmpdir s'
| reaches_validation tmpdir s rd s' :
    reaches d input out Frezip_from_temp tmpdir s ->
    repaired_docx_path input out = inr rd ->
    rezip_from_temp w tmpdir rd s = (Ok tt, s') ->
    reaches d input out Ftry_open_with_python_docx tmpdir s'.

(** The stage [f] as [repair_docx] calls it.  The rebuild comes with the
    choice of the output path; the part of the block from the validation
    on counts as one last stage. *)
Definition stage (input : Path) (out : option Path) (f : fname)
    (tmpdir : string) : M unit :=
  match f with
  | Fbackup_file => backup_file w input;; mret tt
  | Funzip_to_temp => unzip_to_temp w input;; mret tt
  | Ffix_core_properties => fix_core_properties w tmpdir
  | Fsanitize_xml_files => sanitize_xml_files w tmpdir sanitize_targets
  | Fremove_custom_xml => remove_custom_xml w tmpdir
  | Frezip_from_temp =>
      rd ← lift (repaired_docx_path input out);
      rezip_from_temp w tmpdir rd
  | Ftry_open_with_python_docx | Fpandoc_roundtrip =>
      rd ← lift (repaired_docx_path input out);
      epilogue input tmpdir rd
  end.

(** The [try] block of [repair_docx] from the stage [f] on. *)
Definition block_from (input : Path) (out : option Path) (f : fname)
    (tmpdir : string) : M unit :=
  let from_rezip t :=
    repaired_docx ← lift (repaired_docx_path input out);
    rezip_from_temp w t repaired_docx;;
    epilogue input t repaired_docx in
  let from_remove t := remove_custom_xml w t;; from_rezip t in
  let from_sanitize t :=
    sanitize_xml_files w t sanitize_targets;; from_remove t in
  let from_fix t := fix_core_properties w t;; from_sanitize t in
  let from_unzip := t ← unzip_to_temp w input; from_fix t in
  match f with
  | Fbackup_file => bak ← backup_file w input; from_unzip
  | Funzip_to_temp => from_unzip
  | Ffix_core_properties => from_fix tmpdir
  | Fsanitize_xml_files => from_sanitize tmpdir
  | Fremove_custom_xml => from_remove tmpdir
  | Frezip_from_temp => from_rezip tmpdir
  | Ftry_open_with_python_docx | Fpandoc_roundtrip =>
      repaired_docx ← lift (repaired_docx_path input out);
      epilogue input tmpdir repaired_docx
  end.

(** A relation that every stage before the validation preserves. *)
Record prologue_preserves (R : relation state) : Prop := {
  pp_backup_file : ∀ p, preserves R (backup_file w p);
  pp_unzip_to_temp : ∀ p, preserves R (unzip_to_temp w p);
  pp_fix_core_properties : ∀ t, preserves R (fix_core_properties w t);
  pp_sanitize_one : ∀ t r, preserves R (sanitize_one w t r);
  pp_sanitize_call : preserves R (emit (Call Fsanitize_xml_files));
  pp_remove_custom_xml : ∀ t, preserves R (remove_custom_xml w t);
  pp_rezip_from_temp : ∀ t p, preserves R (rezip_from_temp w t p)
}.

End Phases.

(** The place of a stage in the run. *)
Definition stage_index (f : fname) : nat :=
  match f with
  | Fbackup_file => 0
  | Funzip_to_temp => 1
  | Ffix_core_properties => 2
  | Fsanitize_xml_files => 3
  | Fremove_custom_xml => 4
  | Frezip_from_temp => 5
  | Ftry_open_with_python_docx => 6
  | Fpandoc_roundtrip => 7
  end.

(** Two relations at once. *)
Definition both (R1 R2 : relation state) (s s' : state) : Prop :=
  R1 s s' ∧ R2 s s'.

(** ** Observations of the trace *)

(** An event that satisfies [Q] is in the trace. *)
Definition happened (Q : event -> bool) (s : state) : bool :=
  existsb Q (trace s).

(** No event that satisfies [Q] is added to the trace. *)
Definition silent (Q : event -> bool) : relation state :=
  appends (λ ev, negb (Q ev)).

Definition fname_eqb (f g : fname) : bool :=
  match f, g with
  | Fbackup_file, Fbackup_file
  | Funzip_to_temp, Funzip_to_temp
  | Ffix_core_properties, Ffix_core_properties
  | Fsanitize_xml_files, Fsanitize_xml_files
  | Fremove_custom_xml, Fremove_custom_xml
  | Frezip_from_temp, Frezip_from_temp
  | Ftry_open_with_python_docx, Ftry_open_with_python_docx
  | Fpandoc_roundtrip, Fpandoc_roundtrip => true
  | _, _ => false
  end.

Definition is_call (f : fname) (ev : event) : bool :=
  match ev with
  | Call g => fname_eqb f g
  | _ => false
  end.

(** python-docx opened the package. *)
Definition is_load_ok (ev : event) : bool :=
  match ev with
  | LoadDocument _ ok => ok
  | _ => false
  end.

(** [report.save] was called; the report was written. *)
Definition is_save (ev : event) : bool :=
  match ev with
  | Save _ _ => true
  | _ => false
  end.

Definition is_saved (ev : event) : bool :=
  match ev with
  | Save _ ok => ok
  | _ => false
  end.

(** pandoc was asked to convert a file. *)
Definition is_convert (ev : event) : bool :=
  match ev with
  | ConvertFile _ _ _ _ => true
  | _ => false
  end.

(** The events that bear on the verdict of the run, and those among them
    that the fallback can add. *)
Definition verdict_event (ev : event) : bool :=
  is_load_ok ev || is_call Fpandoc_roundtrip ev || is_saved ev.

Definition fallback_event (ev : event) : bool :=
  is_load_ok ev || is_saved ev.

(** What python-docx says of the file [d]. *)
Definition validates (w : World) (d : option file_data) : bool :=
  Document_imported w &&
  match d with
  | Some x => match Document w x with None => true | Some _ => false end
  | None => false
  end.

(** The field [final_docx_ok] of the report. *)
Definition flag (s : state) : option bool := final_docx_ok (report s).

(** How many events of the trace satisfy [Q]. *)
Definition count (Q : event -> bool) (s : state) : nat :=
  List.length (List.filter Q (trace s)).

(** The report file of the run on [input] holds a report [r] that the
    report in memory has outgrown: the latter has at least one more
    action, the one that logs the save. *)
Definition saved_report (input : Path) (s : state) : Prop :=
  ∃ rf r e rest,
    with_suffix input ".repair_report.json" = inr rf
    ∧ disk s !! str rf = Some (JsonReport r)
    ∧ actions (report s) = actions r ++ e :: rest
    ∧ msg e = "Saved repair report to " +:+ str rf
    ∧ errors r `prefix_of` errors (report s)
    ∧ final_docx r = final_docx (report s)
    ∧ final_docx_ok r = final_docx_ok (report s).

(** The events of the XML sanitize stage on the parts [l]. *)
Definition touches_only (l : list string) (ev : event) : bool :=
  match ev with
  | Call f => fname_eqb f Fsanitize_xml_files
  | PathExists r | ParseXml r | WriteText r => bool_decide (r ∈ l)
  | _ => false
  end.

(** The file that the conversion back to docx wrote, if it wrote one:
    its path and its content. *)
Fixpoint rebuilt_by_pandoc (tr : list event) : option (string * file_data) :=
  match tr with
  | [] => None
  | ConvertFile _ "docx" dst (ConvWrites d) :: rest =>
      match rebuilt_by_pandoc rest with
      | Some x => Some x
      | None => Some (dst, d)
      end
  | _ :: rest => rebuilt_by_pandoc rest
  end.

(** The path of the package that the fallback has pandoc rebuild, for the
    repaired package [rd]. *)
Definition pandoc_rebuilt (rd : Path) : string :=
  dirpart rd +:+ (stem rd +:+ ".pandoc_rebuilt.docx").

(** What pandoc rebuilt, if it rebuilt a package, was written to [N] and
    is on disk there. *)
Definition rebuilt_kept (N : string) (s : state) : Prop :=
  ∀ dst dat, rebuilt_by_pandoc (trace s) = Some (dst, dat) ->
    dst = N ∧ disk s !! N = Some dat.

(** The file that pandoc rebuilt, if it rebuilt one, is on disk, next to
    the repaired package and under the name of [pandoc_rebuilt]. *)
Definition rebuilt_on_disk (input : Path) (out : option Path) (s : state)
    : Prop :=
  ∀ dst dat, rebuilt_by_pandoc (trace s) = Some (dst, dat) ->
    ∃ rd, repaired_docx_path input out = inr rd
          ∧ dst = pandoc_rebuilt rd ∧ disk s !! dst = Some dat.

(** pandoc can be called: pypandoc was imported and finds pandoc. *)
Definition pandoc_usable (w : World) : bool :=
  pypandoc_imported w &&
  match get_pandoc_version w with
  | None => true
  | Some _ => false
  end.

(** The sanitizer can parse the part: lxml is there and its recovering
    parser accepts the content. *)
Definition parses (w : World) (c : option string) : bool :=
  etree_imported w &&
  match c with
  | Some x => match etree_parse w x with inr _ => true | inl _ => false end
  | None => false
  end.

(** [not core_path.exists()] in [fix_core_properties]: the scratch tree
    [t] has neither a file nor a directory [docProps/core.xml]. *)
Definition core_absent (t : gmap string string) : bool :=
  negb (is_file t core_xml || is_dir t core_xml).

(** A path that is not [docProps/core.xml] and does not lie below it. *)
Definition not_core (k : string) : bool :=
  negb (String.eqb k core_xml) && negb (String.prefix (core_xml +:+ "/") k).

(** The scratch tree [t] has no [docProps/core.xml] and holds nothing but
    what the tree [t0] held: a key of [t] is a directory marker or a tidy
    path, and what it holds is what a key of [t0] held, with a backslash
    in its name if and only if the key of [t] has one, unless the key is
    one of the parts that the sanitizer rewrites. *)
Definition kept_from (t0 t : gmap string string) : Prop :=
  core_absent t = true
  ∧ ∀ k v, t !! k = Some v ->
      (ends_with_sep k = true ∨ tidy k = true)
      ∧ (k ∈ sanitize_targets
         ∨ ∃ k0, t0 !! k0 = Some v
                 ∧ backslash_free k0 = backslash_free k).

(** The archive with the entries [es] has a part named [rel]. *)
Definition has_part (rel : string) (es : list (string * string)) : bool :=
  existsb (λ e, String.eqb e.1 rel) es.

(** The stages of [repair_docx], in the order of the calls. *)
Definition pipeline : list fname :=
  [Fbackup_file; Funzip_to_temp; Ffix_core_properties; Fsanitize_xml_files;
   Fremove_custom_xml; Frezip_from_temp; Ftry_open_with_python_docx].

(** The stages of [l] up to [f], with [f]. *)
Fixpoint upto (f : fname) (l : list fname) : list fname :=
  match l with
  | [] => []
  | g :: r => if fname_eqb f g then [g] else g :: upto f r
  end.

(** Every stage of [fs] was called. *)
Definition attempted (fs : list fname) (s : state) : bool :=
  forallb (λ f, happened (is_call f) s) fs.

(** The run on [input] was given up: the last error of the report is the
    missing input or the one that the handler of [repair_docx] logs. *)
Definition aborted (input : Path) (s : state) : Prop :=
  ∃ e, last (errors (report s)) = Some e
       ∧ (msg e = "Input file not found: " +:+ str input
          ∨ ∃ x, msg e = "Unexpected error during repair: " +:+ x).

Definition anything (ev : event) : bool := true.

(** The events that only the part of the run from the validation on
    has. *)
Definition before_validation (ev : event) : bool :=
  is_call Ftry_open_with_python_docx ev || is_save ev.

Definition is_zip (d : file_data) : bool :=
  match d with
  | ZipArchive _ => true
  | _ => false
  end.

(** The last character of a string. *)
Fixpoint last_char (s : string) : option ascii :=
  match s with
  | EmptyString => None
  | String c r =>
      match last_char r with
      | Some x => Some x
      | None => Some c
      end
  end.

(** ** More observations *)

(** The number of dots of a string: a suffix, as [pathlib] cuts it, has
    one at most. *)
Fixpoint dots (s : string) : nat :=
  match s with
  | EmptyString => 0
  | String c r => (if Ascii.eqb c "."%char then 1 else 0) + dots r
  end.

(** The two temporary files of the fallback, next to the repaired package:
    the archive that pandoc reads and the markdown it makes of it. *)
Definition pandoc_temp (rd : Path) : string :=
  dirpart rd +:+ (stem rd +:+ ".pandoc_temp.docx").

Definition pandoc_md (rd : Path) : string :=
  dirpart rd +:+ (stem rd +:+ ".pandoc_temp.md").

(** The report only grows: no entry is removed or rewritten, and the
    fields written at the start stay. *)
Definition grows (s s' : state) : Prop :=
  actions (report s) `prefix_of` actions (report s')
  ∧ errors (report s) `prefix_of` errors (report s')
  ∧ input_path (report s') = input_path (report s)
  ∧ timestamp (report s') = timestamp (report s).

(** python-docx was asked to open a package. *)
Definition is_load (ev : event) : bool :=
  match ev with
  | LoadDocument _ _ => true
  | _ => false
  end.

(** The events of the validation and of what follows a failed one. *)
Definition judged (ev : event) : bool :=
  is_load ev || is_call Ftry_open_with_python_docx ev
  || is_call Fpandoc_roundtrip ev.

(** The removal of the scratch directory, and its extraction. *)
Definition is_rmtree (ev : event) : bool :=
  match ev with
  | Rmtree => true
  | _ => false
  end.

Definition is_extract (ev : event) : bool :=
  match ev with
  | ExtractAll _ => true
  | _ => false
  end.

(** What a run does once the repaired package has been judged. *)
Definition closing_event (ev : event) : bool :=
  is_rmtree ev || is_save ev.

(** The scratch directory is there once the extraction was attempted. *)
Definition unpacking (s : state) : Prop :=
  happened is_extract s = true -> scratch s ≠ None.

(** The world [w] on a machine where python-docx is not installed: the
    import at the top of the script failed and left [Document] as [None]. *)
Definition without_python_docx (w : World) : World := {|
  utcnow_isoformat := utcnow_isoformat w;
  utcnow_compact := utcnow_compact w;
  Document_imported := false;
  etree_imported := etree_imported w;
  pypandoc_imported := pypandoc_imported w;
  etree_parse := etree_parse w;
  etree_fromstring := etree_fromstring w;
  etree_tostring := etree_tostring w;
  etree_read_error := etree_read_error w;
  Document := Document w;
  get_pandoc_version := get_pandoc_version w;
  convert_file := convert_file w;
  bad_zip_file := bad_zip_file w;
  mkdtemp := mkdtemp w;
  oserror := oserror w;
  os_error := os_error w
|}.

(** ** Sample worlds and packages *)

Module Sample.

(** A plain serialiser, and a parser that knows the documents of a table
    by their serialisation and rejects everything else. *)
Fixpoint serialize (e : element) : string :=
  match e with
  | Element tg _ tx cs tl =>
      "<" +:+ tg +:+ ">" +:+ default "" tx
      +:+ (fix go (l : list element) : string :=
             match l with
             | [] => ""
             | c :: r => serialize c +:+ go r
             end) cs
      +:+ "</" +:+ tg +:+ ">" +:+ default "" tl
  end.

Definition body : element :=
  Element "document" [] None [Element "body" [] (Some "hello") [] None] None.

(** Core properties with a title and a creator element that is there but
    empty. *)
Definition core_empty_creator : element :=
  Element "coreProperties" [] None
    [Element dc_title [] (Some "Quarterly report") [] None;
     Element dc_creator [] None [] None] None.

Definition table : list element := [body; core_empty_creator].

Definition parse (c : string) : string + element :=
  match List.find (λ t, String.eqb (serialize t) c) table with
  | Some t => inr t
  | None => inl "Document is empty"
  end.

(** python-docx opens an archive that has a main document part. *)
Definition opens (d : file_data) : option string :=
  match d with
  | ZipArchive es =>
      if existsb (λ e, String.eqb e.1 "word/document.xml") es then None
      else Some "no relationship of type officeDocument"
  | _ => Some "File is not a zip file"
  end.

(** [valid]: python-docx accepts what it can open; otherwise it rejects
    every package.  [pandoc]: pandoc is installed. *)
Definition world (valid pandoc : bool) : World := {|
  utcnow_isoformat := λ n, "2024-05-01T10:00:0" +:+ pretty n;
  utcnow_compact := λ _, "20240501100000";
  Document_imported := true;
  etree_imported := true;
  pypandoc_imported := pandoc;
  etree_parse := parse;
  etree_fromstring := parse;
  etree_tostring := serialize;
  etree_read_error := λ p dir,
    "Error reading file '" +:+ p +:+ "': failed to load external entity"
    +:+ (if dir then ": Is a directory" else "");
  Document := λ d, if valid then opens d else Some "Package not readable";
  get_pandoc_version := None;
  convert_file := λ d fmt,
    if String.eqb fmt "md" then ConvWrites (Bytes "hello")
    else ConvWrites (ZipArchive [("word/document.xml", "<document/>")]);
  bad_zip_file := λ _, "File is not a zip file";
  mkdtemp := "/tmp/docx_repair_k3x9";
  oserror := λ n p,
    "[Errno " +:+ pretty n +:+ "] "
    +:+ match n with
        | 2 => "No such file or directory"
        | 17 => "File exists"
        | 20 => "Not a directory"
        | 21 => "Is a directory"
        | _ => "Unknown error"
        end
    +:+ ": '" +:+ p +:+ "'";
  os_error := λ _, None
|}.

Definition input : Path := mkPath "/home/u/" "report.docx".

Definition on_disk (d : file_data) : gmap string file_data :=
  {[ "/home/u/report.docx" := d ]}.

(** A package without core properties. *)
Definition plain : file_data :=
  ZipArchive [("word/document.xml", serialize body)].

(** A package whose creator is there but empty. *)
Definition anonymous : file_data :=
  ZipArchive [("word/document.xml", serialize body);
              ("docProps/core.xml", serialize core_empty_creator)].

(** A package that has custom XML and the leftovers of an earlier
    repair. *)
Definition leftovers : file_data :=
  ZipArchive [("word/document.xml", serialize body);
              ("customXml/item1.xml", "<item/>");
              ("customXml.removed/customXml/item1.xml", "<item/>")].

(** Not a package at all. *)
Definition not_a_zip : file_data := Bytes "plain text".

(** The state in which the package [d] on disk has been extracted into the
    scratch directory. *)
Definition unpacked (d : file_data) : state :=
  match d with
  | ZipArchive es =>
      with_files (λ t, (extract_entries (world true true)
                          "/tmp/docx_repair_k3x9" es t).1)
                 (initial (on_disk d))
  | _ => initial (on_disk d)
  end.

(** lxml on a part whose white space comes from a character reference.
    The recovering parser keeps the space that [&#32;] stands for, as the
    tail of [body].  Printed, it is a plain space before a tag, and an
    element that has text is not indented; read back, such a space is
    blank text, which the parser drops; and the tree without it is
    printed indented.  [lxml_parse] knows these three documents, and
    [lxml_tostring] prints the two trees. *)
Definition spaced_source : string := "<document><body/>&#32;</document>".

Definition spaced : element :=
  Element "document" [] None [Element "body" [] None [] (Some " ")] None.

Definition unspaced : element :=
  Element "document" [] None [Element "body" [] None [] None] None.

Definition declaration : string :=
  "<?xml version='1.0' encoding='utf-8'?>" +:+ newline.

Definition spaced_print : string :=
  declaration +:+ "<document><body/> </document>" +:+ newline.

Definition unspaced_print : string :=
  declaration +:+ "<document>" +:+ newline +:+ "  <body/>" +:+ newline
  +:+ "</document>" +:+ newline.

Definition lxml_parse (c : string) : string + element :=
  if String.eqb c spaced_source then inr spaced
  else if String.eqb c spaced_print || String.eqb c unspaced_print
       then inr unspaced
       else inl "Document is empty".

Definition lxml_tostring (e : element) : string :=
  match e with
  | Element _ _ _ [Element _ _ _ _ (Some _)] _ => spaced_print
  | _ => unspaced_print
  end.

Definition lxml : World := {|
  utcnow_isoformat := utcnow_isoformat (world true true);
  utcnow_compact := utcnow_compact (world true true);
  Document_imported := true;
  etree_imported := true;
  pypandoc_imported := true;
  etree_parse := lxml_parse;
  etree_fromstring := lxml_parse;
  etree_tostring := lxml_tostring;
  etree_read_error := etree_read_error (world true true);
  Document := opens;
  get_pandoc_version := None;
  convert_file := convert_file (world true true);
  bad_zip_file := bad_zip_file (world true true);
  mkdtemp := mkdtemp (world true true);
  oserror := oserror (world true true);
  os_error := λ _, None
|}.

(** A package whose main part has such a space. *)
Definition with_space : file_data :=
  ZipArchive [("word/document.xml", spaced_source)].

End Sample.

#[global] Instance appends_preorder P : PreOrder (appends P).
Proof.
  split.
  - intros s. exists []. by rewrite app_nil_r.
  - intros s1 s2 s3 (e1 & H1 & F1) (e2 & H2 & F2).
    exists (e1 ++ e2). rewrite H2, H1, <- app_assoc. split; [done|].
    rewrite forallb_app. by rewrite F1, F2.
Qed.

#[global] Instance keeps_preorder {X} (f : state -> X) : PreOrder (keeps f).
Proof.
  split.
  - by intros s.
  - intros s1 s2 s3 H1 H2. unfold keeps in *. congruence.
Qed.

#[global] Instance maintains_preorder J : PreOrder (maintains J).
Proof. split; unfold maintains; [intros s | intros s1 s2 s3]; tauto. Qed.

Section Rules.

Context {A B : Type}.

Lemma outcome_ret (a : A) s Q : Q (Ok a) s -> outcome (mret a) s Q.
Proof. done. Qed.

Lemma outcome_raise e s (Q : result A -> state -> Prop) :
  Q (Raise e) s -> outcome (raise e) s Q.
Proof. done. Qed.

Lemma outcome_bind (m : M A) (f : A -> M B) s Q :
  outcome m s (λ r s1, match r with
                       | Ok a => outcome (f a) s1 Q
                       | Raise e => Q (Raise e) s1
                       end) ->
  outcome (m ≫= f) s Q.
Proof.
  unfold outcome, mbind, M_bind. by destruct (m s) as [[a|e] s1].
Qed.

Lemma outcome_try_except (m : M A) h s Q :
  outcome m s (λ r s1, match r with
                       | Ok a => Q (Ok a) s1
                       | Raise e => outcome (h e) s1 Q
                       end) ->
  outcome (try_except m h) s Q.
Proof.
  unfold outcome, try_except. by destruct (m s) as [[a|e] s1].
Qed.

Lemma outcome_try_finally (m : M A) fin s Q :
  outcome m s (λ r s1,
    outcome fin s1 (λ r2 s2, match r2 with
                             | Ok _ => Q r s2
                             | Raise e => Q (Raise e) s2
                             end)) ->
  outcome (try_finally m fin) s Q.
Proof.
  unfold outcome, try_finally. destruct (m s) as [r s1]. simpl.
  by destruct (fin s1) as [[u|e] s2].
Qed.

Lemma outcome_modify f s (Q : result unit -> state -> Prop) :
  Q (Ok tt) (f s) -> outcome (modify f) s Q.
Proof. done. Qed.

Lemma outcome_get s (Q : result state -> state -> Prop) :
  Q (Ok s) s -> outcome get s Q.
Proof. done. Qed.

Lemma outcome_weaken (m : M A) s (Q Q' : result A -> state -> Prop) :
  outcome m s Q -> (∀ r s1, Q r s1 -> Q' r s1) -> outcome m s Q'.
Proof. unfold outcome. auto. Qed.

(** What is known of [m] by [preserves] and [returns] is enough to go on
    with a symbolic run. *)
Lemma outcome_preserves R (m : M A) s (Q : result A -> state -> Prop) :
  preserves R m -> (∀ r s1, R s s1 -> Q r s1) -> outcome m s Q.
Proof. unfold outcome, preserves. auto. Qed.

Lemma outcome_returns R (m : M A) s (Q : result A -> state -> Prop) :
  preserves R m -> returns m -> (∀ a s1, R s s1 -> Q (Ok a) s1) ->
  outcome m s Q.
Proof.
  unfold outcome. intros HR Hret HQ. destruct (Hret s) as [a Ha].
  rewrite Ha. apply HQ, HR.
Qed.

End Rules.

Section PreservesRules.

Context {A B : Type} (R : relation state) `{!PreOrder R}.

Lemma preserves_ret (a : A) : preserves R (mret a).
Proof. intros s. reflexivity. Qed.

Lemma preserves_raise e : preserves R (raise e : M A).
Proof. intros s. reflexivity. Qed.

Lemma preserves_bind (m : M A) (f : A -> M B) :
  preserves R m -> (∀ a, preserves R (f a)) -> preserves R (m ≫= f).
Proof.
  intros Hm Hf s. unfold mbind, M_bind. specialize (Hm s).
  destruct (m s) as [[a|e] s1]; simpl in *; [|done].
  etrans; [exact Hm | apply Hf].
Qed.

Lemma preserves_try_except (m : M A) h :
  preserves R m -> (∀ e, preserves R (h e)) -> preserves R (try_except m h).
Proof.
  intros Hm Hh s. unfold try_except. specialize (Hm s).
  destruct (m s) as [[a|e] s1]; simpl in *; [done|].
  etrans; [exact Hm | apply Hh].
Qed.

Lemma preserves_try_finally (m : M A) fin :
  preserves R m -> preserves R fin -> preserves R (try_finally m fin).
Proof.
  intros Hm Hf s. unfold try_finally. specialize (Hm s).
  destruct (m s) as [r s1]. specialize (Hf s1).
  destruct (fin s1) as [[u|e] s2]; simpl in *; by etrans.
Qed.

End PreservesRules.

Lemma preserves_modify R f : (∀ s, R s (f s)) -> preserves R (modify f).
Proof. intros H s. apply H. Qed.

Lemma preserves_get R `{!Reflexive R} : preserves R get.
Proof. intros s. reflexivity. Qed.

Lemma returns_ret {A} (a : A) : returns (mret a).
Proof. intros s. by exists a. Qed.

Lemma returns_bind {A B} (m : M A) (f : A -> M B) :
  returns m -> (∀ a, returns (f a)) -> returns (m ≫= f).
Proof.
  intros Hm Hf s. unfold mbind, M_bind. destruct (Hm s) as [a Ha].
  destruct (m s) as [[a'|e] s1]; simpl in *; [|done]. apply Hf.
Qed.

Lemma returns_try_except {A} (m : M A) h :
  (∀ e, returns (h e)) -> returns (try_except m h).
Proof.
  intros Hh s. unfold try_except.
  destruct (m s) as [[a|e] s1]; simpl; [by exists a | apply Hh].
Qed.

Lemma returns_modify f : returns (modify f).
Proof. intros s. by exists tt. Qed.

Lemma returns_get : returns get.
Proof. intros s. by exists s. Qed.

(** The head constant of an application. *)
Ltac head_of t :=
  lazymatch t with
  | ?f _ => head_of f
  | _ => t
  end.

(** [preserves R m] by the structure of [m]; [leaf] proves [R s (f s)] for
    the state changes [f] that [m] makes. *)
Ltac preserves_step leaf :=
  lazymatch goal with
  | |- preserves _ (mret _) => apply (preserves_ret _)
  | |- preserves _ (raise _) => apply (preserves_raise _)
  | |- preserves _ get => apply (preserves_get _)
  | |- preserves _ (mbind _ _) => apply (preserves_bind _); [| intros ?]
  | |- preserves _ (try_except _ _) =>
      apply (preserves_try_except _); [| intros ?]
  | |- preserves _ (try_finally _ _) => apply (preserves_try_finally _)
  | |- preserves _ (modify _) => apply preserves_modify; intros ?; leaf
  | |- preserves _ (λ _, _) => intros ?; cbn [fst snd]; leaf
  | |- preserves _ (let _ := _ in _) => cbv zeta
  | |- preserves _ (match ?x with _ => _ end) => destruct x eqn:?
  | |- preserves _ (cleanup _ (_ :: _)) => cbn [cleanup]
  | |- preserves _ (cleanup _ []) => cbn [cleanup]
  | |- preserves _ ?m => let h := head_of m in progress unfold h
  end.

Ltac preserves_with leaf := repeat preserves_step leaf.

(** [returns m] by the structure of [m]. *)
Ltac returns_step :=
  lazymatch goal with
  | |- returns (mret _) => apply returns_ret
  | |- returns get => apply returns_get
  | |- returns (modify _) => apply returns_modify
  | |- returns (λ _, (Ok _, _)) => intros ?; eexists; reflexivity
  | |- returns (mbind _ _) => apply returns_bind; [| intros ?]
  | |- returns (try_except _ _) => apply returns_try_except; intros ?
  | |- returns (let _ := _ in _) => cbv zeta
  | |- returns (match ?x with _ => _ end) => destruct x eqn:?
  | |- returns ?m => let h := head_of m in progress unfold h
  end.

Ltac returns_auto := repeat returns_step.

#[global] Instance both_preorder R1 R2 `{!PreOrder R1, !PreOrder R2} :
  PreOrder (both R1 R2).
Proof.
  split.
  - intros s. split; reflexivity.
  - intros s1 s2 s3 [H1 H2] [H3 H4]. split; etrans; eauto.
Qed.

Lemma preserves_both {A} R1 R2 (m : M A) :
  preserves R1 m -> preserves R2 m -> preserves (both R1 R2) m.
Proof. intros H1 H2 s. split; [apply H1 | apply H2]. Qed.

(** ** Traces *)

Lemma forallb_negb_mono (Q Q' : event -> bool) evs :
  (∀ ev, Q ev = false -> Q' ev = false) ->
  forallb (λ ev, negb (Q ev)) evs = true ->
  forallb (λ ev, negb (Q' ev)) evs = true.
Proof.
  intros Himp. induction evs as [|ev evs IH]; simpl; [done|].
  intros [H1 H2]%andb_prop. apply negb_true_iff in H1.
  by rewrite (Himp _ H1), (IH H2).
Qed.

Lemma forallb_negb_existsb (Q : event -> bool) evs :
  forallb (λ ev, negb (Q ev)) evs = true -> existsb Q evs = false.
Proof.
  induction evs as [|ev evs IH]; simpl; [done|].
  intros [H1 H2]%andb_prop. apply negb_true_iff in H1.
  by rewrite H1, (IH H2).
Qed.

Lemma silent_weaken Q Q' s s' :
  (∀ ev, Q ev = false -> Q' ev = false) -> silent Q s s' -> silent Q' s s'.
Proof.
  intros Himp (evs & Heq & Hall). exists evs. split; [done|].
  by apply (forallb_negb_mono Q).
Qed.

Lemma silent_happened Q s s' : silent Q s s' -> happened Q s' = happened Q s.
Proof.
  intros (evs & Heq & Hall). unfold happened. rewrite Heq, existsb_app.
  by rewrite (forallb_negb_existsb _ _ Hall), orb_false_r.
Qed.

(** ** Symbolic runs *)

(** The projections of a state that was updated. *)
Tactic Notation "norm" "in" "*" :=
  cbn beta iota zeta delta
    [fst snd disk scratch report ticks trace with_disk with_scratch
     with_files with_report with_tick with_event files initial default id
     from_option
     actions errors final_docx final_docx_ok backup_path input_path timestamp
     push_action push_error put_backup_path put_final_docx put_final_docx_ok
     msg time negb andb orb] in *.

Ltac norm :=
  cbn beta iota zeta delta
    [fst snd disk scratch report ticks trace with_disk with_scratch
     with_files with_report with_tick with_event files initial default id
     from_option
     actions errors final_docx final_docx_ok backup_path input_path timestamp
     push_action push_error put_backup_path put_final_docx put_final_docx_ok
     msg time negb andb orb].

(** One step of a computation; it stops at a case distinction. *)
Ltac run_step :=
  lazymatch goal with
  | |- outcome (mbind _ _) _ _ => apply outcome_bind
  | |- outcome (try_except _ _) _ _ => apply outcome_try_except
  | |- outcome (try_finally _ _) _ _ => apply outcome_try_finally
  | |- outcome (modify _) _ _ => apply outcome_modify
  | |- outcome get _ _ => apply outcome_get
  | |- outcome (mret _) _ _ => apply outcome_ret
  | |- outcome (raise _) _ _ => apply outcome_raise
  | |- outcome (match _ with _ => _ end) _ _ => fail "a case distinction"
  | |- outcome (λ _, _) _ _ => unfold outcome at 1
  | |- outcome ?m _ _ => let h := head_of m in unfold h
  end; norm.

(** The leaves of [preserves_with]: for a relation on the trace, for an
    observation that is kept, for both. *)
Ltac appends_leaf :=
  first [ by (exists []; rewrite app_nil_r)
        | by (eexists [_]; split; reflexivity) ].

Ltac keeps_leaf := reflexivity.

Ltac both_leaf := split; [appends_leaf | keeps_leaf].

(** [H0 : R s0 s1] and [H1 : R s1 s2] become [H0 : R s0 s2]. *)
Ltac extend H0 H1 :=
  let H := fresh in
  pose proof (transitivity H0 H1) as H; clear H0 H1; rename H into H0.

Section Prims.

Variable w : World.

Lemma outcome_add_action m s (Q : result unit -> state -> Prop) :
  Q (Ok tt)
    (with_report
       (push_action (mkEntry (utcnow_isoformat w (ticks s) +:+ "Z") m))
       (with_tick s)) ->
  outcome (add_action w m) s Q.
Proof. done. Qed.

Lemma outcome_add_error m s (Q : result unit -> state -> Prop) :
  Q (Ok tt)
    (with_report
       (push_error (mkEntry (utcnow_isoformat w (ticks s) +:+ "Z") m))
       (with_tick s)) ->
  outcome (add_error w m) s Q.
Proof. done. Qed.

Lemma outcome_emit ev s (Q : result unit -> state -> Prop) :
  Q (Ok tt) (with_event ev s) -> outcome (emit ev) s Q.
Proof. done. Qed.

Lemma outcome_utcnow_iso s (Q : result string -> state -> Prop) :
  Q (Ok (utcnow_isoformat w (ticks s))) (with_tick s) ->
  outcome (utcnow_iso w) s Q.
Proof. done. Qed.

Lemma outcome_utcnow_strftime s (Q : result string -> state -> Prop) :
  Q (Ok (utcnow_compact w (ticks s))) (with_tick s) ->
  outcome (utcnow_strftime w) s Q.
Proof. done. Qed.

Lemma outcome_os_check x s (Q : result unit -> state -> Prop) :
  match os_error w x with
  | Some e => Q (Raise e) s
  | None => Q (Ok tt) s
  end ->
  outcome (os_check w x) s Q.
Proof. unfold os_check. by destruct (os_error w x). Qed.

Lemma outcome_lift {A} (r : string + A) s (Q : result A -> state -> Prop) :
  match r with
  | inl e => Q (Raise e) s
  | inr a => Q (Ok a) s
  end ->
  outcome (lift r) s Q.
Proof. by destruct r. Qed.

End Prims.

(** One step of a computation: the monad, the report, the clock and the
    trace.  It stops at a call of another function of the script and at a
    case distinction. *)
Ltac run_prim :=
  lazymatch goal with
  | |- outcome (mbind _ _) _ _ => apply outcome_bind
  | |- outcome (try_except _ _) _ _ => apply outcome_try_except
  | |- outcome (try_finally _ _) _ _ => apply outcome_try_finally
  | |- outcome (modify _) _ _ => apply outcome_modify
  | |- outcome get _ _ => apply outcome_get
  | |- outcome (mret _) _ _ => apply outcome_ret
  | |- outcome (raise _) _ _ => apply outcome_raise
  | |- outcome (add_action _ _) _ _ => apply outcome_add_action
  | |- outcome (add_error _ _) _ _ => apply outcome_add_error
  | |- outcome (unexpected _ _) _ _ => apply outcome_add_error
  | |- outcome (emit _) _ _ => apply outcome_emit
  | |- outcome (utcnow_iso _) _ _ => apply outcome_utcnow_iso
  | |- outcome (utcnow_strftime _) _ _ => apply outcome_utcnow_strftime
  | |- outcome (os_check _ _) _ _ => apply outcome_os_check
  | |- outcome (lift _) _ _ => apply outcome_lift
  | |- outcome (set_final_docx _) _ _ => apply outcome_modify
  | |- outcome (set_final_docx_ok _) _ _ => apply outcome_modify
  | |- outcome (set_backup_path _) _ _ => apply outcome_modify
  end; norm.

(** The case distinction a computation stops at. *)
Ltac run_case :=
  lazymatch goal with
  | |- outcome (match ?x with _ => _ end) _ _ => destruct x eqn:?; norm
  | |- match ?x with _ => _ end => destruct x eqn:?; norm
  end.

(** The end of [repair_docx], in all its cases. *)
Ltac run_closing :=
  unfold closing, save, rmtree; repeat (first [run_prim | run_case]).

(** What is known of the traces and of the flags goes into the goal. *)
Ltac use_trace_facts :=
  repeat match goal with
         | H : existsb _ (trace _) = _ |- _ => rewrite H
         | H : final_docx_ok (report _) = _ |- _ => rewrite H
         end.

Ltac leaf :=
  first [ done | by eexists | by apply prefix_app_r
        | by rewrite <- ?app_assoc | by rewrite app_nil_r ].

Lemma silent_happened_of Q Q' s s' :
  (∀ ev, Q ev = false -> Q' ev = false) ->
  silent Q s s' -> happened Q' s' = happened Q' s.
Proof. intros H HS. by apply silent_happened, (silent_weaken Q). Qed.

(** [Q ev = false -> Q' ev = false] when [Q] is a disjunction that has
    [Q']. *)
Ltac event_cases :=
  let ev := fresh "ev" in
  intros ev;
  lazymatch goal with
  | |- ?q ev = false -> _ => let h := head_of q in try unfold h
  end;
  repeat lazymatch goal with
         | |- context [?f ev] => destruct (f ev)
         end;
  cbv [orb]; congruence.

(** ** The validator *)

Section Validator.

Variable w : World.

(** [try_open_with_python_docx] never raises; it returns what python-docx
    says of the file and touches neither the files nor the flag. *)
Lemma try_open_outcome p s (Q : result bool -> state -> Prop) :
  (∀ s' b,
     b = validates w (disk s !! str p) ->
     disk s' = disk s -> scratch s' = scratch s ->
     final_docx_ok (report s') = final_docx_ok (report s) ->
     final_docx (report s') = final_docx (report s) ->
     actions (report s) `prefix_of` actions (report s') ->
     (if b then errors (report s') = errors (report s)
      else ∃ e, errors (report s') = errors (report s) ++ [e]) ->
     happened is_load_ok s' = happened is_load_ok s || b ->
     happened (is_call Ftry_open_with_python_docx) s' = true ->
     (∀ E, E (Call Ftry_open_with_python_docx) = false ->
           (∀ q ok, E (LoadDocument q ok) = false) ->
           happened E s' = happened E s) ->
     Q (Ok b) s') ->
  outcome (try_open_with_python_docx w p) s Q.
Proof.
  intros HQ. unfold try_open_with_python_docx, validates in *.
  repeat run_prim. destruct (Document_imported w); norm.
  - repeat run_prim. unfold load_document. repeat run_prim.
    destruct (disk s !! str p) as [d|] eqn:Hd; norm;
      [destruct (Document w d) as [e|] eqn:HD; norm|];
      repeat run_prim; apply HQ; norm; try leaf;
      try (intros E HE1 HE2); unfold happened; norm;
      rewrite ?existsb_app; simpl;
      rewrite ?HE1, ?HE2, ?orb_false_r, ?orb_true_r; done.
  - repeat run_prim. apply HQ; norm; try leaf;
      try (intros E HE1 HE2); unfold happened; norm;
      rewrite ?existsb_app; simpl;
      rewrite ?HE1, ?orb_false_r, ?orb_true_r; done.
Qed.

Lemma pandoc_roundtrip_unjudged t p :
  preserves (both (silent fallback_event) (keeps flag))
    (pandoc_roundtrip w t p).
Proof. preserves_with both_leaf. Qed.

End Validator.

(** ** The run as a whole *)

Lemma run_outcome w d input out (P : state -> Prop) :
  outcome (repair_docx w input out) (initial d) (λ _ s, P s) ->
  P (run w d input out).
Proof. done. Qed.

Section WholeRun.

Variable w : World.

Lemma repair_docx_phases input out :
  repair_docx w input out =
  (RepairReport_init w (str input);;
   try_except
     (present ← disk_exists (str input);
      if negb present then
        add_error w ("Input file not found: " +:+ str input)
      else
        bak ← backup_file w input;
        tmpdir ← unzip_to_temp w input;
        fix_core_properties w tmpdir;;
        sanitize_xml_files w tmpdir sanitize_targets;;
        remove_custom_xml w tmpdir;;
        repaired_docx ← lift (repaired_docx_path input out);
        rezip_from_temp w tmpdir repaired_docx;;
        epilogue w input tmpdir repaired_docx)
     (unexpected w)).
Proof. reflexivity. Qed.

Lemma preserves_sanitize_each R `{!PreOrder R} t l :
  (∀ r, preserves R (sanitize_one w t r)) ->
  preserves R (sanitize_each w t l).
Proof.
  intros H. induction l as [|r l IH]; simpl.
  - apply (preserves_ret _).
  - apply (preserves_bind _); [apply H | intros _; apply IH].
Qed.

Lemma backup_file_named p s a :
  (backup_file w p s).1 = Ok a -> String.eqb (name p) "" = false.
Proof.
  unfold backup_file, with_suffix. destruct (String.eqb (name p) ""); [|done].
  by cbv.
Qed.

(** Every run ends in one of three ways: the input file is missing; an
    exception ends the run before the validation, in a state that the
    relation [R] of the early stages relates to the start; or the run goes
    through the part from the validation on, from the state in which the
    package was rebuilt.  [J f] is what is known of the state when the
    stage [f] has returned. *)
Lemma whole_run_staged (R : relation state) `{!PreOrder R}
    (J : fname -> state -> Prop) (P : state -> Prop) d input out :
  prologue_preserves w R ->
  (d !! str input = None ->
   outcome (add_error w ("Input file not found: " +:+ str input))
     (started w d input) (λ _, P)) ->
  (∀ s e, R (started w d input) s -> outcome (unexpected w e) s (λ _, P)) ->
  (∀ bak s1 tmpdir s2,
     backup_file w input (started w d input) = (Ok bak, s1) ->
     unzip_to_temp w input s1 = (Ok tmpdir, s2) -> J Funzip_to_temp s2) ->
  (∀ t s s', J Funzip_to_temp s ->
     fix_core_properties w t s = (Ok tt, s') -> J Ffix_core_properties s') ->
  (∀ t s s', J Ffix_core_properties s ->
     sanitize_xml_files w t sanitize_targets s = (Ok tt, s') ->
     J Fsanitize_xml_files s') ->
  (∀ t s s', J Fsanitize_xml_files s ->
     remove_custom_xml w t s = (Ok tt, s') -> J Fremove_custom_xml s') ->
  (∀ s s' tmpdir rd,
     R (started w d input) s -> J Fremove_custom_xml s ->
     String.eqb (name input) "" = false ->
     repaired_docx_path input out = inr rd ->
     rezip_from_temp w tmpdir rd s = (Ok tt, s') ->
     outcome (epilogue w input tmpdir rd) s'
       (λ r s'', match r with
                 | Ok _ => P s''
                 | Raise e => outcome (unexpected w e) s'' (λ _, P)
                 end)) ->
  P (run w d input out).
Proof.
  intros [Hbf Huz Hfc Hso Hsc Hrc Hrz] Hmissing Hstop HJ0 HJ1 HJ2 HJ3 Hepi.
  apply run_outcome. rewrite repair_docx_phases.
  apply outcome_bind. unfold outcome at 1.
  change ((RepairReport_init w (str input) (initial d)).2)
    with (started w d input).
  change ((RepairReport_init w (str input) (initial d)).1)
    with (Ok tt : result ()).
  cbv beta iota.
  apply outcome_try_except. unfold disk_exists. repeat run_prim.
  change (disk (started w d input)) with d.
  destruct (d !! str input) as [dat|] eqn:Hin.
  2:{ rewrite bool_decide_false by (by intros [? ?]). norm.
      run_prim. exact (Hmissing eq_refl). }
  rewrite bool_decide_true by eauto. norm.
  assert (H0 : R (started w d input) (started w d input)) by reflexivity.
  apply outcome_bind. unfold outcome at 1.
  pose proof (Hbf input (started w d input)) as H1.
  pose proof (backup_file_named input (started w d input)) as Hname.
  destruct (backup_file w input (started w d input)) as [[bak|e] s1] eqn:E1;
    simpl in *; extend H0 H1; [|by apply Hstop].
  specialize (Hname _ eq_refl).
  pose proof (λ t s2, HJ0 _ _ t s2 eq_refl) as HJ; clear HJ0.
  apply outcome_bind. unfold outcome at 1.
  pose proof (Huz input s1) as H1.
  destruct (unzip_to_temp w input s1) as [[tmpdir|e] s2] eqn:E2;
    simpl in *; extend H0 H1; [|by apply Hstop].
  specialize (HJ _ _ eq_refl).
  apply outcome_bind. unfold outcome at 1.
  pose proof (Hfc tmpdir s2) as H1.
  destruct (fix_core_properties w tmpdir s2) as [[[]|e] s3] eqn:E3;
    simpl in *; extend H0 H1; [|by apply Hstop].
  apply (HJ1 _ _ _ HJ) in E3.
  apply outcome_bind. unfold outcome at 1.
  assert (H1 : R s3 (sanitize_xml_files w tmpdir sanitize_targets s3).2).
  { apply (preserves_bind _); [done|].
    intros _. by apply preserves_sanitize_each. }
  destruct (sanitize_xml_files w tmpdir sanitize_targets s3)
    as [[[]|e] s4] eqn:E4;
    simpl in *; extend H0 H1; [|by apply Hstop].
  apply (HJ2 _ _ _ E3) in E4.
  apply outcome_bind. unfold outcome at 1.
  pose proof (Hrc tmpdir s4) as H1.
  destruct (remove_custom_xml w tmpdir s4) as [[[]|e] s5] eqn:E5;
    simpl in *; extend H0 H1; [|by apply Hstop].
  apply (HJ3 _ _ _ E4) in E5.
  apply outcome_bind.
  destruct (repaired_docx_path input out) as [e|rd] eqn:Hrd.
  { apply outcome_raise. by apply Hstop. }
  apply outcome_ret.
  apply outcome_bind. unfold outcome at 1.
  pose proof (Hrz tmpdir rd s5) as H1.
  destruct (rezip_from_temp w tmpdir rd s5) as [[[]|e] s6] eqn:E6;
    simpl in *; [|extend H0 H1; by apply Hstop].
  by apply (Hepi s5).
Qed.


(** The same without the knowledge of the stages. *)
Lemma whole_run (R : relation state) `{!PreOrder R} (P : state -> Prop)
    d input out :
  prologue_preserves w R ->
  (d !! str input = None ->
   outcome (add_error w ("Input file not found: " +:+ str input))
     (started w d input) (λ _, P)) ->
  (∀ s e, R (started w d input) s -> outcome (unexpected w e) s (λ _, P)) ->
  (∀ s tmpdir rd,
     R (started w d input) s ->
     String.eqb (name input) "" = false ->
     repaired_docx_path input out = inr rd ->
     outcome (epilogue w input tmpdir rd) s
       (λ r s', match r with
                | Ok _ => P s'
                | Raise e => outcome (unexpected w e) s' (λ _, P)
                end)) ->
  P (run w d input out).
Proof.
  intros HR Hmissing Hstop Hepi.
  apply (whole_run_staged R (λ _ _, True)); try done.
  intros s s' tmpdir rd HRs _ Hname Hrd E. apply Hepi; try done.
  transitivity s; [done|].
  pose proof (pp_rezip_from_temp _ _ HR tmpdir rd s) as H.
  by rewrite E in H.
Qed.

End WholeRun.

(** [prologue_preserves] for a relation whose leaves [leaf] proves. *)
Ltac prologue_with leaf :=
  split; intros; preserves_with leaf.

(** ** The states that a run reaches *)

Section Reached.

Variable w : World.

(** Every run ends in one of three ways: the input file is missing; a
    stage that the run has reached raises, and the handler of
    [repair_docx] ends the run in the state the stage raised in; or the
    run reaches the validation and the rest of the block returns. *)
Lemma run_reached d input out :
  let s := run w d input out in
  (d !! str input = None
   ∧ s = (add_error w ("Input file not found: " +:+ str input)
            (started w d input)).2)
  ∨ (∃ f tmpdir s0 e s1,
       reaches w d input out f tmpdir s0
       ∧ stage w input out f tmpdir s0 = (Raise e, s1)
       ∧ s = (unexpected w e s1).2)
  ∨ (∃ tmpdir rd s0 s1,
       reaches w d input out Ftry_open_with_python_docx tmpdir s0
       ∧ repaired_docx_path input out = inr rd
       ∧ epilogue w input tmpdir rd s0 = (Ok tt, s1)
       ∧ s = s1).
Proof.
  cbv zeta. pattern (run w d input out).
  apply run_outcome. rewrite repair_docx_phases.
  apply outcome_bind. unfold outcome at 1; norm.
  change ((RepairReport_init w (str input) (initial d)).2)
    with (started w d input).
  change ((RepairReport_init w (str input) (initial d)).1)
    with (Ok tt : result ()).
  cbv beta iota.
  apply outcome_try_except. unfold disk_exists. repeat run_prim.
  change (disk (started w d input)) with d.
  destruct (d !! str input) as [dat|] eqn:Hin.
  2:{ rewrite bool_decide_false by (by intros [? ?]). norm.
      unfold outcome. left.
      by destruct (add_error w _ (started w d input)) as [[[]|?] ?]. }
  rewrite bool_decide_true by eauto. norm.
  assert (H0 : reaches w d input out Fbackup_file "" (started w d input))
    by (constructor; rewrite Hin; eauto).
  apply outcome_bind. unfold outcome at 1; norm.
  destruct (backup_file w input (started w d input)) as [[bak|e] s1] eqn:E1.
  2:{ unfold outcome; norm. right. left. exists Fbackup_file, "", (started w d input), e, s1.
      split; [done|]. split; [|done].
      unfold stage, mbind, M_bind. by rewrite E1. }
  pose proof (reaches_unzip_to_temp _ _ _ _ _ _ _ H0 E1) as H1.
  apply outcome_bind. unfold outcome at 1; norm.
  destruct (unzip_to_temp w input s1) as [[tmpdir|e] s2] eqn:E2.
  2:{ unfold outcome; norm. right. left. exists Funzip_to_temp, "", s1, e, s2.
      split; [done|]. split; [|done].
      unfold stage, mbind, M_bind. by rewrite E2. }
  pose proof (reaches_fix_core_properties _ _ _ _ _ _ _ H1 E2) as H2.
  apply outcome_bind. unfold outcome at 1; norm.
  destruct (fix_core_properties w tmpdir s2) as [[[]|e] s3] eqn:E3.
  2:{ unfold outcome; norm. right. left.
      by exists Ffix_core_properties, tmpdir, s2, e, s3. }
  pose proof (reaches_sanitize_xml_files _ _ _ _ _ _ _ H2 E3) as H3.
  apply outcome_bind. unfold outcome at 1; norm.
  destruct (sanitize_xml_files w tmpdir sanitize_targets s3)
    as [[[]|e] s4] eqn:E4.
  2:{ unfold outcome; norm. right. left.
      by exists Fsanitize_xml_files, tmpdir, s3, e, s4. }
  pose proof (reaches_remove_custom_xml _ _ _ _ _ _ _ H3 E4) as H4.
  apply outcome_bind. unfold outcome at 1; norm.
  destruct (remove_custom_xml w tmpdir s4) as [[[]|e] s5] eqn:E5.
  2:{ unfold outcome; norm. right. left.
      by exists Fremove_custom_xml, tmpdir, s4, e, s5. }
  pose proof (reaches_rezip_from_temp _ _ _ _ _ _ _ H4 E5) as H5.
  apply outcome_bind.
  destruct (repaired_docx_path input out) as [e|rd] eqn:Hrd.
  { apply outcome_raise. unfold outcome; norm. right. left.
    exists Frezip_from_temp, tmpdir, s5, e, s5.
    split; [done|]. split; [|done]. unfold stage. by rewrite Hrd. }
  apply outcome_ret.
  apply outcome_bind. unfold outcome at 1; norm.
  destruct (rezip_from_temp w tmpdir rd s5) as [[[]|e] s6] eqn:E6.
  2:{ unfold outcome; norm. right. left.
      exists Frezip_from_temp, tmpdir, s5, e, s6.
      split; [done|]. split; [|done].
      unfold stage. rewrite Hrd. unfold lift, mbind, M_bind, mret, M_ret.
      by rewrite E6. }
  pose proof (reaches_validation _ _ _ _ _ _ _ _ H5 Hrd E6) as H6.
  unfold outcome; norm.
  destruct (epilogue w input tmpdir rd s6) as [[[]|e] s7] eqn:E7.
  - right. right. by exists tmpdir, rd, s6, s7.
  - right. left. exists Ftry_open_with_python_docx, tmpdir, s6, e, s7.
    split; [done|]. split; [|done].
    unfold stage. rewrite Hrd. unfold lift, mbind, M_bind, mret, M_ret.
    by rewrite E7.
Qed.

(** What the stages before the validation preserve holds of every state
    that a run reaches. *)
Lemma reaches_preserves (R : relation state) `{!PreOrder R} d input out
    f tmpdir s :
  prologue_preserves w R ->
  reaches w d input out f tmpdir s -> R (started w d input) s.
Proof.
  intros [Hbf Huz Hfc Hso Hsc Hrc Hrz]. induction 1 as
    [ | s bak s' _ IH E | s t s' _ IH E | t s s' _ IH E | t s s' _ IH E
    | t s s' _ IH E | t s rd s' _ IH _ E ].
  - reflexivity.
  - etrans; [exact IH|]. pose proof (Hbf input s) as H. by rewrite E in H.
  - etrans; [exact IH|]. pose proof (Huz input s) as H. by rewrite E in H.
  - etrans; [exact IH|]. pose proof (Hfc t s) as H. by rewrite E in H.
  - etrans; [exact IH|].
    assert (H : R s (sanitize_xml_files w t sanitize_targets s).2).
    { apply (preserves_bind _); [done|].
      intros _. by apply preserves_sanitize_each. }
    by rewrite E in H.
  - etrans; [exact IH|]. pose proof (Hrc t s) as H. by rewrite E in H.
  - etrans; [exact IH|]. pose proof (Hrz t rd s) as H. by rewrite E in H.
Qed.

(** The same for a stage that a run has reached, before the validation. *)
Lemma stage_preserves (R : relation state) `{!PreOrder R} input out f
    tmpdir :
  prologue_preserves w R ->
  stage_index f < 6 ->
  preserves R (stage w input out f tmpdir).
Proof.
  intros [Hbf Huz Hfc Hso Hsc Hrc Hrz] Hf.
  destruct f; simpl in Hf; try lia; unfold stage.
  - apply (preserves_bind _); [done|]. intros. apply (preserves_ret _).
  - apply (preserves_bind _); [done|]. intros. apply (preserves_ret _).
  - done.
  - apply (preserves_bind _); [done|].
    intros _. by apply preserves_sanitize_each.
  - done.
  - apply (preserves_bind _); [|done].
    destruct (repaired_docx_path input out);
      [apply (preserves_raise _) | apply (preserves_ret _)].
Qed.

(** What [rezip_from_temp] leaves when it returns: the archive of the
    files of the scratch directory, at the path it was given. *)
Lemma rezip_from_temp_ok t rd s s' :
  rezip_from_temp w t rd s = (Ok tt, s') ->
  ∃ es, zip_members (map_to_list (files s)) = (es, None)
        ∧ disk s' = <[str rd := ZipArchive es]> (disk s)
        ∧ scratch s' = scratch s
        ∧ flag s' = flag s.
Proof.
  unfold rezip_from_temp, mbind, M_bind, emit, os_check, modify, get. simpl.
  destruct (os_error w _); simpl; [done|].
  unfold files. simpl.
  destruct (zip_members _) as [es [e|]]; simpl; [done|].
  intros [= <-]. by exists es.
Qed.

(** The state in which the validation is reached has the rebuilt
    package at the output path. *)
Lemma reaches_validation_inv d input out tmpdir s0 :
  reaches w d input out Ftry_open_with_python_docx tmpdir s0 ->
  ∃ s rd es,
    reaches w d input out Frezip_from_temp tmpdir s
    ∧ repaired_docx_path input out = inr rd
    ∧ rezip_from_temp w tmpdir rd s = (Ok tt, s0)
    ∧ zip_members (map_to_list (files s0)) = (es, None)
    ∧ disk s0 !! str rd = Some (ZipArchive es).
Proof.
  inversion 1 as [ | | | | | | t s rd s' Hr Hrd E ]; subst.
  destruct (rezip_from_temp_ok _ _ _ _ E) as (es & Hz & Hd & Hs & _).
  exists s, rd, es. split; [done|]. split; [done|]. split; [done|].
  unfold files. rewrite Hs, Hd. split; [done|]. apply lookup_insert_eq.
Qed.

Lemma reaches_flag d input out f tmpdir s :
  reaches w d input out f tmpdir s -> flag s = None.
Proof.
  intros H.
  apply (reaches_preserves (keeps flag)) in H; [exact H|].
  split; intros; preserves_with keeps_leaf.
Qed.

Lemma reaches_no_fallback d input out tmpdir s :
  ¬ reaches w d input out Fpandoc_roundtrip tmpdir s.
Proof. inversion 1. Qed.

(** A run that reaches a stage goes on with the block from that stage on,
    under the handler of [repair_docx]. *)
Lemma run_from d input out f tmpdir s0 :
  reaches w d input out f tmpdir s0 ->
  run w d input out
  = (try_except (block_from w input out f tmpdir) (unexpected w) s0).2.
Proof.
  induction 1 as
    [ Hin | s bak s' _ IH E | s t s' _ IH E | t s s' _ IH E | t s s' _ IH E
    | t s s' _ IH E | t s rd s' _ IH Hrd E ].
  - unfold run. rewrite repair_docx_phases.
    unfold mbind at 1, M_bind at 1.
    change (RepairReport_init w (str input) (initial d))
      with (Ok tt : result (), started w d input).
    cbv beta iota. unfold try_except, disk_exists, mbind, M_bind, get,
      mret, M_ret. simpl.
    change (disk (started w d input)) with d.
    rewrite bool_decide_true by done. simpl. reflexivity.
  - rewrite IH. unfold block_from, try_except, mbind, M_bind.
    by rewrite E.
  - rewrite IH. unfold block_from, try_except, mbind, M_bind.
    by rewrite E.
  - rewrite IH. unfold block_from, try_except, mbind, M_bind.
    by rewrite E.
  - rewrite IH. unfold block_from, try_except, mbind, M_bind.
    by rewrite E.
  - rewrite IH. unfold block_from, try_except, mbind, M_bind.
    by rewrite E.
  - rewrite IH. unfold block_from, try_except, mbind, M_bind, lift,
      mret, M_ret. rewrite Hrd. by rewrite E.
Qed.

(** A stage that raises ends the block. *)
Lemma block_from_raise input out f tmpdir s0 e s1 :
  stage w input out f tmpdir s0 = (Raise e, s1) ->
  block_from w input out f tmpdir s0 = (Raise e, s1).
Proof.
  unfold stage, block_from, mbind, M_bind, lift, mret, M_ret.
  destruct f.
  - by destruct (backup_file w input s0) as [[?|?] ?].
  - by destruct (unzip_to_temp w input s0) as [[?|?] ?].
  - by destruct (fix_core_properties w tmpdir s0) as [[[]|?] ?].
  - by destruct (sanitize_xml_files w tmpdir sanitize_targets s0)
      as [[[]|?] ?].
  - by destruct (remove_custom_xml w tmpdir s0) as [[[]|?] ?].
  - destruct (repaired_docx_path input out) as [?|rd]; [done|].
    by destruct (rezip_from_temp w tmpdir rd s0) as [[[]|?] ?].
  - done.
  - done.
Qed.

(** The run in which a stage that it has reached raises. *)
Lemma run_stage_raise d input out f tmpdir s0 e s1 :
  reaches w d input out f tmpdir s0 ->
  stage w input out f tmpdir s0 = (Raise e, s1) ->
  run w d input out = (unexpected w e s1).2.
Proof.
  intros Hr Hs. rewrite (run_from _ _ _ _ _ _ Hr). unfold try_except.
  by rewrite (block_from_raise _ _ _ _ _ _ _ Hs).
Qed.

End Reached.

(** * The properties of the specification *)

(** ** C3: [final_docx_ok] is the verdict of the validator *)

Lemma happened_verdict s :
  happened verdict_event s = false ->
  happened is_load_ok s = false
  ∧ happened (is_call Fpandoc_roundtrip) s = false
  ∧ happened is_saved s = false.
Proof.
  unfold happened. induction (trace s) as [|ev tr IH]; simpl; [done|].
  intros [H1 H2]%orb_false_elim. destruct (IH H2) as (-> & -> & ->).
  unfold verdict_event in H1.
  apply orb_false_elim in H1 as [[-> ->]%orb_false_elim ->]. done.
Qed.

Ltac verdict_leaf :=
  unfold flag, happened; norm;
  rewrite ?existsb_app; simpl; use_trace_facts; simpl; naive_solver.

(** What the events of a run say of the flag. *)
Lemma final_docx_ok_events w d input out :
  let s := run w d input out in
  (∀ b, flag s = Some b -> b = happened is_load_ok s)
  ∧ (happened is_load_ok s = true -> flag s = Some true)
  ∧ (happened (is_call Fpandoc_roundtrip) s = true -> flag s ≠ Some true)
  ∧ (happened is_saved s = true -> flag s = Some (happened is_load_ok s)).
Proof.
  cbv zeta. pattern (run w d input out).
  apply (whole_run w (both (silent verdict_event) (keeps flag)));
    cbv beta.
  - prologue_with both_leaf.
  - intros _. repeat run_prim. verdict_leaf.
  - intros s e [HS HK]. apply silent_happened in HS.
    change (happened verdict_event (started w d input)) with false in HS.
    destruct (happened_verdict _ HS) as (H1 & H2 & H3).
    change (flag (started w d input)) with (@None bool) in HK.
    unfold keeps, flag, happened in *.
    repeat run_prim. verdict_leaf.
  - intros s tmpdir rd [HS HK] _ _. apply silent_happened in HS.
    change (happened verdict_event (started w d input)) with false in HS.
    destruct (happened_verdict _ HS) as (H1 & H2 & H3). clear HS.
    change (flag (started w d input)) with (@None bool) in HK.
    unfold keeps in HK.
    unfold epilogue. repeat run_prim.
    apply try_open_outcome. intros s1 b Hb Hd Hsc Hf _ _ _ HL HC HE.
    pose proof (HE is_saved eq_refl (λ _ _, eq_refl)) as HS1.
    pose proof (HE (is_call Fpandoc_roundtrip) eq_refl (λ _ _, eq_refl))
      as HP1.
    clear HE. unfold happened, flag in *. norm in *.
    rewrite H1 in HL. rewrite H2 in HP1. rewrite H3 in HS1. rewrite HK in Hf.
    simpl in HL. clear Hb.
    destruct b; norm; repeat run_prim.
    + run_closing; verdict_leaf.
    + apply (outcome_preserves _ _ _ _ (pandoc_roundtrip_unjudged w _ _)).
      intros r s2 [HS2 HK2].
      pose proof (silent_happened_of fallback_event is_load_ok _ _
                    ltac:(event_cases) HS2) as HL2.
      pose proof (silent_happened_of fallback_event is_saved _ _
                    ltac:(event_cases) HS2) as HV2.
      clear HS2. unfold keeps, flag, happened in *. norm in *.
      rewrite HL in HL2. rewrite HS1 in HV2. rewrite Hf in HK2.
      destruct r as [[|]|e]; norm; repeat run_prim;
        first [run_closing; verdict_leaf | verdict_leaf].
Qed.

Section Verdict.

Variable w : World.

(** The part of the run from the validation on sets the flag to what
    python-docx says of the file that is at the output path when the
    validation starts, or leaves it unset. *)
Lemma epilogue_flag input tmpdir rd s0 :
  flag s0 = None ->
  outcome (epilogue w input tmpdir rd) s0
    (λ _ s1, ∀ b, flag s1 = Some b -> b = validates w (disk s0 !! str rd)).
Proof.
  intros H0. unfold epilogue. repeat run_prim.
  apply try_open_outcome. intros s1 b Hb _ _ Hf _ _ _ _ _ _.
  unfold flag in *. norm in *. rewrite H0 in Hf.
  destruct b; norm; repeat run_prim.
  - run_closing; norm; intros ? ?; congruence.
  - apply (outcome_preserves _ _ _ _ (pandoc_roundtrip_unjudged w _ _)).
    intros r s2 [_ HK2]. unfold keeps, flag in HK2. norm in *.
    rewrite Hf in HK2.
    destruct r as [[|]|e]; norm; repeat run_prim.
    all: try run_closing.
    all: norm; intros ? ?; congruence.
Qed.

End Verdict.


(** ** C6: an input that is not a zip container *)

Lemma lookup_insert_same_value {V} (m : gmap string V) p q v :
  m !! p = Some v -> <[q := v]> m !! p = Some v.
Proof.
  intros H. destruct (decide (q = p)) as [->|Hne].
  - apply lookup_insert_eq.
  - by rewrite lookup_insert_ne.
Qed.




(** ** C9: when the report is saved *)

Lemma existsb_false_filter (Q : event -> bool) l :
  existsb Q l = false -> List.filter Q l = [].
Proof.
  induction l as [|x l IH]; simpl; [done|].
  intros [-> H]%orb_false_elim. auto.
Qed.

Lemma not_saved_of_silent s0 s :
  happened is_save s0 = false -> silent is_save s0 s ->
  existsb is_save (trace s) = false ∧ existsb is_saved (trace s) = false.
Proof.
  intros H0 HS. split.
  - apply silent_happened in HS. unfold happened in *. congruence.
  - apply (silent_happened_of is_save is_saved) in HS; [|by intros []].
    unfold happened in *. rewrite HS.
    clear HS. induction (trace s0) as [|ev tr IH]; simpl in *; [done|].
    apply orb_false_elim in H0 as [H1 H2]. rewrite (IH H2).
    by destruct ev.
Qed.

Ltac saved_leaf :=
  intros _; eexists _, _, _, _; split; [eassumption|];
  split; [apply lookup_insert_eq|]; norm;
  split; [first [reflexivity
                | rewrite <- (app_assoc _ [_] [_]); reflexivity]|];
  split; [reflexivity|];
  split; [first [done | by apply prefix_app_r]|done].

Ltac persist_leaf :=
  unfold saved_report, count, happened; norm;
  rewrite ?List.filter_app, ?existsb_app; simpl; use_trace_facts;
  repeat match goal with
         | H : existsb ?Q ?l = false |- context [List.filter ?Q ?l] =>
             rewrite (existsb_false_filter Q l H)
         end;
  simpl;
  split; [lia|]; split; [|done]; try done; saved_leaf.

Section Persist.

Variable w : World.

Lemma pandoc_roundtrip_no_save t p :
  preserves (silent is_save) (pandoc_roundtrip w t p).
Proof. preserves_with appends_leaf. Qed.

Lemma saved_at_most_once d input out :
  let s := run w d input out in
  count is_save s ≤ 1
  ∧ (happened is_saved s = true -> saved_report input s)
  ∧ (happened is_save s = true ->
     happened (is_call Ftry_open_with_python_docx) s = true).
Proof.
  cbv zeta. pattern (run w d input out).
  apply (whole_run w (silent is_save)); cbv beta.
  - prologue_with appends_leaf.
  - intros _. repeat run_prim. persist_leaf.
  - intros s e [H1 H2]%not_saved_of_silent; [|done].
    repeat run_prim. persist_leaf.
  - intros s tmpdir rd HS _ _.
    assert (HS' := HS). apply not_saved_of_silent in HS' as [H1 H2]; [|done].
    unfold epilogue. repeat run_prim.
    apply try_open_outcome. intros s1 b _ _ _ _ _ _ _ _ HC HE.
    pose proof (HE is_save eq_refl (λ _ _, eq_refl)) as HS1.
    pose proof (HE is_saved eq_refl (λ _ _, eq_refl)) as HS2. clear HE.
    unfold happened in *. norm in *. rewrite H1 in HS1. rewrite H2 in HS2.
    destruct b; norm; repeat run_prim.
    + run_closing; persist_leaf.
    + apply (outcome_preserves _ _ _ _ (pandoc_roundtrip_no_save _ _)).
      intros r s2 H0. assert (H0' := H0).
      apply not_saved_of_silent in H0' as [H3 H4]; [|done].
      assert (HC2 : existsb (is_call Ftry_open_with_python_docx) (trace s2)
                    = true).
      { destruct H0 as (evs & Htr & _). rewrite Htr, existsb_app.
        norm. by rewrite HC. }
      destruct r as [[|]|e]; norm; repeat run_prim;
        first [run_closing; persist_leaf | persist_leaf].
Qed.

Lemma no_save_without_zip d input out dat :
  d !! str input = Some dat -> is_zip dat = false ->
  happened is_save (run w d input out) = false.
Proof.
  intros Hin Hzip. pattern (run w d input out). apply run_outcome. cbv beta.
  rewrite repair_docx_phases. unfold RepairReport_init, now_ts, disk_exists.
  repeat run_prim. rewrite Hin, bool_decide_true by eauto. norm.
  unfold backup_file, copy2, with_suffix.
  repeat (first [run_prim | run_case]); try done.
  all: unfold unzip_to_temp, mkdtemp_call, extractall.
  all: repeat (first [run_prim | run_case]); try done.
  match goal with
  | H : d !! str input = Some _, H' : <[_:=_]> d !! str input = Some _ |- _ =>
      rewrite (lookup_insert_same_value _ _ _ _ H) in H'
  end.
  by simplify_eq.
Qed.

End Persist.

(** C9, as the spec states it, fails twice.  A run that goes through
    saves its report and then logs two more actions, which the file does
    not have; a run that fails at extraction saves no report at all. *)
Lemma report_outgrows_its_file_and_is_not_always_saved :
  (let s := run (Sample.world true true) (Sample.on_disk Sample.plain)
                Sample.input None in
   ∃ r, disk s !! "/home/u/report.repair_report.json" = Some (JsonReport r)
        ∧ List.length (actions (report s)) = List.length (actions r) + 2)
  ∧ (let s := run (Sample.world true true) (Sample.on_disk Sample.not_a_zip)
                  Sample.input None in
     disk s !! "/home/u/report.repair_report.json" = None
     ∧ happened is_save s = false).
Proof.
  split.
  - eexists. split; [vm_compute; reflexivity | vm_compute; reflexivity].
  - split; by vm_compute.
Qed.

(** C9, amended.  In every run [report.save] is called at most once; it
    is called only in a run that reached the validation, and not in a run
    whose input is not a zip container.  When it has written the file,
    the file is not written again, but the report in memory goes on
    growing: it gets the action that logs the save, and then the outcome
    of the removal of the scratch directory. *)
Theorem report_saved_at_most_once_then_outgrown w d input out :
  let s := run w d input out in
  count is_save s ≤ 1
  ∧ (happened is_saved s = true -> saved_report input s)
  ∧ (happened is_save s = true ->
     happened (is_call Ftry_open_with_python_docx) s = true)
  ∧ (∀ dat, d !! str input = Some dat -> is_zip dat = false ->
     happened is_save s = false).
Proof.
  cbv zeta. destruct (saved_at_most_once w d input out) as (H1 & H2 & H3).
  repeat split; [done..|]. apply no_save_without_zip.
Qed.

(** ** C10: the package that pandoc rebuilt stays on disk *)

(** *** Strings *)

Lemma append_nil_l (b : string) : "" +:+ b = b.
Proof. reflexivity. Qed.

Lemma append_cons x (a b : string) : String x a +:+ b = String x (a +:+ b).
Proof. reflexivity. Qed.

Lemma append_inj_l (a b c : string) : a +:+ b = a +:+ c -> b = c.
Proof.
  induction a as [|x a IH]; rewrite ?append_nil_l, ?append_cons; [done|].
  intros [=]. auto.
Qed.

Lemma last_char_append (a b : string) :
  last_char (a +:+ b) =
  match last_char b with Some c => Some c | None => last_char a end.
Proof.
  induction a as [|x a IH]; rewrite ?append_nil_l, ?append_cons; simpl.
  - by destruct (last_char b).
  - rewrite IH. destruct (last_char b), (last_char a); reflexivity.
Qed.

Lemma with_name_str p n q : with_name p n = inr q -> str q = dirpart p +:+ n.
Proof. unfold with_name. destruct (String.eqb _ _); [done|]. by intros [= <-]. Qed.

Lemma with_suffix_str p x q :
  with_suffix p x = inr q -> str q = dirpart p +:+ (stem p +:+ x).
Proof. unfold with_suffix. destruct (String.eqb _ _); [done|]. by intros [= <-]. Qed.

(** *** What pandoc rebuilt *)

Lemma rebuilt_by_pandoc_app tr evs :
  rebuilt_by_pandoc (tr ++ evs) =
  match rebuilt_by_pandoc evs with
  | Some x => Some x
  | None => rebuilt_by_pandoc tr
  end.
Proof.
  induction tr as [|ev tr IH]; simpl.
  - by destruct (rebuilt_by_pandoc evs).
  - destruct ev; try apply IH.
    repeat case_match; simplify_eq; try apply IH; try done; congruence.
Qed.

Lemma rebuilt_by_pandoc_none tr :
  existsb is_convert tr = false -> rebuilt_by_pandoc tr = None.
Proof.
  induction tr as [|ev tr IH]; simpl; [done|].
  intros [H1 H2]%orb_false_elim. destruct ev; try done; by apply IH.
Qed.

Section Kept.
Variable N : string.

Lemma rebuilt_kept_report f s : rebuilt_kept N s -> rebuilt_kept N (with_report f s).
Proof. done. Qed.
Lemma rebuilt_kept_tick s : rebuilt_kept N s -> rebuilt_kept N (with_tick s).
Proof. done. Qed.
Lemma rebuilt_kept_scratch c s : rebuilt_kept N s -> rebuilt_kept N (with_scratch c s).
Proof. done. Qed.

Lemma rebuilt_kept_event ev s :
  rebuilt_by_pandoc [ev] = None ->
  rebuilt_kept N s -> rebuilt_kept N (with_event ev s).
Proof.
  intros Hev HJ dst dat. simpl. rewrite rebuilt_by_pandoc_app, Hev. apply HJ.
Qed.

Lemma rebuilt_kept_insert q v s :
  q ≠ N -> rebuilt_kept N s -> rebuilt_kept N (with_disk <[q:=v]> s).
Proof.
  intros Hq HJ dst dat H. destruct (HJ _ _ H) as [-> Hd]. split; [done|].
  simpl. by rewrite lookup_insert_ne.
Qed.

Lemma rebuilt_kept_copy q s dat' :
  disk s !! N = Some dat' ->
  rebuilt_kept N s -> rebuilt_kept N (with_disk <[q:=dat']> s).
Proof.
  intros HN HJ dst dat H. destruct (HJ _ _ H) as [-> Hd]. split; [done|].
  simpl. assert (dat' = dat) as -> by congruence.
  by apply lookup_insert_same_value.
Qed.

Lemma rebuilt_kept_delete q s :
  q ≠ N -> rebuilt_kept N s -> rebuilt_kept N (with_disk (delete q) s).
Proof.
  intros Hq HJ dst dat H. destruct (HJ _ _ H) as [-> Hd]. split; [done|].
  simpl. by rewrite lookup_delete_ne.
Qed.

Lemma rebuilt_kept_none s :
  rebuilt_by_pandoc (trace s) = None -> rebuilt_kept N s.
Proof. intros H dst dat. by rewrite H. Qed.

Lemma rebuilt_kept_written src s dat :
  rebuilt_kept N
    (with_disk <[N:=dat]>
       (with_event (ConvertFile src "docx" N (ConvWrites dat)) s)).
Proof.
  intros dst dat'. simpl. rewrite rebuilt_by_pandoc_app. simpl.
  intros [= <- <-]. split; [done|]. apply lookup_insert_eq.
Qed.

End Kept.

(** [rebuilt_kept N] of a state that was updated, the disk at paths other
    than [N]. *)
Ltac kept_step :=
  lazymatch goal with
  | H : rebuilt_kept ?N ?s |- rebuilt_kept ?N ?s => exact H
  | |- rebuilt_kept _ (with_report _ _) => apply rebuilt_kept_report
  | |- rebuilt_kept _ (with_tick _) => apply rebuilt_kept_tick
  | |- rebuilt_kept _ (with_scratch _ _) => apply rebuilt_kept_scratch
  | |- rebuilt_kept ?N
         (with_disk <[?N:=_]> (with_event (ConvertFile _ _ ?N _) _)) =>
      apply rebuilt_kept_written
  | |- rebuilt_kept _ (with_event _ _) =>
      apply rebuilt_kept_event; [reflexivity|]
  | |- rebuilt_kept _ (with_disk (insert _ _) _) =>
      first [ apply rebuilt_kept_insert; [assumption|]
            | apply rebuilt_kept_copy; [eassumption|] ]
  | |- rebuilt_kept _ (with_disk (delete _) _) =>
      apply rebuilt_kept_delete; [assumption|]
  end.

Ltac kept := repeat kept_step.

Section Rebuilt.
Variable w : World.

Lemma cleanup_rebuilt_kept N fs :
  Forall (λ f, str f ≠ N) fs ->
  preserves (maintains (rebuilt_kept N)) (cleanup w fs).
Proof.
  induction 1 as [|f fs Hf Hfs IH]; simpl.
  - apply (preserves_ret _).
  - apply (preserves_bind _); [|intros _; apply IH].
    preserves_with ltac:(unfold maintains; intros ?; kept).
Qed.

(** The two files that the fallback removes are not the one that pandoc
    rebuilds. *)
Lemma temp_is_not_rebuilt rd tmp :
  with_name rd (stem rd +:+ ".pandoc_temp.docx") = inr tmp ->
  str tmp ≠ pandoc_rebuilt rd.
Proof.
  intros ->%with_name_str. unfold pandoc_rebuilt.
  intros H%append_inj_l%append_inj_l. discriminate.
Qed.

Lemma md_is_not_rebuilt rd tmp md :
  with_suffix tmp ".md" = inr md -> str md ≠ pandoc_rebuilt rd.
Proof.
  intros ->%with_suffix_str. unfold pandoc_rebuilt.
  intros H%(f_equal last_char). rewrite !last_char_append in H.
  discriminate.
Qed.

Lemma report_is_not_rebuilt input rd rf :
  with_suffix input ".repair_report.json" = inr rf ->
  str rf ≠ pandoc_rebuilt rd.
Proof.
  intros ->%with_suffix_str. unfold pandoc_rebuilt.
  intros H%(f_equal last_char). rewrite !last_char_append in H.
  discriminate.
Qed.

Lemma cleanup_frame N fs :
  Forall (λ f, str f ≠ N) fs ->
  preserves (both (maintains (rebuilt_kept N)) (silent is_save))
    (cleanup w fs).
Proof.
  intros H. apply preserves_both; [by apply cleanup_rebuilt_kept|].
  clear H. induction fs as [|f fs IH]; simpl.
  - apply (preserves_ret _).
  - apply (preserves_bind _); [|intros _; apply IH].
    preserves_with appends_leaf.
Qed.

Ltac pandoc_go :=
  repeat first
    [ run_prim
    | run_case
    | lazymatch goal with
      | |- outcome (rezip_from_temp _ _ _) _ _ => unfold rezip_from_temp
      | |- outcome (convert _ _ _ _) _ _ => unfold convert
      | |- outcome (disk_exists _) _ _ => unfold disk_exists
      | |- outcome (copy2 _ _ _) _ _ => unfold copy2
      end ].

(** What is known of the names of the files of the fallback. *)
Ltac name_facts :=
  repeat match goal with
         | H : with_name ?rd (stem ?rd +:+ ".pandoc_temp.docx") = inr _ |- _ =>
             apply temp_is_not_rebuilt in H
         | H : with_suffix _ ".md" = inr _,
           H0 : rebuilt_kept (pandoc_rebuilt ?rd) _ |- _ =>
             apply (md_is_not_rebuilt rd) in H
         | H : with_name ?rd (stem ?rd +:+ ".pandoc_rebuilt.docx") = inr _
           |- _ =>
             apply with_name_str in H;
             change (dirpart rd +:+ (stem rd +:+ ".pandoc_rebuilt.docx"))
               with (pandoc_rebuilt rd) in H;
             rewrite H in *; clear H
         end.

Ltac no_save := norm; rewrite ?existsb_app; simpl; by rewrite ?orb_false_r.

Lemma pandoc_roundtrip_rebuilt_kept t rd s (Q : result bool -> state -> Prop) :
  rebuilt_by_pandoc (trace s) = None ->
  (∀ r s', rebuilt_kept (pandoc_rebuilt rd) s' ->
           existsb is_save (trace s') = existsb is_save (trace s) ->
           Q r s') ->
  outcome (pandoc_roundtrip w t rd) s Q.
Proof.
  intros Hnone HQ.
  pose proof (rebuilt_kept_none (pandoc_rebuilt rd) s Hnone) as HJ0.
  unfold pandoc_roundtrip, ensure_pandoc_available.
  pandoc_go.
  all: name_facts.
  all: try (apply HQ; [by kept | no_save]).
  all: apply (outcome_preserves
                (both (maintains (rebuilt_kept (pandoc_rebuilt rd)))
                      (silent is_save)));
    [apply cleanup_frame; repeat constructor; eassumption|].
  all: intros r2 s2 [HJ2 HS2%silent_happened];
    unfold happened in HS2; norm in *; destruct r2; repeat run_prim.
  all: apply HQ; [apply HJ2; by kept | rewrite HS2; no_save].
Qed.

Lemma rebuilt_kept_enough input out rd s :
  repaired_docx_path input out = inr rd ->
  rebuilt_kept (pandoc_rebuilt rd) s ->
  rebuilt_on_disk input out s.
Proof.
  intros Hrd HJ dst dat H. destruct (HJ _ _ H) as [-> Hd]. by exists rd.
Qed.

Ltac rebuilt_leaf Hrd :=
  apply (rebuilt_kept_enough _ _ _ _ Hrd);
  repeat match goal with
         | H : with_suffix _ ".repair_report.json" = inr _,
           H0 : rebuilt_kept (pandoc_rebuilt ?rd) _ |- _ =>
             apply (report_is_not_rebuilt _ rd) in H
         end;
  by kept.

Lemma rebuilt_on_disk_run d input out :
  rebuilt_on_disk input out (run w d input out).
Proof.
  pattern (run w d input out).
  apply (whole_run w (silent is_convert)); cbv beta.
  - prologue_with appends_leaf.
  - intros _. repeat run_prim. by intros dst dat.
  - intros s e HS%silent_happened.
    change (happened is_convert (started w d input)) with false in HS.
    apply rebuilt_by_pandoc_none in HS. repeat run_prim.
    intros dst dat. norm. by rewrite HS.
  - intros s tmpdir rd HS%silent_happened _ Hrd.
    change (happened is_convert (started w d input)) with false in HS.
    unfold epilogue. repeat run_prim.
    apply try_open_outcome. intros s1 b _ _ _ _ _ _ _ _ _ HE.
    pose proof (HE is_convert eq_refl (λ _ _, eq_refl)) as HC1. clear HE.
    unfold happened in *. norm in *. rewrite HS in HC1.
    apply rebuilt_by_pandoc_none in HC1.
    pose proof (rebuilt_kept_none (pandoc_rebuilt rd) s1 HC1) as HJ1.
    destruct b; norm; repeat run_prim.
    + run_closing; rebuilt_leaf Hrd.
    + apply pandoc_roundtrip_rebuilt_kept; [done|].
      intros r s2 HJ2 _.
      destruct r as [[|]|e]; norm; repeat run_prim;
        first [run_closing; rebuilt_leaf Hrd | rebuilt_leaf Hrd].
Qed.

End Rebuilt.

(** C10.  In every run in which the conversion back to docx wrote a
    file, that file is the one named after the repaired package, with the
    stem followed by [.pandoc_rebuilt.docx] and in the same directory, and
    it is still on disk when the run ends, with the content pandoc gave
    it: the cleanup of the fallback removes other files only. *)
Theorem pandoc_rebuilt_file_remains w d input out dst dat :
  rebuilt_by_pandoc (trace (run w d input out)) = Some (dst, dat) ->
  ∃ rd, repaired_docx_path input out = inr rd
        ∧ dst = pandoc_rebuilt rd
        ∧ disk (run w d input out) !! dst = Some dat.
Proof. apply rebuilt_on_disk_run. Qed.

Lemma pandoc_rebuilt_file_witness :
  ∃ rd, repaired_docx_path Sample.input None = inr rd
        ∧ "/home/u/report.repaired.pandoc_rebuilt.docx" = pandoc_rebuilt rd
        ∧ disk (run (Sample.world false true) (Sample.on_disk Sample.plain)
                    Sample.input None)
          !! "/home/u/report.repaired.pandoc_rebuilt.docx"
          = Some (ZipArchive [("word/document.xml", "<document/>")]).
Proof.
  apply (pandoc_rebuilt_file_remains (Sample.world false true)
           (Sample.on_disk Sample.plain) Sample.input None).
  vm_compute. reflexivity.
Defined.

(** ** C4: the fallback without pandoc *)

Section Unusable.

Variable w : World.

Lemma pandoc_roundtrip_unusable t rd s :
  pandoc_usable w = false ->
  ∃ s', pandoc_roundtrip w t rd s = (Ok false, s')
        ∧ disk s' = disk s ∧ scratch s' = scratch s
        ∧ flag s' = flag s
        ∧ trace s' = trace s ++ Call Fpandoc_roundtrip ::
                     (if pypandoc_imported w then [PandocVersion] else []).
Proof.
  unfold pandoc_usable, pandoc_roundtrip, ensure_pandoc_available.
  destruct (pypandoc_imported w); simpl.
  - destruct (get_pandoc_version w) as [e|]; [|done]. intros _.
    eexists. split; [reflexivity|]. norm. by rewrite <- app_assoc.
  - intros _. eexists. split; [reflexivity|]. done.
Qed.

End Unusable.

(** C4.  When pypandoc is missing or its version check raises, the
    fallback returns [False] at once: it calls nothing but the version
    check, converts nothing, rebuilds nothing, and leaves every file as it
    was, the rebuilt package at the output path among them.  From the
    validation to the end of the run, a run whose validation failed then
    leaves the file at the output path as the rebuild wrote it (the report
    is saved elsewhere), converts nothing and reports [final_docx_ok] as
    [false]. *)
Theorem fallback_without_pandoc w input tmpdir rd s :
  pandoc_usable w = false ->
  (∃ s', pandoc_roundtrip w tmpdir rd s = (Ok false, s')
         ∧ disk s' = disk s ∧ scratch s' = scratch s
         ∧ trace s' = trace s ++ Call Fpandoc_roundtrip ::
                      (if pypandoc_imported w then [PandocVersion] else []))
  ∧ (validates w (disk s !! str rd) = false ->
     (∀ rf, with_suffix input ".repair_report.json" = inr rf ->
            str rf ≠ str rd) ->
     let s' := (epilogue w input tmpdir rd s).2 in
     disk s' !! str rd = disk s !! str rd
     ∧ happened is_convert s' = happened is_convert s
     ∧ flag s' = Some false).
Proof.
  intros Hu. split.
  { destruct (pandoc_roundtrip_unusable w tmpdir rd s Hu)
      as (s' & ? & ? & ? & ? & ?).
    by exists s'. }
  intros Hv Hrf. cbv zeta.
  pattern ((epilogue w input tmpdir rd s).2).
  match goal with
  | |- ?P ?x => change (outcome (epilogue w input tmpdir rd) s (λ _ s', P s'))
  end.
  cbv beta. unfold epilogue. repeat run_prim.
  apply try_open_outcome. intros s1 b Hb Hd _ _ _ _ _ _ _ HE.
  pose proof (HE is_convert eq_refl (λ _ _, eq_refl)) as HC1. clear HE.
  norm in *. rewrite Hv in Hb. subst b. norm. repeat run_prim.
  unfold outcome at 1.
  destruct (pandoc_roundtrip_unusable w tmpdir rd
    (with_report
       (push_action
          {|
            time := utcnow_isoformat w (ticks s1) +:+ "Z";
            msg :=
              "python-docx validation failed - attempting pandoc roundtrip fallback."
          |})
       (with_tick s1)) Hu) as (s2 & -> & Hd2 & _ & _ & Ht2).
  norm in *. repeat run_prim. run_closing.
  all: split; [rewrite ?lookup_insert_ne by (by apply Hrf); congruence|].
  all: split; [|done].
  all: unfold happened in *; norm in *.
  all: rewrite ?existsb_app, Ht2, existsb_app, HC1; simpl.
  all: destruct (pypandoc_imported w); simpl; by rewrite ?orb_false_r.
Qed.

Lemma fallback_without_pandoc_witness :
  let s := initial (Sample.on_disk Sample.plain) in
  ∃ s', pandoc_roundtrip (Sample.world false false) "/tmp/docx_repair_k3x9"
          (mkPath "/home/u/" "report.repaired.docx") s = (Ok false, s')
        ∧ disk s' = disk s ∧ scratch s' = scratch s
        ∧ trace s' = trace s ++ [Call Fpandoc_roundtrip].
Proof.
  apply (proj1 (fallback_without_pandoc (Sample.world false false)
                  Sample.input "/tmp/docx_repair_k3x9"
                  (mkPath "/home/u/" "report.repaired.docx")
                  (initial (Sample.on_disk Sample.plain)) eq_refl)).
Defined.

(** ** C8: what the XML sanitize stage touches *)

Section Sanitize.
Variable w : World.

(** The part [rel] is left as it is by the sanitizer of another part. *)
Lemma sanitize_one_other t r rel :
  r ≠ rel -> preserves (keeps (λ s, files s !! rel)) (sanitize_one w t r).
Proof.
  intros Hne.
  preserves_with ltac:(unfold keeps; norm;
                       first [reflexivity | by rewrite lookup_insert_ne]).
Qed.

Lemma sanitize_each_other t l rel :
  rel ∉ l -> preserves (keeps (λ s, files s !! rel)) (sanitize_each w t l).
Proof.
  induction l as [|r l IH]; simpl; intros Hnotin.
  - apply (preserves_ret _).
  - apply not_elem_of_cons in Hnotin as [Hne Hnotin].
    apply (preserves_bind _); [by apply sanitize_one_other | intros _; auto].
Qed.

(** The sanitizer of a part touches no file outside the scratch
    directory, and in the trace it leaves the events of its own part. *)
Lemma sanitize_one_disk t r : preserves (keeps disk) (sanitize_one w t r).
Proof. preserves_with keeps_leaf. Qed.

Lemma sanitize_one_events t r l :
  r ∈ l -> preserves (appends (touches_only l)) (sanitize_one w t r).
Proof.
  intros Hr.
  preserves_with ltac:(first [ by (exists []; rewrite app_nil_r)
                             | eexists [_]; split; [reflexivity|]; simpl;
                               by rewrite bool_decide_true ]).
Qed.

(** A part that the parser rejects is left as it is by its sanitizer. *)
Lemma sanitize_one_rejected t r s :
  parses w (files s !! r) = false ->
  files (sanitize_one w t r s).2 = files s.
Proof.
  unfold parses. intros Hp. pattern ((sanitize_one w t r s).2).
  match goal with
  | |- ?P ?x => change (outcome (sanitize_one w t r) s (λ _ s', P s'))
  end.
  cbv beta. unfold sanitize_one, path_exists, safe_parse_xml, parse_and_print.
  repeat (first [run_prim | run_case]); try done.
  all: unfold files in *.
  all: repeat match goal with
              | H : negb _ = false |- _ => apply negb_false_iff in H
              | H : ?x = _, H' : context [?x] |- _ => rewrite H in H'
              end; simpl in *; congruence.
Qed.

Lemma sanitize_each_rejected t l rel s :
  parses w (files s !! rel) = false ->
  files (sanitize_each w t l s).2 !! rel = files s !! rel.
Proof.
  revert s. induction l as [|r l IH]; intros s Hp; simpl; [done|].
  assert (H1 : files (sanitize_one w t r s).2 !! rel = files s !! rel).
  { destruct (decide (r = rel)) as [->|Hne].
    - by rewrite sanitize_one_rejected.
    - apply (sanitize_one_other t r rel Hne s). }
  unfold mbind, M_bind.
  destruct (sanitize_one w t r s) as [[[]|e] s1]; simpl in *; [|done].
  rewrite IH; [done|]. by rewrite H1.
Qed.

End Sanitize.

(** C8.  The XML sanitize stage of [repair_docx] asks for, parses and
    writes only its three parts: every other file of the scratch directory
    is as before, so is every file outside it, and a part that cannot be
    parsed (lxml is missing, the part is not there, or the parser rejects
    it) is left as it was. *)
Theorem sanitize_touches_only_its_parts w t s :
  let s' := (sanitize_xml_files w t sanitize_targets s).2 in
  (∀ rel, rel ∉ sanitize_targets -> files s' !! rel = files s !! rel)
  ∧ (∀ rel, parses w (files s !! rel) = false ->
            files s' !! rel = files s !! rel)
  ∧ disk s' = disk s
  ∧ appends (touches_only sanitize_targets) s s'.
Proof.
  cbv zeta. unfold sanitize_xml_files. repeat split.
  - intros rel Hrel.
    apply (preserves_bind (keeps (λ s, files s !! rel)));
      [preserves_with keeps_leaf | intros _; by apply sanitize_each_other].
  - intros rel Hp.
    change ((emit (Call Fsanitize_xml_files)
             ≫= λ _, sanitize_each w t sanitize_targets) s)
      with (sanitize_each w t sanitize_targets
              (with_event (Call Fsanitize_xml_files) s)).
    by rewrite sanitize_each_rejected.
  - apply (preserves_bind (keeps disk)); [preserves_with keeps_leaf|].
    intros _. apply preserves_sanitize_each; [apply _|].
    apply sanitize_one_disk.
  - apply (preserves_bind (appends (touches_only sanitize_targets)));
      [preserves_with appends_leaf|].
    intros _. unfold sanitize_targets. simpl.
    repeat (apply (preserves_bind _);
            [apply sanitize_one_events; set_solver | intros _]).
    apply (preserves_ret _).
Qed.

(** ** C7: sanitizing twice *)

Lemma prefix_longer (rel : string) : String.prefix (rel +:+ "/") rel = false.
Proof.
  induction rel as [|c r IH]; [done|].
  rewrite append_cons. simpl. by destruct (Ascii.ascii_dec c c).
Qed.

Lemma is_dir_insert_self (m : gmap string string) rel v :
  is_dir (<[rel:=v]> m) rel = is_dir m rel.
Proof.
  unfold is_dir. apply bool_decide_ext. rewrite !map_Exists_lookup.
  split; intros (i & x & Hi & HP); exists i.
  - destruct (decide (rel = i)) as [->|Hne].
    + by rewrite prefix_longer in HP.
    + rewrite lookup_insert_ne in Hi by done. eauto.
  - destruct (decide (rel = i)) as [->|Hne].
    + by rewrite prefix_longer in HP.
    + exists x. by rewrite lookup_insert_ne.
Qed.

Section Idempotent.
Variable w : World.

Lemma sanitize_one_accepted t rel s c tree :
  etree_imported w = true ->
  os_error w (SWriteText rel) = None ->
  files s !! rel = Some c ->
  is_dir (files s) rel = false ->
  etree_parse w c = inr tree ->
  files (sanitize_one w t rel s).2 = <[rel := etree_tostring w tree]> (files s).
Proof.
  intros Hi Hos Hc Hd Hp. pattern ((sanitize_one w t rel s).2).
  match goal with
  | |- ?P ?x => change (outcome (sanitize_one w t rel) s (λ _ s', P s'))
  end.
  cbv beta.
  unfold sanitize_one, path_exists, safe_parse_xml, parse_and_print,
    write_text_file, is_file.
  repeat run_prim. unfold files in *.
  rewrite Hc, Hi, bool_decide_true by eauto. norm.
  repeat run_prim. rewrite Hc. norm. repeat run_prim. rewrite Hp. norm.
  repeat run_prim. rewrite Hos. norm. repeat run_prim. rewrite Hd. norm.
  repeat run_prim. done.
Qed.

End Idempotent.

Section Twice.

Variable w : World.

(** A part that the sanitizer finds and cannot parse is left as it is,
    with an error on the report. *)
Lemma sanitize_one_unparsed t rel s c e :
  etree_imported w = true ->
  files s !! rel = Some c ->
  etree_parse w c = inl e ->
  files (sanitize_one w t rel s).2 = files s
  ∧ ∃ x, errors (report (sanitize_one w t rel s).2)
         = errors (report s) ++ [x].
Proof.
  intros Hi Hc Hp. pattern ((sanitize_one w t rel s).2).
  match goal with
  | |- ?P ?x => change (outcome (sanitize_one w t rel) s (λ _ s', P s'))
  end.
  cbv beta.
  unfold sanitize_one, path_exists, safe_parse_xml, parse_and_print, is_file.
  repeat run_prim. unfold files in *.
  rewrite Hc, Hi, bool_decide_true by eauto. norm.
  repeat run_prim. rewrite Hc. norm. repeat run_prim. rewrite Hp. norm.
  repeat run_prim. split; [done|]. by eexists.
Qed.

End Twice.

(** The members that the rebuild writes: a file that has a name in the
    archive is a member under that name. *)
Lemma zip_members_member l es k v n :
  zip_members l = (es, None) ->
  (k, v) ∈ l -> ends_with_sep k = false -> arcname k = inr n ->
  (n, v) ∈ es.
Proof.
  revert es. induction l as [|[k0 v0] l IH]; intros es Hz Hin Hk Hn.
  { by apply elem_of_nil in Hin. }
  simpl in Hz. apply elem_of_cons in Hin as [[= <- <-]|Hin].
  - rewrite Hk, Hn in Hz. destruct (zip_members l) as [es' err].
    injection Hz as <- ->. apply elem_of_cons. by left.
  - destruct (ends_with_sep k0); [by apply IH|].
    destruct (arcname k0) as [?|n0]; [done|].
    destruct (zip_members l) as [es' err]. injection Hz as <- ->.
    apply elem_of_cons. right. by apply IH.
Qed.

Lemma arcname_sanitize_target rel :
  rel ∈ sanitize_targets -> ends_with_sep rel = false ∧ arcname rel = inr rel.
Proof.
  unfold sanitize_targets. rewrite !elem_of_cons, elem_of_nil.
  intros [->|[->|[->|[]]]]; by vm_compute.
Qed.

(** C7, as the spec states it, fails.  On a part whose white space comes
    from a character reference, lxml behaves as the sample has it: the
    first pass of the sanitizer changes the part, and the second pass
    over what the first has written changes it again. *)
Lemma sanitizing_twice_changes_the_part_again :
  let w := Sample.lxml in
  let rel := "word/document.xml" in
  let s := Sample.unpacked Sample.with_space in
  let s1 := (sanitize_one w "/tmp/docx_repair_k3x9" rel s).2 in
  let s2 := (sanitize_one w "/tmp/docx_repair_k3x9" rel s1).2 in
  parses w (files s !! rel) = true
  ∧ files s !! rel = Some Sample.spaced_source
  ∧ files s1 !! rel = Some Sample.spaced_print
  ∧ parses w (files s1 !! rel) = true
  ∧ files s2 !! rel = Some Sample.unspaced_print
  ∧ String.eqb Sample.spaced_print Sample.unspaced_print = false.
Proof. repeat split; by vm_compute. Qed.

(** C7, amended.  When the sanitizer parses a part, it overwrites it with
    what lxml prints of the tree, and a package rebuilt from the scratch
    directory holds the part with exactly that content.  A second pass
    does the same to what the first has written: when lxml reads it back,
    the part becomes what lxml prints of the tree it has read, which is
    the same content exactly when that output is a fixed point of
    parse-and-print, something the script neither checks nor ensures;
    when lxml does not read it back, the part stays as the first pass
    wrote it and the report gets an error.  In both passes no other file
    of the scratch directory changes.  Whether the part is well-formed is
    never checked: it is what lxml printed. *)
Theorem sanitize_twice_is_parse_and_print_twice w t rel s c tree :
  etree_imported w = true ->
  os_error w (SWriteText rel) = None ->
  files s !! rel = Some c ->
  is_dir (files s) rel = false ->
  etree_parse w c = inr tree ->
  let s1 := (sanitize_one w t rel s).2 in
  let s2 := (sanitize_one w t rel s1).2 in
  let once := etree_tostring w tree in
  let twice := match etree_parse w once with
               | inr tree' => etree_tostring w tree'
               | inl _ => once
               end in
  files s1 = <[rel := once]> (files s)
  ∧ files s2 = <[rel := twice]> (files s)
  ∧ (files s2 = files s1 <-> twice = once)
  ∧ (parses w (Some once) = false ->
     ∃ x, errors (report s2) = errors (report s1) ++ [x])
  ∧ (∀ out s', rel ∈ sanitize_targets ->
       rezip_from_temp w t out s1 = (Ok tt, s') ->
       ∃ es, disk s' !! str out = Some (ZipArchive es) ∧ (rel, once) ∈ es).
Proof.
  intros Hi Hos Hc Hd Hp. cbv zeta.
  pose proof (sanitize_one_accepted w t rel s c tree Hi Hos Hc Hd Hp) as H1.
  assert (Hl : files (sanitize_one w t rel s).2 !! rel
               = Some (etree_tostring w tree))
    by (rewrite H1; apply lookup_insert_eq).
  assert (H2 : files (sanitize_one w t rel (sanitize_one w t rel s).2).2
               = <[rel := match etree_parse w (etree_tostring w tree) with
                          | inr tree' => etree_tostring w tree'
                          | inl _ => etree_tostring w tree
                          end]> (files s)).
  { destruct (etree_parse w (etree_tostring w tree)) as [e|tree'] eqn:Hp'.
    - destruct (sanitize_one_unparsed w t rel _ _ e Hi Hl Hp') as [-> _].
      done.
    - rewrite (sanitize_one_accepted w t rel _ _ tree' Hi Hos Hl); [|
        by rewrite H1, is_dir_insert_self | done].
      rewrite H1. apply insert_insert_eq. }
  split; [done|]. split; [done|]. split; [|split].
  - rewrite H1, H2. split; [|by intros ->].
    intros Heq%(f_equal (λ m : gmap string string, m !! rel)).
    rewrite !lookup_insert_eq in Heq. by injection Heq.
  - unfold parses. rewrite Hi. simpl.
    destruct (etree_parse w (etree_tostring w tree)) as [e|?] eqn:Hp';
      [|done].
    intros _. by destruct (sanitize_one_unparsed w t rel _ _ e Hi Hl Hp').
  - intros out s' Hrel Hz.
    destruct (rezip_from_temp_ok w _ _ _ _ Hz) as (es & Hm & Hdisk & _).
    exists es. split; [rewrite Hdisk; apply lookup_insert_eq|].
    destruct (arcname_sanitize_target rel Hrel) as [Hk Hn].
    apply (zip_members_member _ _ rel _ _ Hm); [|done..].
    by apply elem_of_map_to_list.
Qed.

Lemma sanitize_twice_witness :
  let w := Sample.lxml in
  let rel := "word/document.xml" in
  let s := Sample.unpacked Sample.with_space in
  let s1 := (sanitize_one w "/tmp/docx_repair_k3x9" rel s).2 in
  let s2 := (sanitize_one w "/tmp/docx_repair_k3x9" rel s1).2 in
  files s1 = <[rel := Sample.spaced_print]> (files s)
  ∧ files s2 = <[rel := Sample.unspaced_print]> (files s).
Proof.
  pose proof (sanitize_twice_is_parse_and_print_twice Sample.lxml
                "/tmp/docx_repair_k3x9" "word/document.xml"
                (Sample.unpacked Sample.with_space)
                Sample.spaced_source Sample.spaced
                eq_refl eq_refl eq_refl eq_refl eq_refl) as (H1 & H2 & _).
  split; [exact H1 | exact H2].
Defined.

(** ** C2: the defaults of the core properties *)

Lemma find_descendant_insert_first tg el root :
  String.eqb (el_tag el) tg = false ->
  find_descendant tg el = None ->
  find_descendant tg (insert_first el root) = find_descendant tg root.
Proof. intros H1 H2. destruct root. simpl. by rewrite H1, H2. Qed.

(** The white space that [str.strip()] removes is that of Unicode: a text
    of a no-break space, of NEL followed by a space, or of an em space is
    blank; one of a zero-width space is not. *)
Lemma blank_text_unicode_white_space :
  blank_text (Some (String (ascii_of_nat 194)
                      (String (ascii_of_nat 160) ""))) = true
  ∧ blank_text (Some (String (ascii_of_nat 194)
                        (String (ascii_of_nat 133) " "))) = true
  ∧ blank_text (Some (String (ascii_of_nat 226)
                        (String (ascii_of_nat 128)
                           (String (ascii_of_nat 131) "")))) = true
  ∧ blank_text (Some (String (ascii_of_nat 226)
                        (String (ascii_of_nat 128)
                           (String (ascii_of_nat 139) "")))) = false
  ∧ blank_text None = true.
Proof. by vm_compute. Qed.

(** C2, the creator.  When core.xml parses and has a creator element,
    the metadata repairer leaves that element as it is, whatever its text:
    of a creator that is there but blank (empty text or white space) it
    makes no "AutoRepair".  The part is rewritten with the serialisation
    of the parsed tree, with a default title at the front when the title
    is missing or blank and with nothing else inserted; the first creator
    that a reader of the rewritten part finds is still the blank one, and
    the report has no action for an inserted creator. *)
Theorem blank_creator_is_not_replaced w t s c tree root cr :
  etree_imported w = true ->
  os_error w (SWriteText core_xml) = None ->
  files s !! core_xml = Some c ->
  is_dir (files s) core_xml = false ->
  etree_parse w c = inr tree ->
  etree_fromstring w (etree_tostring w tree) = inr root ->
  find_descendant dc_creator root = Some cr ->
  blank_text (el_text cr) = true ->
  let s' := (fix_core_properties w t s).2 in
  let root' := if title_missing root
               then insert_first (new_element dc_title "Repaired Document")
                                 root
               else root in
  files s' = <[core_xml := etree_tostring w root']> (files s)
  ∧ find_descendant dc_creator root' = Some cr
  ∧ map msg (actions (report s')) =
      map msg (actions (report s))
      ++ (if title_missing root
          then ["Inserted missing title tag in core.xml"] else [])
      ++ ["Rewrote core.xml with ensured basic metadata"].
Proof.
  intros Hi Hos Hc Hd Hp Hf Hcr _. cbv zeta.
  pattern ((fix_core_properties w t s).2).
  match goal with
  | |- ?P ?x =>
      change (outcome (fix_core_properties w t) s (λ _ s', P s'))
  end.
  cbv beta.
  unfold fix_core_properties, path_exists, safe_parse_xml, parse_and_print,
    write_text_file, is_file.
  repeat run_prim. unfold files in *.
  rewrite Hc, Hi, bool_decide_true by eauto. norm.
  repeat run_prim. rewrite Hc. norm. repeat run_prim. rewrite Hp. norm.
  repeat run_prim. rewrite Hf. norm. unfold creator_missing. rewrite Hcr.
  repeat run_prim.
  destruct (title_missing root); norm; repeat run_prim;
    rewrite Hos; norm; repeat run_prim; rewrite Hd; norm; repeat run_prim.
  - split; [done|]. split.
    + by rewrite find_descendant_insert_first.
    + by rewrite !map_app, <- !app_assoc.
  - split; [done|]. split; [done|]. by rewrite !map_app.
Qed.

Lemma blank_creator_witness :
  let w := Sample.world true true in
  let s := Sample.unpacked Sample.anonymous in
  let s' := (fix_core_properties w "/tmp/docx_repair_k3x9" s).2 in
  files s' = <[core_xml := Sample.serialize Sample.core_empty_creator]>
               (files s)
  ∧ find_descendant dc_creator Sample.core_empty_creator
    = Some (Element dc_creator [] None [] None)
  ∧ map msg (actions (report s'))
    = ["Rewrote core.xml with ensured basic metadata"].
Proof.
  apply (blank_creator_is_not_replaced (Sample.world true true)
           "/tmp/docx_repair_k3x9" (Sample.unpacked Sample.anonymous)
           (Sample.serialize Sample.core_empty_creator)
           Sample.core_empty_creator Sample.core_empty_creator
           (Element dc_creator [] None [] None)
           eq_refl eq_refl eq_refl eq_refl eq_refl eq_refl eq_refl eq_refl).
Defined.

(** ** Path names *)

Lemma append_nil_r (s : string) : s +:+ "" = s.
Proof. induction s as [|c s IH]; [done|]. by rewrite append_cons, IH. Qed.

Lemma append_assoc (a b c : string) : (a +:+ b) +:+ c = a +:+ (b +:+ c).
Proof.
  induction a as [|x a IH]; [done|]. by rewrite !append_cons, IH.
Qed.

Lemma prefix_app (p x : string) : String.prefix p (p +:+ x) = true.
Proof.
  induction p as [|c p IH]; [by destruct x|]. rewrite append_cons. simpl.
  by destruct (Ascii.ascii_dec c c).
Qed.

Lemma prefix_split (p k : string) :
  String.prefix p k = true -> k = p +:+ drop_string (String.length p) k.
Proof.
  revert k. induction p as [|c p IH]; intros [|x k]; simpl; try done.
  destruct (Ascii.ascii_dec c x) as [->|]; [|done].
  intros H. by rewrite append_cons, <- IH.
Qed.

Lemma split_path_cons s : ∃ x l, split_path s = x :: l.
Proof.
  induction s as [|c s (x & l & IH)]; simpl; [by eexists _, _|].
  destruct (Ascii.eqb c "/"); [by eexists _, _|].
  rewrite IH. by eexists _, _.
Qed.

Lemma split_path_app a b :
  split_path (a +:+ "/" +:+ b) = split_path a ++ split_path b.
Proof.
  induction a as [|c a IH]; [done|].
  rewrite append_cons. simpl. rewrite IH.
  destruct (Ascii.eqb c "/"); [done|].
  by destruct (split_path_cons a) as (x & l & ->).
Qed.

Lemma join_path_cons x y l :
  join_path (x :: y :: l) = x +:+ "/" +:+ join_path (y :: l).
Proof. reflexivity. Qed.

Lemma join_split s : join_path (split_path s) = s.
Proof.
  induction s as [|c s IH]; [done|]. simpl.
  destruct (split_path_cons s) as (x & l & Hs). rewrite Hs in *.
  destruct (Ascii.eqb c "/") eqn:Hc.
  - apply Ascii.eqb_eq in Hc as ->. by rewrite join_path_cons, IH.
  - destruct l as [|y l].
    + simpl in *. by rewrite IH.
    + rewrite join_path_cons in *. by rewrite append_cons, IH.
Qed.

Lemma split_path_sep_free x : sep_free x = true -> split_path x = [x].
Proof.
  induction x as [|c x IH]; [done|]. simpl.
  intros [Hc Hx]%andb_true_iff. apply negb_true_iff in Hc. rewrite Hc.
  by rewrite (IH Hx).
Qed.

Lemma split_path_parts s : Forall (λ x, sep_free x = true) (split_path s).
Proof.
  induction s as [|c s IH]; simpl; [by constructor|].
  destruct (Ascii.eqb c "/") eqn:Hc; [by constructor|].
  destruct (split_path_cons s) as (x & l & Hs). rewrite Hs in *.
  apply Forall_cons in IH as [Hx Hl]. constructor; [|done].
  simpl. by rewrite Hc, Hx.
Qed.

Lemma split_join l :
  l ≠ [] -> Forall (λ x, sep_free x = true) l ->
  split_path (join_path l) = l.
Proof.
  induction l as [|x l IH]; [done|]. intros _ [Hx Hl]%Forall_cons.
  destruct l as [|y l].
  - by apply split_path_sep_free.
  - rewrite join_path_cons, split_path_app, (split_path_sep_free _ Hx), IH;
      done.
Qed.

Lemma backslash_free_app a b :
  backslash_free (a +:+ b) = backslash_free a && backslash_free b.
Proof.
  induction a as [|c a IH]; [done|]. rewrite append_cons. simpl.
  by rewrite IH, andb_assoc.
Qed.

Lemma backslash_free_parts s :
  backslash_free s = true ->
  Forall (λ x, backslash_free x = true) (split_path s).
Proof.
  induction s as [|c s IH]; simpl; [by constructor|].
  intros [Hc Hs]%andb_true_iff. specialize (IH Hs).
  destruct (Ascii.eqb c "/"); [by constructor|].
  destruct (split_path_cons s) as (x & l & Hx). rewrite Hx in *.
  apply Forall_cons in IH as [H1 H2]. constructor; [|done].
  simpl. by rewrite Hc, H1.
Qed.

Lemma backslash_free_join l :
  Forall (λ x, backslash_free x = true) l ->
  backslash_free (join_path l) = true.
Proof.
  induction l as [|x l IH]; [done|]. intros [Hx Hl]%Forall_cons.
  destruct l as [|y l]; [done|].
  rewrite join_path_cons, !backslash_free_app, Hx, IH; done.
Qed.

Lemma backslash_to_slash_free s :
  backslash_free s = true -> backslash_to_slash s = s.
Proof.
  induction s as [|c s IH]; [done|]. simpl.
  intros [Hc Hs]%andb_true_iff. apply negb_true_iff in Hc.
  by rewrite Hc, IH.
Qed.

Lemma valid_part_spec x :
  valid_part x = true -> x ≠ "" ∧ String.eqb x "" = false
                         ∧ String.eqb x "." = false
                         ∧ String.eqb x ".." = false.
Proof.
  unfold valid_part. rewrite negb_true_iff, !orb_false_iff.
  intros [[H1 H2] H3]. repeat split; try done.
  intros ->. done.
Qed.

Lemma normpath_steps n acc parts :
  Forall (λ x, valid_part x = true) parts ->
  foldl (normpath_step n) acc parts = acc ++ parts.
Proof.
  revert acc. induction parts as [|x parts IH]; intros acc.
  { by rewrite app_nil_r. }
  intros [Hx Hp]%Forall_cons. simpl. rewrite IH by done.
  destruct (valid_part_spec _ Hx) as (_ & H1 & H2 & H3).
  unfold normpath_step. rewrite H1, H2, H3. simpl.
  by rewrite <- app_assoc.
Qed.

(** A tidy path does not start with the separator. *)
Lemma tidy_head k :
  tidy k = true -> ∃ c r, k = String c r ∧ Ascii.eqb c "/" = false.
Proof.
  unfold tidy. destruct k as [|c r]; [done|]. simpl.
  destruct (Ascii.eqb c "/") eqn:Hc; [done|]. eauto.
Qed.

(** The rebuild stores a tidy path without backslashes under its own
    name. *)
Lemma arcname_tidy k :
  tidy k = true -> backslash_free k = true -> arcname k = inr k.
Proof.
  intros Ht Hb. unfold arcname. rewrite (backslash_to_slash_free _ Hb).
  destruct (tidy_head _ Ht) as (c & r & -> & Hc).
  assert (Hn : normpath (String c r) = String c r).
  { unfold normpath.
    change (String.eqb (String c r) "") with false. cbv iota.
    assert (Hp : String.prefix "/" (String c r) = false).
    { change (String.prefix "/" (String c r))
        with (if Ascii.ascii_dec "/" c then String.prefix "" r else false).
      destruct (Ascii.ascii_dec "/" c) as [<-|]; done. }
    rewrite Hp. cbv iota. rewrite normpath_steps.
    - rewrite app_nil_l, join_split. done.
    - apply Forall_forall. intros x Hx%list_elem_of_In.
      unfold tidy in Ht. rewrite forallb_forall in Ht. by apply Ht. }
  rewrite Hn. simpl. by rewrite Hc.
Qed.

Lemma tidy_app a b : tidy (a +:+ "/" +:+ b) = tidy a && tidy b.
Proof. unfold tidy. by rewrite split_path_app, forallb_app. Qed.

(** The path that [zipfile] extracts a member to is tidy, unless it is
    the scratch directory itself. *)
Lemma member_path_tidy n :
  let rel := join_path (List.filter valid_part (split_path n)) in
  String.eqb rel "" = true ∨ tidy rel = true.
Proof.
  cbv zeta. set (parts := List.filter valid_part (split_path n)).
  assert (Hs : Forall (λ x, sep_free x = true) parts).
  { apply Forall_forall. intros x Hx%list_elem_of_In%filter_In.
    destruct Hx as [Hx _]. pose proof (split_path_parts n) as H.
    rewrite Forall_forall in H. by apply H, list_elem_of_In. }
  assert (Hv : forallb valid_part parts = true).
  { apply forallb_forall. intros x Hx%filter_In. by destruct Hx. }
  destruct parts as [|x l] eqn:E; [by left|]. right.
  unfold tidy. by rewrite split_join.
Qed.

Lemma member_path_backslash_free n :
  backslash_free n = true ->
  backslash_free (join_path (List.filter valid_part (split_path n))) = true.
Proof.
  intros H. apply backslash_free_join, Forall_forall.
  intros x Hx%list_elem_of_In%filter_In. destruct Hx as [Hx _].
  pose proof (backslash_free_parts n H) as HF.
  rewrite Forall_forall in HF. by apply HF, list_elem_of_In.
Qed.

Lemma ends_with_sep_app a b :
  b ≠ "" -> ends_with_sep (a +:+ b) = ends_with_sep b.
Proof.
  intros Hb. induction a as [|c a IH]; [done|].
  rewrite append_cons. simpl. rewrite IH.
  destruct (a +:+ b) eqn:E; [|done].
  destruct a; [by rewrite append_nil_l in E | done].
Qed.

Lemma ends_with_sep_marker a : ends_with_sep (a +:+ "/") = true.
Proof. by rewrite ends_with_sep_app. Qed.

(** ** C1: a package without core properties *)

Lemma core_absent_keys t :
  core_absent t = true <-> map_Forall (λ k _, not_core k = true) t.
Proof.
  unfold core_absent, is_file, is_dir, not_core. rewrite negb_true_iff.
  rewrite orb_false_iff, !bool_decide_eq_false. split.
  - intros [Hf Hd] k v Hk. apply andb_true_iff. split; apply negb_true_iff.
    + apply String.eqb_neq. intros ->. apply Hf. eauto.
    + apply not_true_is_false. intros Hp. apply Hd.
      apply map_Exists_lookup. eauto.
  - intros HF. split.
    + intros [v Hv]. specialize (HF _ _ Hv). cbv beta in HF.
      by rewrite String.eqb_refl in HF.
    + intros (k & v & Hk & Hp)%map_Exists_lookup.
      specialize (HF _ _ Hk). cbv beta in HF.
      rewrite Hp in HF. by rewrite andb_false_r in HF.
Qed.

Lemma core_absent_insert t k v :
  not_core k = true -> core_absent t = true ->
  core_absent (<[k := v]> t) = true.
Proof.
  rewrite !core_absent_keys. intros Hk HF. by apply map_Forall_insert_2.
Qed.

Lemma not_core_rename dst k :
  not_core dst = true ->
  (∀ x, not_core (dst +:+ x) = true) ->
  not_core k = true ->
  not_core (rename_key "customXml" dst k) = true.
Proof.
  intros Hd Hx Hk. unfold rename_key.
  destruct (String.eqb k "customXml"); [done|].
  by destruct (String.prefix _ k).
Qed.

(** The keys of a renamed tree, and what they hold. *)
Lemma rename_tree_lookup src dst t k v :
  rename_tree src dst t !! k = Some v ->
  ∃ k0, t !! k0 = Some v ∧ k = rename_key src dst k0.
Proof.
  unfold rename_tree. intros Hk%elem_of_list_to_map_2.
  apply list_elem_of_In, in_map_iff in Hk as ([k0 v0] & [= <- <-] & Hin).
  apply list_elem_of_In, elem_of_map_to_list in Hin.
  apply lookup_delete_Some in Hin as [_ Hin]. eauto.
Qed.

Lemma core_absent_rename dst t :
  not_core dst = true ->
  (∀ x, not_core (dst +:+ x) = true) ->
  core_absent t = true ->
  core_absent (rename_tree "customXml" dst t) = true.
Proof.
  rewrite !core_absent_keys. intros Hd Hx HF k v Hk.
  apply rename_tree_lookup in Hk as (k0 & Hk0 & ->).
  apply not_core_rename; [done..|]. exact (HF _ _ Hk0).
Qed.

(** The members of a rebuilt archive come from the files of the tree. *)
Lemma zip_members_inv l es err n c :
  zip_members l = (es, err) -> (n, c) ∈ es ->
  ∃ k, (k, c) ∈ l ∧ ends_with_sep k = false ∧ arcname k = inr n.
Proof.
  revert es. induction l as [|[k0 v0] l IH]; intros es Hz Hin; simpl in Hz.
  { injection Hz as <- _. by apply elem_of_nil in Hin. }
  destruct (ends_with_sep k0) eqn:Hk0.
  { destruct (IH _ Hz Hin) as (k & H1 & H2). exists k.
    split; [by apply elem_of_cons; right | done]. }
  destruct (arcname k0) as [e|n0] eqn:Hn0.
  { injection Hz as <- _. by apply elem_of_nil in Hin. }
  destruct (zip_members l) as [es' err']. injection Hz as <- <-.
  apply elem_of_cons in Hin as [[= -> ->]|Hin].
  - exists k0. split; [by apply elem_of_cons; left | done].
  - destruct (IH _ eq_refl Hin) as (k & H1 & H2). exists k.
    split; [by apply elem_of_cons; right | done].
Qed.

(** The keys of an extracted tree are directory markers or tidy paths,
    and they have no backslash when the names of the members have
    none. *)
Lemma extract_member_keys w tmpdir t e t' (B : Prop) :
  (∀ k v, t !! k = Some v ->
     (ends_with_sep k = true ∨ tidy k = true)
     ∧ (B -> backslash_free k = true)) ->
  (B -> backslash_free e.1 = true) ->
  extract_member w tmpdir t e = inr t' ->
  ∀ k v, t' !! k = Some v ->
     (ends_with_sep k = true ∨ tidy k = true)
     ∧ (B -> backslash_free k = true).
Proof.
  intros Ht He. unfold extract_member.
  set (rel := join_path (List.filter valid_part (split_path e.1))).
  pose proof (member_path_tidy e.1) as Htidy. cbv zeta in Htidy.
  fold rel in Htidy.
  assert (Hb : B -> backslash_free rel = true)
    by (intros HB; by apply member_path_backslash_free, He).
  destruct (blocked t "" _); [done|].
  destruct (String.eqb e.1 ""); [done|].
  destruct (ends_with_sep e.1).
  - destruct (String.eqb rel "") eqn:Hrel; [by intros [= <-]|].
    destruct (is_file t rel); [done|]. intros [= <-] k v Hk.
    apply lookup_insert_Some in Hk as [[<- _]|[_ Hk]]; [|by apply (Ht k v)].
    split; [left; apply ends_with_sep_marker|].
    intros HB. by rewrite backslash_free_app, Hb.
  - destruct (String.eqb rel "") eqn:Hrel; [done|]. simpl.
    destruct (is_dir t rel); [done|]. intros [= <-] k v Hk.
    apply lookup_insert_Some in Hk as [[<- _]|[_ Hk]]; [|by apply (Ht k v)].
    destruct Htidy as [?|Htidy]; [done|]. split; [by right | done].
Qed.

Lemma extract_entries_keys w tmpdir es t t' err (B : Prop) :
  (∀ k v, t !! k = Some v ->
     (ends_with_sep k = true ∨ tidy k = true)
     ∧ (B -> backslash_free k = true)) ->
  (B -> Forall (λ e, backslash_free e.1 = true) es) ->
  extract_entries w tmpdir es t = (t', err) ->
  ∀ k v, t' !! k = Some v ->
     (ends_with_sep k = true ∨ tidy k = true)
     ∧ (B -> backslash_free k = true).
Proof.
  revert t. induction es as [|e es IH]; intros t Ht Hes; simpl.
  { by intros [= <- _]. }
  destruct (extract_member w tmpdir t e) as [x|t1] eqn:E.
  { by intros [= <- _]. }
  apply IH.
  - apply (extract_member_keys w tmpdir t e t1 B); [done| |done].
    intros HB. specialize (Hes HB). by apply Forall_cons in Hes as [? _].
  - intros HB. specialize (Hes HB). by apply Forall_cons in Hes as [_ ?].
Qed.

(** What the move of [customXml] makes of a key. *)
Lemma rename_key_custom dst k :
  let k' := rename_key "customXml" dst k in
  (k = "customXml" ∧ k' = dst)
  ∨ (∃ rest, k = "customXml" +:+ "/" +:+ rest
             ∧ k' = dst +:+ "/" +:+ rest)
  ∨ k' = k.
Proof.
  cbv zeta. unfold rename_key.
  destruct (String.eqb k "customXml") eqn:E.
  { apply String.eqb_eq in E. by left. }
  destruct (String.prefix ("customXml" +:+ "/") k) eqn:Hp; [|by right; right].
  right. left. apply prefix_split in Hp.
  exists (drop_string (String.length ("customXml" +:+ "/")) k).
  split; [exact Hp|]. rewrite Hp at 1. reflexivity.
Qed.

Lemma kept_from_insert t0 t r v :
  r ∈ sanitize_targets -> kept_from t0 t -> kept_from t0 (<[r := v]> t).
Proof.
  intros Hr [Hc Hk]. split.
  - apply core_absent_insert; [|done].
    revert Hr. unfold sanitize_targets. rewrite !elem_of_cons, elem_of_nil.
    intros [->|[->|[->|[]]]]; by vm_compute.
  - intros k x Hx.
    apply lookup_insert_Some in Hx as [[<- _]|[_ Hx]]; [|by apply Hk].
    split; [|by left]. right.
    revert Hr. unfold sanitize_targets. rewrite !elem_of_cons, elem_of_nil.
    intros [->|[->|[->|[]]]]; by vm_compute.
Qed.

Lemma kept_from_rename t0 t dst :
  dst = "customXml.removed" ∨ dst = "customXml.removed/customXml" ->
  kept_from t0 t -> kept_from t0 (rename_tree "customXml" dst t).
Proof.
  intros Hdst [Hc Hk].
  assert (Hd : tidy dst = true ∧ backslash_free dst = true
               ∧ not_core dst = true ∧ ∀ x, not_core (dst +:+ x) = true).
  { destruct Hdst as [->| ->]; repeat split; by vm_compute. }
  destruct Hd as (Hd1 & Hd2 & Hd3 & Hd4). split.
  { by apply core_absent_rename. }
  intros k' v Hk'. apply rename_tree_lookup in Hk' as (k & Hkv & ->).
  destruct (Hk k v Hkv) as [Hshape Hfrom].
  destruct (rename_key_custom dst k) as [[-> ->]|[(rest & -> & ->)| ->]];
    [| |done].
  - split; [by right|]. right.
    destruct Hfrom as [Hin|(k0 & H0 & Hb)].
    + exfalso. revert Hin. unfold sanitize_targets.
      rewrite !elem_of_cons, elem_of_nil. by intros [?|[?|[?|[]]]].
    + exists k0. split; [done|]. by rewrite Hb, Hd2.
  - split.
    + destruct Hshape as [Hm|Ht].
      * left. destruct rest as [|c rest]; [apply ends_with_sep_marker|].
        rewrite <- append_assoc in *.
        rewrite ends_with_sep_app in * by done. done.
      * right. rewrite tidy_app in *.
        apply andb_true_iff in Ht as [_ ->]. by rewrite Hd1.
    + right. destruct Hfrom as [Hin|(k0 & H0 & Hb)].
      * exfalso. revert Hin. unfold sanitize_targets.
        rewrite !elem_of_cons, elem_of_nil.
        intros [H|[H|[H|[]]]]; by apply (f_equal (λ s, substring 0 4 s)) in H.
      * exists k0. split; [done|].
        rewrite Hb, !backslash_free_app, Hd2. done.
Qed.

(** What the members of the archive rebuilt from such a tree say of
    [docProps/core.xml]. *)
Lemma kept_from_members t0 t es err c :
  kept_from t0 t ->
  zip_members (map_to_list t) = (es, err) ->
  (core_xml, c) ∈ es ->
  ∃ k, k ≠ core_xml ∧ backslash_free k = false ∧ t0 !! k = Some c.
Proof.
  intros [Hc Hk] Hz Hin.
  destruct (zip_members_inv _ _ _ _ _ Hz Hin) as (k & Hkc & Hm & Ha).
  apply elem_of_map_to_list in Hkc.
  destruct (Hk k c Hkc) as [[Hm'|Ht] Hfrom]; [congruence|].
  destruct Hfrom as [Hin'|(k0 & H0 & Hb)].
  { exfalso. destruct (arcname_sanitize_target k Hin') as [_ Ha'].
    rewrite Ha' in Ha. injection Ha as ->. revert Hin'.
    unfold sanitize_targets. rewrite !elem_of_cons, elem_of_nil.
    by intros [?|[?|[?|[]]]]. }
  destruct (backslash_free k) eqn:Hbk.
  { exfalso. rewrite (arcname_tidy _ Ht Hbk) in Ha. injection Ha as ->.
    apply negb_true_iff, orb_false_iff in Hc as [Hf _].
    unfold is_file in Hf. apply bool_decide_eq_false in Hf. apply Hf. eauto. }
  exists k0. split; [|done]. intros ->. by vm_compute in Hb.
Qed.

Section Absent.

Variable w : World.

Lemma fix_core_absent t s :
  core_absent (files s) = true ->
  ∃ s', fix_core_properties w t s = (Ok tt, s')
        ∧ files s' = files s ∧ disk s' = disk s
        ∧ errors (report s') = errors (report s)
        ∧ map msg (actions (report s')) =
            map msg (actions (report s))
            ++ ["No core.xml found - nothing to fix for metadata."].
Proof.
  unfold core_absent. intros H%negb_true_iff.
  unfold fix_core_properties, path_exists, mbind, M_bind, emit, get. simpl.
  unfold files in *. simpl. rewrite H. simpl.
  eexists. split; [reflexivity|]. norm. by rewrite map_app.
Qed.

Lemma sanitize_one_kept t0 t r :
  r ∈ sanitize_targets ->
  preserves (maintains (λ s, kept_from t0 (files s))) (sanitize_one w t r).
Proof.
  intros Hr.
  preserves_with ltac:(unfold maintains; norm;
                       first [tauto | by apply kept_from_insert]).
Qed.

Lemma sanitize_kept t0 t :
  preserves (maintains (λ s, kept_from t0 (files s)))
    (sanitize_xml_files w t sanitize_targets).
Proof.
  unfold sanitize_xml_files, sanitize_targets, sanitize_each.
  repeat (apply (preserves_bind _); [|intros _]);
    first [ apply sanitize_one_kept; unfold sanitize_targets;
            rewrite !elem_of_cons; tauto
          | preserves_with ltac:(unfold maintains; norm; tauto) ].
Qed.

Lemma remove_custom_xml_kept t0 t :
  preserves (maintains (λ s, kept_from t0 (files s)))
    (remove_custom_xml w t).
Proof.
  preserves_with ltac:(unfold maintains; norm; tauto).
  intros s. unfold maintains, modify. norm. intros H.
  destruct (is_dir _ "customXml.removed");
    (apply kept_from_rename; [tauto | done]).
Qed.

End Absent.

Section AbsentRun.

Variable w : World.

Lemma backup_file_keeps_input p s dat :
  disk s !! str p = Some dat ->
  outcome (backup_file w p) s (λ _ s', disk s' !! str p = Some dat).
Proof.
  intros H. unfold backup_file, copy2.
  repeat (first [run_prim | run_case]); simplify_eq; try done.
  by apply lookup_insert_same_value.
Qed.

Lemma unzip_to_temp_extracts p s es :
  disk s !! str p = Some (ZipArchive es) ->
  outcome (unzip_to_temp w p) s
    (λ r s', match r with
             | Ok _ => extract_entries w (mkdtemp w) es ∅ = (files s', None)
             | Raise _ => True
             end).
Proof.
  intros H. unfold unzip_to_temp, mkdtemp_call, extractall.
  repeat (first [run_prim | run_case]); simplify_eq; done.
Qed.

End AbsentRun.

(** C1, as the spec states it, fails: the package of the sample has no
    core.xml, the run on it validates its output, and the output package
    has no metadata part at all. *)
Lemma missing_core_xml_is_not_synthesized :
  let w := Sample.world true true in
  let s := run w (Sample.on_disk Sample.plain) Sample.input None in
  core_absent (extract_entries w (mkdtemp w)
                 [("word/document.xml", Sample.serialize Sample.body)] ∅).1
  = true
  ∧ flag s = Some true
  ∧ ∃ es, disk s !! "/home/u/report.repaired.docx" = Some (ZipArchive es)
          ∧ has_part core_xml es = false.
Proof.
  split; [by vm_compute|]. split; [by vm_compute|].
  eexists. split; vm_compute; reflexivity.
Qed.

(** C1, amended.  When docProps/core.xml is absent from the tree that
    the input package extracts to, no metadata part is synthesized.  The
    metadata repairer, on any scratch tree without core.xml, returns
    after it has logged that there is nothing to fix: it changes no file
    and records no error.  And in a run that validates its output, a
    member of the package at the output path that is named
    docProps/core.xml holds what a file of the extracted tree held, a
    file whose name has a backslash, which the rebuild replaces by a
    slash: when no member of the input package has a backslash in its
    name, the package at the output path has no part
    docProps/core.xml. *)
Theorem absent_core_xml_is_not_synthesized w d input out es rd :
  d !! str input = Some (ZipArchive es) ->
  core_absent (extract_entries w (mkdtemp w) es ∅).1 = true ->
  repaired_docx_path input out = inr rd ->
  let t0 := (extract_entries w (mkdtemp w) es ∅).1 in
  let s := run w d input out in
  (∀ t s0, core_absent (files s0) = true ->
     let s1 := (fix_core_properties w t s0).2 in
     files s1 = files s0 ∧ disk s1 = disk s0
     ∧ errors (report s1) = errors (report s0)
     ∧ map msg (actions (report s1)) =
         map msg (actions (report s0))
         ++ ["No core.xml found - nothing to fix for metadata."])
  ∧ (flag s = Some true ->
     ∀ es', disk s !! str rd = Some (ZipArchive es') ->
       (∀ c, (core_xml, c) ∈ es' ->
          ∃ k, k ≠ core_xml ∧ backslash_free k = false ∧ t0 !! k = Some c)
       ∧ (Forall (λ e, backslash_free e.1 = true) es ->
          has_part core_xml es' = false)).
Proof.
  intros Hin Habs Hrd. cbv zeta. split.
  { intros t s0 H0. destruct (fix_core_absent w t s0 H0) as (s1 & -> & H).
    exact H. }
  set (t0 := (extract_entries w (mkdtemp w) es ∅).1) in *.
  assert (Ht0 : ∀ k v, t0 !! k = Some v ->
            (ends_with_sep k = true ∨ tidy k = true)
            ∧ (Forall (λ e, backslash_free e.1 = true) es ->
               backslash_free k = true)).
  { apply (extract_entries_keys w (mkdtemp w) es ∅ _
             (extract_entries w (mkdtemp w) es ∅).2); [done|done|].
    by destruct (extract_entries w (mkdtemp w) es ∅). }
  set (Q := λ es' : list (string * string),
         (∀ c, (core_xml, c) ∈ es' ->
            ∃ k, k ≠ core_xml ∧ backslash_free k = false
                 ∧ t0 !! k = Some c)
         ∧ (Forall (λ e, backslash_free e.1 = true) es ->
            has_part core_xml es' = false)).
  assert (HQ : ∀ t es' err, kept_from t0 t ->
            zip_members (map_to_list t) = (es', err) -> Q es').
  { intros t es' err HK Hz.
    assert (H1 : ∀ c, (core_xml, c) ∈ es' ->
              ∃ k, k ≠ core_xml ∧ backslash_free k = false
                   ∧ t0 !! k = Some c)
      by (intros c; apply (kept_from_members t0 t es' err c HK Hz)).
    split; [exact H1|]. intros Hes.
    unfold has_part. destruct (existsb _ es') eqn:E; [|done]. exfalso.
    apply existsb_exists in E as ([n c] & Hnc & Hn). simpl in Hn.
    apply String.eqb_eq in Hn as ->. apply list_elem_of_In in Hnc.
    destruct (H1 c Hnc) as (k & _ & Hb & Hk).
    destruct (Ht0 k c Hk) as [_ Hfree]. rewrite (Hfree Hes) in Hb. done. }
  change (flag (run w d input out) = Some true ->
          ∀ es', disk (run w d input out) !! str rd = Some (ZipArchive es') ->
                 Q es').
  clearbody Q.
  pattern (run w d input out).
  apply (whole_run_staged w (keeps flag)
           (λ _ s, kept_from t0 (files s))); cbv beta.
  - prologue_with keeps_leaf.
  - intros Hn. congruence.
  - intros s e HK. unfold keeps, flag in HK. norm in *.
    repeat run_prim. unfold flag. norm. by rewrite HK.
  - intros bak s1 tmpdir s2 E1 E2.
    pose proof (backup_file_keeps_input w input (started w d input) _ Hin)
      as H1.
    unfold outcome in H1. rewrite E1 in H1. simpl in H1.
    pose proof (unzip_to_temp_extracts w input s1 es H1) as H2.
    unfold outcome in H2. rewrite E2 in H2. simpl in H2.
    assert (Hf : files s2 = t0) by (unfold t0; by rewrite H2).
    rewrite Hf. split; [done|]. intros k v Hk.
    split; [by apply (Ht0 k v)|]. right. by exists k.
  - intros t s s' HJ E.
    destruct (fix_core_absent w t s (proj1 HJ)) as (s1 & E' & Hf & _).
    rewrite E' in E. simplify_eq. by rewrite Hf.
  - intros t s s' HJ E. pose proof (sanitize_kept w t0 t s HJ) as H.
    by rewrite E in H.
  - intros t s s' HJ E.
    pose proof (remove_custom_xml_kept w t0 t s HJ) as H.
    by rewrite E in H.
  - intros s s' tmpdir rd' HK HJ _ Hrd' E.
    rewrite Hrd in Hrd'. injection Hrd' as <-.
    apply rezip_from_temp_ok in E as (es1 & Hz & Hd & _ & Hf).
    unfold keeps in HK. rewrite <- Hf in HK.
    change (flag (started w d input)) with (@None bool) in HK.
    pose proof (HQ _ _ _ HJ Hz) as HQ1. clear HQ HJ Ht0.
    unfold epilogue. repeat run_prim.
    apply try_open_outcome. intros s1 b _ Hd1 _ Hf1 _ _ _ _ _ _.
    unfold flag in *. norm in *.
    destruct b; norm; repeat run_prim.
    + run_closing; unfold flag; norm; intros _ es' Hl;
        rewrite ?Hd1, ?Hd in Hl;
        repeat first
          [ rewrite lookup_insert_eq in Hl
          | match type of Hl with
            | context [<[?k := _]> _ !! ?k'] =>
                destruct (decide (k = k')) as [Heq|Hne];
                [rewrite Heq in Hl | rewrite lookup_insert_ne in Hl by done]
            end ];
        by simplify_eq.
    + apply (outcome_preserves _ _ _ _ (pandoc_roundtrip_unjudged w _ _)).
      intros r s2 [_ HK2]. unfold keeps, flag in HK2. norm in *.
      destruct r as [[|]|e]; norm; repeat run_prim;
        first [ run_closing; unfold flag; norm; congruence
              | unfold flag; norm; congruence ].
Qed.

Lemma absent_core_xml_witness :
  let w := Sample.world true true in
  let s := run w (Sample.on_disk Sample.plain) Sample.input None in
  ∃ es', disk s !! "/home/u/report.repaired.docx" = Some (ZipArchive es')
         ∧ has_part core_xml es' = false.
Proof.
  eexists. split; [vm_compute; reflexivity|].
  apply (proj2 (absent_core_xml_is_not_synthesized (Sample.world true true)
                  (Sample.on_disk Sample.plain) Sample.input None
                  [("word/document.xml", Sample.serialize Sample.body)]
                  (mkPath "/home/u/" "report.repaired.docx")
                  eq_refl eq_refl eq_refl));
    [vm_compute; reflexivity | vm_compute; reflexivity
    | repeat constructor ].
Defined.

(** The case that the amended statement sets apart.  A member whose name
    has a backslash for the separator is extracted to a file of that very
    name at the top of the scratch directory: the metadata repairer finds
    no core.xml and inserts nothing.  The rebuild replaces the backslash
    and stores the file, with the content that the input had, as
    docProps/core.xml. *)
Lemma backslash_named_member_is_stored_as_core_xml :
  let w := Sample.world true true in
  let member := "docProps" +:+ String (ascii_of_nat 92) "core.xml" in
  let es := [("word/document.xml", Sample.serialize Sample.body);
             (member, "<cp/>")] in
  let s := run w (Sample.on_disk (ZipArchive es)) Sample.input None in
  core_absent (extract_entries w (mkdtemp w) es ∅).1 = true
  ∧ flag s = Some true
  ∧ disk s !! "/home/u/report.repaired.docx"
    = Some (ZipArchive [("word/document.xml", Sample.serialize Sample.body);
                        (core_xml, "<cp/>")])
  ∧ map msg (actions (report s)) !! 3
    = Some "No core.xml found - nothing to fix for metadata.".
Proof.
  repeat split; vm_compute; reflexivity.
Qed.

(** ** C5: what a failing stage does to the run *)

Lemma appends_happened Q P s s' :
  appends P s s' -> happened Q s = true -> happened Q s' = true.
Proof.
  intros (evs & Heq & _). unfold happened. rewrite Heq, existsb_app.
  by intros ->.
Qed.

Lemma stage_called {A} f (k : unit -> M A) s :
  (∀ u, preserves (appends anything) (k u)) ->
  let s' := ((emit (Call f) ≫= k) s).2 in
  happened (is_call f) s' = true
  ∧ ∀ Q, happened Q s = true -> happened Q s' = true.
Proof.
  intros Hk. cbv zeta.
  change ((emit (Call f) ≫= k) s) with (k tt (with_event (Call f) s)).
  pose proof (Hk tt (with_event (Call f) s)) as H. split.
  - apply (appends_happened _ _ _ _ H). unfold happened. norm.
    rewrite existsb_app. simpl. destruct f; by rewrite orb_true_r.
  - intros Q HQ. apply (appends_happened _ _ _ _ H). unfold happened. norm.
    rewrite existsb_app. unfold happened in HQ. by rewrite HQ.
Qed.

Ltac any_leaf :=
  first [ by (exists []; rewrite app_nil_r)
        | by (eexists [_]; split; reflexivity) ].

Section Stages.

Variable w : World.

Lemma backup_file_called p s :
  let s' := (backup_file w p s).2 in
  happened (is_call Fbackup_file) s' = true
  ∧ ∀ Q, happened Q s = true -> happened Q s' = true.
Proof. apply stage_called. intros. preserves_with any_leaf. Qed.

Lemma unzip_to_temp_called p s :
  let s' := (unzip_to_temp w p s).2 in
  happened (is_call Funzip_to_temp) s' = true
  ∧ ∀ Q, happened Q s = true -> happened Q s' = true.
Proof. apply stage_called. intros. preserves_with any_leaf. Qed.

Lemma fix_core_properties_called t s :
  let s' := (fix_core_properties w t s).2 in
  happened (is_call Ffix_core_properties) s' = true
  ∧ ∀ Q, happened Q s = true -> happened Q s' = true.
Proof. apply stage_called. intros. preserves_with any_leaf. Qed.

Lemma sanitize_xml_files_called t l s :
  let s' := (sanitize_xml_files w t l s).2 in
  happened (is_call Fsanitize_xml_files) s' = true
  ∧ ∀ Q, happened Q s = true -> happened Q s' = true.
Proof.
  apply stage_called. intros. apply (preserves_sanitize_each _ _).
  intros. preserves_with any_leaf.
Qed.

Lemma remove_custom_xml_called t s :
  let s' := (remove_custom_xml w t s).2 in
  happened (is_call Fremove_custom_xml) s' = true
  ∧ ∀ Q, happened Q s = true -> happened Q s' = true.
Proof. apply stage_called. intros. preserves_with any_leaf. Qed.

Lemma rezip_from_temp_called t p s :
  let s' := (rezip_from_temp w t p s).2 in
  happened (is_call Frezip_from_temp) s' = true
  ∧ ∀ Q, happened Q s = true -> happened Q s' = true.
Proof. apply stage_called. intros. preserves_with any_leaf. Qed.

End Stages.

Lemma attempted_mono fs s s' :
  (∀ Q, happened Q s = true -> happened Q s' = true) ->
  attempted fs s = true -> attempted fs s' = true.
Proof.
  intros Hm. unfold attempted. rewrite !forallb_forall. auto.
Qed.

Lemma attempted_snoc fs f s :
  attempted fs s = true -> happened (is_call f) s = true ->
  attempted (fs ++ [f]) s = true.
Proof.
  unfold attempted. intros H1 H2. rewrite forallb_app, H1. simpl.
  by rewrite H2.
Qed.

Lemma errors_snoc_nonempty (l : list entry) e : l ++ [e] ≠ [].
Proof. by destruct l. Qed.

Section Failures.

Variable w : World.

Lemma pandoc_roundtrip_attempt t p s :
  errors (report s) ≠ [] ->
  let s' := (pandoc_roundtrip w t p s).2 in
  happened (is_call Fpandoc_roundtrip) s' = true
  ∧ (∀ Q, happened Q s = true -> happened Q s' = true)
  ∧ errors (report s') ≠ [].
Proof.
  intros He. cbv zeta.
  assert (H : preserves (both (appends anything)
                           (maintains (λ s, errors (report s) ≠ [])))
                (pandoc_roundtrip w t p)).
  { preserves_with ltac:(split;
      [any_leaf
      |unfold maintains; norm;
       first [tauto | intros; apply errors_snoc_nonempty]]). }
  destruct (H s) as [Ha Hm]. split; [|split].
  - eapply proj1. apply stage_called. intros. preserves_with any_leaf.
  - intros Q. by apply appends_happened with anything.
  - by apply Hm.
Qed.

(** What [try_open_with_python_docx] does, as an equation. *)
Lemma try_open_returns p s :
  ∃ s', try_open_with_python_docx w p s
        = (Ok (validates w (disk s !! str p)), s')
        ∧ (validates w (disk s !! str p) = false ->
           ∃ e, errors (report s') = errors (report s) ++ [e]).
Proof.
  unfold try_open_with_python_docx, validates, load_document,
    mbind, M_bind, try_except, emit, get. simpl.
  destruct (Document_imported w); simpl.
  - destruct (disk s !! str p) as [dat|]; simpl.
    + destruct (Document w dat); simpl;
        eexists; (split; [reflexivity|]); norm; eauto; done.
    + eexists; (split; [reflexivity|]); norm; eauto.
  - eexists; (split; [reflexivity|]); norm; eauto.
Qed.

Lemma sanitize_one_records t r s :
  is_file (files s) r || is_dir (files s) r = true ->
  parses w (files s !! r) = false ->
  ∃ e, errors (report (sanitize_one w t r s).2) = errors (report s) ++ [e].
Proof.
  unfold parses. intros Hx Hp. pattern ((sanitize_one w t r s).2).
  match goal with
  | |- ?P ?x => change (outcome (sanitize_one w t r) s (λ _ s', P s'))
  end.
  cbv beta. unfold sanitize_one, path_exists, safe_parse_xml, parse_and_print.
  repeat run_prim. unfold files in *. rewrite Hx. norm.
  repeat run_prim.
  destruct (etree_imported w); norm; repeat run_prim; [|eauto].
  destruct (default ∅ (scratch s) !! r) as [c|]; norm; repeat run_prim;
    [|eauto].
  simpl in Hp. destruct (etree_parse w c); [|done].
  norm. repeat run_prim. eauto.
Qed.

End Failures.

Section Returns.

Variable w : World.

Lemma sanitize_one_returns t r : returns (sanitize_one w t r).
Proof. returns_auto. Qed.

Lemma sanitize_xml_files_returns t l : returns (sanitize_xml_files w t l).
Proof.
  unfold sanitize_xml_files. apply returns_bind; [returns_auto|intros _].
  induction l as [|r l IH]; simpl; [apply returns_ret|].
  apply returns_bind; [apply sanitize_one_returns | intros _; apply IH].
Qed.

End Returns.

(** The end of a run that went through the validation: the state [sb] has
    all the stages attempted ([HA]) and the verdict settled ([HV]), and the
    state of the goal has the trace and the errors of [sb], and more. *)
Ltac ends_leaf sb HA HV :=
  lazymatch goal with
  | |- (happened is_save ?st = true ∨ _) ∧ _ =>
      let Hm := fresh "Hmono" in
      assert (Hm : ∀ Q, happened Q sb = true -> happened Q st = true)
        by (let HQ := fresh in
            intros ? HQ; unfold happened in *; norm;
            rewrite ?existsb_app, HQ; done);
      split;
      [ first [ left; unfold happened; norm; rewrite ?existsb_app; simpl;
                by rewrite ?orb_true_r
              | right; eexists; split; [norm; apply last_snoc|];
                right; by eexists ]
      | split;
        [ intros _; by apply (attempted_mono _ sb)
        | let Hl := fresh in
          intros _ Hl;
          destruct HV as [HV|[? ?]];
          [ apply Hm in HV; congruence
          | split; [by apply Hm|];
            let Habs := fresh in
            norm; intros Habs;
            repeat (apply app_eq_nil in Habs as [Habs _]); done ] ] ]
  end.

Ltac called_fact L E :=
  let H := fresh in
  pose proof L as H; cbv zeta in H; rewrite E in H; simpl in H;
  destruct H as [? ?].


(** What is recorded, and how far a run gets. *)
Lemma run_goes_on_or_is_given_up w d input out :
  (∀ t l, returns (sanitize_xml_files w t l))
  ∧ (∀ t r s,
       is_file (files s) r || is_dir (files s) r = true ->
       parses w (files s !! r) = false ->
       ∃ e, errors (report (sanitize_one w t r s).2)
            = errors (report s) ++ [e])
  ∧ (∀ p s,
       ∃ s', try_open_with_python_docx w p s
             = (Ok (validates w (disk s !! str p)), s')
             ∧ (validates w (disk s !! str p) = false ->
                ∃ e, errors (report s') = errors (report s) ++ [e]))
  ∧ let s := run w d input out in
    (happened is_save s = true ∨ aborted input s)
    ∧ (happened is_save s = true -> attempted pipeline s = true)
    ∧ (happened (is_call Ftry_open_with_python_docx) s = true ->
       happened is_load_ok s = false ->
       happened (is_call Fpandoc_roundtrip) s = true
       ∧ errors (report s) ≠ []).
Proof.
  split; [apply sanitize_xml_files_returns|].
  split; [apply sanitize_one_records|].
  split; [apply try_open_returns|].
  cbv zeta. pattern (run w d input out).
  apply (whole_run_staged w (silent before_validation)
           (λ f s, attempted (upto f pipeline) s = true)); cbv beta.
  - prologue_with appends_leaf.
  - intros _. repeat run_prim. split; [|done]. right.
    eexists. split; [reflexivity|]. by left.
  - intros s e HS. apply silent_happened in HS.
    change (happened before_validation (started w d input)) with false in HS.
    unfold happened in HS.
    assert (existsb is_save (trace s) = false
            ∧ existsb (is_call Ftry_open_with_python_docx) (trace s) = false)
      as [H1 H2].
    { clear -HS. induction (trace s) as [|ev tr IH]; simpl in *; [done|].
      apply orb_false_elim in HS as [[Ha Hb]%orb_false_elim Hc].
      destruct (IH Hc) as [-> ->]. by rewrite Ha, Hb. }
    repeat run_prim. unfold happened. norm. rewrite H1, H2.
    split; [|done]. right. eexists. split; [apply last_snoc|].
    right. by eexists.
  - intros bak s1 tmpdir s2 E1 E2.
    called_fact (backup_file_called w input (started w d input)) E1.
    called_fact (unzip_to_temp_called w input s1) E2.
    unfold attempted. simpl. rewrite andb_true_r. apply andb_true_iff. auto.
  - intros t s s' HJ E.
    called_fact (fix_core_properties_called w t s) E.
    apply (attempted_snoc [_; _]); [|done]. by apply (attempted_mono _ s).
  - intros t s s' HJ E.
    called_fact (sanitize_xml_files_called w t sanitize_targets s) E.
    apply (attempted_snoc [_; _; _]); [|done]. by apply (attempted_mono _ s).
  - intros t s s' HJ E.
    called_fact (remove_custom_xml_called w t s) E.
    apply (attempted_snoc [_; _; _; _]); [|done].
    by apply (attempted_mono _ s).
  - intros s s' tmpdir rd _ HJ Hname _ E.
    called_fact (rezip_from_temp_called w tmpdir rd s) E.
    assert (HA : attempted [Fbackup_file; Funzip_to_temp;
                            Ffix_core_properties; Fsanitize_xml_files;
                            Fremove_custom_xml; Frezip_from_temp] s' = true).
    { apply (attempted_snoc [_; _; _; _; _]); [|done].
      by apply (attempted_mono _ s). }
    clear HJ.
    unfold epilogue. repeat run_prim.
    apply try_open_outcome. intros s1 b _ _ _ _ _ _ Herr HL HC HE.
    assert (HA1 : attempted pipeline s1 = true).
    { apply (attempted_snoc [_; _; _; _; _; _]); [|done].
      unfold attempted in *. rewrite forallb_forall in *. intros f Hf.
      specialize (HA f Hf).
      rewrite HE; [done| |done].
      repeat (apply in_inv in Hf as [<-|Hf]; [done|]). done. }
    clear HE HA.
    unfold closing, with_suffix. rewrite Hname.
    destruct b; norm in *; repeat run_prim.
    + assert (HV : happened is_load_ok s1 = true
                   ∨ (happened (is_call Fpandoc_roundtrip) s1 = true
                      ∧ errors (report s1) ≠ []))
        by (left; by rewrite HL, orb_true_r).
      unfold save, rmtree.
      repeat (first [run_prim | run_case]); ends_leaf s1 HA1 HV.
    + unfold outcome at 1.
      match goal with
      | |- context [pandoc_roundtrip w tmpdir rd ?sa] =>
          destruct (pandoc_roundtrip_attempt w tmpdir rd sa)
            as (H1 & H2 & H3);
          [ norm; destruct Herr as [e ->]; apply errors_snoc_nonempty |];
          assert (HA2 : attempted pipeline
                          (pandoc_roundtrip w tmpdir rd sa).2 = true)
            by (apply (attempted_mono _ sa); [done|exact HA1]);
          destruct (pandoc_roundtrip w tmpdir rd sa) as [[pb|e] s2]
      end.
      all: simpl in H1, H2, H3, HA2.
      all: assert (HV : happened is_load_ok s2 = true
                   ∨ (happened (is_call Fpandoc_roundtrip) s2 = true
                      ∧ errors (report s2) ≠ []))
        by (right; by split).
      all: norm.
      * unfold save, rmtree.
        destruct pb; repeat (first [run_prim | run_case]);
          ends_leaf s2 HA2 HV.
      * repeat run_prim. ends_leaf s2 HA2 HV.
Qed.

Section Raising.

Variable w : World.

(** The stages that have no handler of their own raise when what they
    do fails. *)
Lemma backup_file_raises p s e :
  String.eqb (name p) "" = false ->
  (∀ dst, os_error w (SCopy2 (str p) dst) = Some e) ->
  (backup_file w p s).1 = Raise e.
Proof.
  intros Hn He. pattern ((backup_file w p s).1).
  match goal with
  | |- ?P ?x => change (outcome (backup_file w p) s (λ r _, P r))
  end.
  cbv beta. unfold backup_file, with_suffix, copy2. rewrite Hn.
  repeat run_prim. rewrite He. done.
Qed.

Lemma unzip_to_temp_raises p s dat :
  disk s !! str p = Some dat ->
  is_zip dat = false ->
  os_error w SMkdtemp = None ->
  (unzip_to_temp w p s).1 = Raise (bad_zip_file w dat).
Proof.
  intros Hd Hz Hm. pattern ((unzip_to_temp w p s).1).
  match goal with
  | |- ?P ?x => change (outcome (unzip_to_temp w p) s (λ r _, P r))
  end.
  cbv beta. unfold unzip_to_temp, mkdtemp_call, extractall.
  repeat run_prim. rewrite Hm. norm. repeat run_prim. rewrite Hd.
  destruct dat; [|done|]; norm; repeat run_prim; done.
Qed.

Lemma fix_core_properties_raises t s c e :
  files s !! core_xml = Some c ->
  parses w (Some c) = false ->
  os_error w (SWriteText core_xml) = Some e ->
  (fix_core_properties w t s).1 = Raise e.
Proof.
  intros Hc Hp He. pattern ((fix_core_properties w t s).1).
  match goal with
  | |- ?P ?x => change (outcome (fix_core_properties w t) s (λ r _, P r))
  end.
  cbv beta.
  unfold fix_core_properties, path_exists, safe_parse_xml, parse_and_print,
    write_text_file, is_file, parses in *.
  repeat run_prim. unfold files in *.
  rewrite Hc, bool_decide_true by eauto. norm.
  destruct (etree_imported w); simpl in Hp; norm; repeat run_prim.
  - rewrite Hc. norm. destruct (etree_parse w c); [|done].
    norm. repeat run_prim. rewrite He. done.
  - rewrite He. done.
Qed.

Lemma remove_custom_xml_raises t s e :
  is_file (files s) "customXml" || is_dir (files s) "customXml" = true ->
  os_error w (SMove "customXml" "customXml.removed") = Some e ->
  (remove_custom_xml w t s).1 = Raise e.
Proof.
  intros Hx He. pattern ((remove_custom_xml w t s).1).
  match goal with
  | |- ?P ?x => change (outcome (remove_custom_xml w t) s (λ r _, P r))
  end.
  cbv beta. unfold remove_custom_xml, path_exists, shutil_move.
  repeat run_prim. unfold files in *. rewrite Hx. norm.
  repeat run_prim. rewrite He. done.
Qed.

Lemma rezip_from_temp_raises t p s e :
  os_error w (SZipWrite (str p)) = Some e ->
  (rezip_from_temp w t p s).1 = Raise e.
Proof.
  intros He. pattern ((rezip_from_temp w t p s).1).
  match goal with
  | |- ?P ?x => change (outcome (rezip_from_temp w t p) s (λ r _, P r))
  end.
  cbv beta. unfold rezip_from_temp. repeat run_prim. rewrite He. done.
Qed.

(** A stage before the validation calls no stage but itself, and it does
    not save the report. *)
Lemma stage_calls_itself input out f g t :
  stage_index f < 6 -> g ≠ f ->
  preserves (silent (λ ev, is_call g ev || is_save ev))
    (stage w input out f t).
Proof.
  intros Hf Hg.
  destruct f; simpl in Hf; try lia; destruct g; try congruence;
    unfold stage;
    first [ apply (preserves_bind _);
            [preserves_with appends_leaf
            |intros _; apply (preserves_sanitize_each _ _);
             intros; preserves_with appends_leaf]
          | preserves_with appends_leaf ].
Qed.

Lemma stage_keeps_final_docx input out f t :
  stage_index f < 6 ->
  preserves (keeps (λ s, (final_docx (report s), flag s)))
    (stage w input out f t).
Proof.
  intros Hf. apply (stage_preserves _ _); [|done].
  split; intros; preserves_with keeps_leaf.
Qed.

(** In the state in which a run reaches a stage, neither that stage nor
    a later one has been called, and nothing was saved. *)
Lemma reaches_calls d input out f t s g :
  reaches w d input out f t s ->
  stage_index f ≤ stage_index g ->
  happened (λ ev, is_call g ev || is_save ev) s = false.
Proof.
  intros Hr. revert g.
  assert (Hstep : ∀ f0 t0 s0 s1 g,
            stage_index f0 < 6 ->
            stage w input out f0 t0 s0 = (Ok tt, s1) ->
            S (stage_index f0) ≤ stage_index g ->
            happened (λ ev, is_call g ev || is_save ev) s0 = false ->
            happened (λ ev, is_call g ev || is_save ev) s1 = false).
  { intros f0 t0 s0 s1 g H6 E Hg H0.
    assert (Hne : g ≠ f0) by (intros ->; lia).
    pose proof (stage_calls_itself input out f0 g t0 H6 Hne s0) as HS.
    rewrite E in HS. apply silent_happened in HS. simpl in HS.
    by rewrite HS. }
  induction Hr as
    [ Hin | s bak s' _ IH E | s t s' _ IH E | t s s' _ IH E | t s s' _ IH E
    | t s s' _ IH E | t s rd s' _ IH Hrd E ]; intros g Hg.
  - done.
  - apply (Hstep Fbackup_file "" s s' g); [simpl; lia | | done |].
    + unfold stage, mbind, M_bind. by rewrite E.
    + apply IH. simpl in *. lia.
  - apply (Hstep Funzip_to_temp "" s s' g); [simpl; lia | | done |].
    + unfold stage, mbind, M_bind. by rewrite E.
    + apply IH. simpl in *. lia.
  - apply (Hstep Ffix_core_properties t s s' g); [simpl; lia|done|done|].
    apply IH. simpl in *. lia.
  - apply (Hstep Fsanitize_xml_files t s s' g); [simpl; lia|done|done|].
    apply IH. simpl in *. lia.
  - apply (Hstep Fremove_custom_xml t s s' g); [simpl; lia|done|done|].
    apply IH. simpl in *. lia.
  - apply (Hstep Frezip_from_temp t s s' g); [simpl; lia| |done|].
    + unfold stage, lift, mbind, M_bind, mret, M_ret. rewrite Hrd.
      by rewrite E.
    + apply IH. simpl in *. lia.
Qed.

Lemma happened_or Q1 Q2 s :
  happened (λ ev, Q1 ev || Q2 ev) s = false ->
  happened Q1 s = false ∧ happened Q2 s = false.
Proof.
  unfold happened. induction (trace s) as [|ev tr IH]; simpl; [done|].
  intros [[H1 H2]%orb_false_elim H3]%orb_false_elim.
  destruct (IH H3) as [-> ->]. by rewrite H1, H2.
Qed.

(** A stage that raises ends the run: the handler of [repair_docx] logs
    the exception, and that is all that happens after it. *)
Lemma raising_stage_ends_the_run d input out f tmpdir s0 e s1 :
  reaches w d input out f tmpdir s0 ->
  stage w input out f tmpdir s0 = (Raise e, s1) ->
  let s := run w d input out in
  trace s = trace s1 ∧ disk s = disk s1 ∧ scratch s = scratch s1
  ∧ actions (report s) = actions (report s1)
  ∧ (∃ x, errors (report s) = errors (report s1) ++ [x]
          ∧ msg x = "Unexpected error during repair: " +:+ e)
  ∧ (stage_index f < 6 ->
     (∀ g, stage_index f < stage_index g ->
           happened (is_call g) s = false)
     ∧ happened is_save s = false
     ∧ final_docx (report s) = None
     ∧ flag s = None).
Proof.
  intros Hr Hs. cbv zeta. rewrite (run_stage_raise w _ _ _ _ _ _ _ _ Hr Hs).
  change ((unexpected w e s1).2)
    with (with_report
            (push_error (mkEntry (utcnow_isoformat w (ticks s1) +:+ "Z")
                           ("Unexpected error during repair: " +:+ e)))
            (with_tick s1)).
  norm. repeat (split; [done|]). split; [by eexists|].
  intros H6.
  assert (Hcalls : ∀ g, stage_index f ≤ stage_index g -> g ≠ f ->
            happened (λ ev, is_call g ev || is_save ev) s1 = false).
  { intros g Hg Hne.
    pose proof (stage_calls_itself input out f g tmpdir H6 Hne s0) as HS.
    rewrite Hs in HS. apply silent_happened in HS. simpl in HS.
    rewrite HS. by apply (reaches_calls d input out f tmpdir). }
  split; [|split].
  - intros g Hg. unfold happened. norm.
    apply (happened_or (is_call g) is_save), Hcalls; [lia|].
    intros ->. lia.
  - unfold happened. norm.
    apply (happened_or (is_call Fpandoc_roundtrip) is_save), Hcalls.
    + destruct f; simpl in *; lia.
    + intros <-. simpl in H6. lia.
  - pose proof (stage_keeps_final_docx input out f tmpdir H6 s0) as HK.
    rewrite Hs in HK. unfold keeps in HK. simpl in HK.
    pose proof (reaches_preserves w
                  (keeps (λ s, (final_docx (report s), flag s)))
                  d input out f tmpdir s0
                  ltac:(split; intros; preserves_with keeps_leaf) Hr) as HK0.
    unfold keeps in HK0. rewrite HK0 in HK.
    change (final_docx (report (started w d input)),
            flag (started w d input)) with (@None string, @None bool) in HK.
    unfold flag in *. norm. by injection HK as -> ->.
Qed.

End Raising.


(** * Further properties of the code *)

(** ** Strings and paths *)

Lemma substring_drop n (s : string) :
  substring 0 n s +:+ drop_string n s = s.
Proof.
  revert s. induction n as [|n IH]; intros [|c s]; simpl; try done.
  by rewrite append_cons, IH.
Qed.

Lemma stem_suffix p : stem p +:+ suffix p = name p.
Proof.
  unfold stem, suffix, split_suffix.
  destruct (rfind_dot (name p)) as [i|]; simpl.
  - destruct (_ && _); simpl; [apply substring_drop|].
    induction (name p) as [|c s IH]; [done|]. by rewrite append_cons, IH.
  - induction (name p) as [|c s IH]; [done|]. by rewrite append_cons, IH.
Qed.

Lemma dots_app a b : dots (a +:+ b) = dots a + dots b.
Proof.
  induction a as [|c a IH]; [done|]. rewrite append_cons. simpl. rewrite IH. lia.
Qed.

Lemma rfind_dot_none s : rfind_dot s = None -> dots s = 0.
Proof.
  induction s as [|c s IH]; simpl; [done|].
  destruct (rfind_dot s); [done|]. destruct (Ascii.eqb c "."); [done|].
  intros _. by rewrite IH.
Qed.

Lemma rfind_dot_drop s i : rfind_dot s = Some i -> dots (drop_string i s) = 1.
Proof.
  revert i. induction s as [|c s IH]; simpl; intros i; [done|].
  destruct (rfind_dot s) as [j|] eqn:E.
  - intros [= <-]. simpl. by apply IH.
  - destruct (Ascii.eqb c ".") eqn:Ec; [|done]. intros [= <-]. simpl.
    by rewrite Ec, (rfind_dot_none _ E).
Qed.

Lemma dots_suffix p : dots (suffix p) ≤ 1.
Proof.
  unfold suffix, split_suffix.
  destruct (rfind_dot (name p)) as [i|] eqn:E; simpl; [|lia].
  destruct (_ && _); simpl; [|lia]. by rewrite (rfind_dot_drop _ _ E).
Qed.

Lemma rfind_dot_app a b :
  rfind_dot (a +:+ b) =
  match rfind_dot b with
  | Some i => Some (String.length a + i)
  | None => rfind_dot a
  end.
Proof.
  induction a as [|c a IH].
  - rewrite append_nil_l. simpl. by destruct (rfind_dot b).
  - rewrite append_cons. simpl. rewrite IH. by destruct (rfind_dot b).
Qed.

Lemma length_app (a b : string) :
  String.length (a +:+ b) = String.length a + String.length b.
Proof. induction a as [|c a IH]; [done|]. rewrite append_cons. simpl. by rewrite IH. Qed.

Lemma substring_app a b : substring 0 (String.length a) (a +:+ b) = a.
Proof.
  induction a as [|c a IH]; [rewrite append_nil_l; by destruct b|].
  rewrite append_cons. simpl. by rewrite IH.
Qed.

Lemma drop_string_app a b : drop_string (String.length a) (a +:+ b) = b.
Proof. induction a as [|c a IH]; [done|]. by rewrite append_cons. Qed.

(** The stem of [a.ext]. *)
Lemma split_suffix_app a ext :
  a ≠ "" -> rfind_dot ext = Some 0 -> 1 < String.length ext ->
  split_suffix (a +:+ ext) = (a, ext).
Proof.
  intros Ha Hdot Hlen. unfold split_suffix.
  rewrite rfind_dot_app, Hdot, Nat.add_0_r, length_app.
  assert (0 < String.length a) by (destruct a; [done|simpl; lia]).
  replace (0 <? String.length a) with true by (symmetry; by apply Nat.ltb_lt).
  replace (String.length a <? String.length a + String.length ext - 1)
    with true by (symmetry; apply Nat.ltb_lt; lia).
  simpl. by rewrite substring_app, drop_string_app.
Qed.

Lemma append_longer (a b : string) : b ≠ "" -> a +:+ b ≠ a.
Proof.
  intros Hb H%(f_equal String.length). rewrite length_app in H.
  destruct b; [done|]. simpl in H. lia.
Qed.

(** [src.with_suffix(src.suffix + x)] appends [x] to the path. *)
Lemma with_suffix_suffix p x q :
  with_suffix p (suffix p +:+ x) = inr q -> str q = str p +:+ x.
Proof.
  intros ->%with_suffix_str. unfold str.
  by rewrite <- (append_assoc (stem p)), stem_suffix, append_assoc.
Qed.

(** ** The run, case by case *)

Section RunCases.

Variable w : World.

(** The run, case by case, from the backup on: [B] is what is known when
    the backup is made, [R] relates the states of the later stages to the
    state in which the backup was made, [J f] is what is known when the
    stage [f] has returned. *)
Lemma run_cases (R : relation state) `{!PreOrder R}
    (B : Path -> state -> Prop) (J : fname -> state -> Prop)
    (P : state -> Prop) d input out :
  preserves R (unzip_to_temp w input) ->
  (∀ t, preserves R (fix_core_properties w t)) ->
  (∀ t r, preserves R (sanitize_one w t r)) ->
  preserves R (emit (Call Fsanitize_xml_files)) ->
  (∀ t, preserves R (remove_custom_xml w t)) ->
  (d !! str input = None ->
   outcome (add_error w ("Input file not found: " +:+ str input))
     (started w d input) (λ _, P)) ->
  (∀ dat,
     d !! str input = Some dat ->
     outcome (backup_file w input) (started w d input)
       (λ r s1, match r with
                | Ok bak => B bak s1
                | Raise e => outcome (unexpected w e) s1 (λ _, P)
                end)) ->
  (∀ bak s1 s e, B bak s1 -> R s1 s -> outcome (unexpected w e) s (λ _, P)) ->
  (∀ bak s1 tmpdir s2,
     B bak s1 -> unzip_to_temp w input s1 = (Ok tmpdir, s2) ->
     J Funzip_to_temp s2) ->
  (∀ t s s', J Funzip_to_temp s ->
     fix_core_properties w t s = (Ok tt, s') -> J Ffix_core_properties s') ->
  (∀ t s s', J Ffix_core_properties s ->
     sanitize_xml_files w t sanitize_targets s = (Ok tt, s') ->
     J Fsanitize_xml_files s') ->
  (∀ t s s', J Fsanitize_xml_files s ->
     remove_custom_xml w t s = (Ok tt, s') -> J Fremove_custom_xml s') ->
  (∀ bak s1 s tmpdir rd r s',
     B bak s1 -> R s1 s -> J Fremove_custom_xml s ->
     String.eqb (name input) "" = false ->
     repaired_docx_path input out = inr rd ->
     rezip_from_temp w tmpdir rd s = (r, s') ->
     match r with
     | Ok _ =>
         outcome (epilogue w input tmpdir rd) s'
           (λ r s'', match r with
                     | Ok _ => P s''
                     | Raise e => outcome (unexpected w e) s'' (λ _, P)
                     end)
     | Raise e => outcome (unexpected w e) s' (λ _, P)
     end) ->
  P (run w d input out).
Proof.
  intros Huz Hfc Hso Hsc Hrc Hmissing Hbak Hstop HJ0 HJ1 HJ2 HJ3 Hepi.
  apply run_outcome. rewrite repair_docx_phases.
  apply outcome_bind. unfold outcome at 1.
  change ((RepairReport_init w (str input) (initial d)).2)
    with (started w d input).
  change ((RepairReport_init w (str input) (initial d)).1)
    with (Ok tt : result ()).
  cbv beta iota.
  apply outcome_try_except. unfold disk_exists. repeat run_prim.
  change (disk (started w d input)) with d.
  destruct (d !! str input) as [dat|] eqn:Hin.
  2:{ rewrite bool_decide_false by (by intros [? ?]). norm.
      run_prim. exact (Hmissing eq_refl). }
  rewrite bool_decide_true by eauto. norm.
  apply outcome_bind. unfold outcome at 1.
  pose proof (backup_file_named w input (started w d input)) as Hname.
  specialize (Hbak dat eq_refl). unfold outcome at 1 in Hbak.
  destruct (backup_file w input (started w d input)) as [[bak|e] s1] eqn:E1;
    simpl in *; [|exact Hbak].
  specialize (Hname _ eq_refl).
  pose proof (λ s, Hstop bak s1 s) as Hstop'. clear Hstop.
  pose proof (λ t s2, HJ0 bak s1 t s2 Hbak) as HJ. clear HJ0.
  pose proof (λ s, Hepi bak s1 s) as Hepi'. clear Hepi.
  assert (H0 : R s1 s1) by reflexivity.
  apply outcome_bind. unfold outcome at 1.
  pose proof (Huz s1) as H1.
  destruct (unzip_to_temp w input s1) as [[tmpdir|e] s2] eqn:E2;
    simpl in *; extend H0 H1; [|by apply Hstop'].
  specialize (HJ _ _ eq_refl).
  apply outcome_bind. unfold outcome at 1.
  pose proof (Hfc tmpdir s2) as H1.
  destruct (fix_core_properties w tmpdir s2) as [[[]|e] s3] eqn:E3;
    simpl in *; extend H0 H1; [|by apply Hstop'].
  apply (HJ1 _ _ _ HJ) in E3.
  apply outcome_bind. unfold outcome at 1.
  assert (H1 : R s3 (sanitize_xml_files w tmpdir sanitize_targets s3).2).
  { apply (preserves_bind _); [done|].
    intros _. by apply preserves_sanitize_each. }
  destruct (sanitize_xml_files w tmpdir sanitize_targets s3)
    as [[[]|e] s4] eqn:E4;
    simpl in *; extend H0 H1; [|by apply Hstop'].
  apply (HJ2 _ _ _ E3) in E4.
  apply outcome_bind. unfold outcome at 1.
  pose proof (Hrc tmpdir s4) as H1.
  destruct (remove_custom_xml w tmpdir s4) as [[[]|e] s5] eqn:E5;
    simpl in *; extend H0 H1; [|by apply Hstop'].
  apply (HJ3 _ _ _ E4) in E5.
  apply outcome_bind.
  destruct (repaired_docx_path input out) as [e|rd] eqn:Hrd.
  { apply outcome_raise. by apply Hstop'. }
  apply outcome_ret.
  apply outcome_bind. unfold outcome at 1.
  specialize (Hepi' s5 tmpdir rd).
  destruct (rezip_from_temp w tmpdir rd s5) as [[[]|e] s6] eqn:E6;
    simpl in *; by apply (Hepi' _ _ Hbak H0 E5 Hname eq_refl eq_refl).
Qed.

End RunCases.

Section RunAfterBackup.

Variable w : World.

(** A run whose stages after the backup all preserve [R]. *)
Lemma run_after_backup (R : relation state) `{!PreOrder R}
    (B : Path -> state -> Prop) (P : state -> Prop) d input out :
  preserves R (unzip_to_temp w input) ->
  (∀ t, preserves R (fix_core_properties w t)) ->
  (∀ t r, preserves R (sanitize_one w t r)) ->
  preserves R (emit (Call Fsanitize_xml_files)) ->
  (∀ t, preserves R (remove_custom_xml w t)) ->
  (∀ t rd, repaired_docx_path input out = inr rd ->
           String.eqb (name input) "" = false ->
           preserves R (rezip_from_temp w t rd)) ->
  (∀ t rd, repaired_docx_path input out = inr rd ->
           String.eqb (name input) "" = false ->
           preserves R (epilogue w input t rd)) ->
  (∀ e, preserves R (unexpected w e)) ->
  (d !! str input = None ->
   outcome (add_error w ("Input file not found: " +:+ str input))
     (started w d input) (λ _, P)) ->
  (∀ dat,
     d !! str input = Some dat ->
     outcome (backup_file w input) (started w d input)
       (λ r s1, match r with
                | Ok bak => B bak s1
                | Raise e => outcome (unexpected w e) s1 (λ _, P)
                end)) ->
  (∀ bak s1 s, B bak s1 -> R s1 s -> P s) ->
  P (run w d input out).
Proof.
  intros Huz Hfc Hso Hsc Hrc Hrz Hep Hun Hmissing Hbak Hend.
  apply (run_cases w R B (λ _ _, True)); try done.
  - intros bak s1 s e HB HR. apply (outcome_preserves R); [done|].
    intros _ s2 HR2. apply (Hend bak s1); [done|]. by transitivity s.
  - intros bak s1 s tmpdir rd r s' HB HR _ Hn Hrd E.
    assert (HR' : R s1 s').
    { transitivity s; [done|].
      pose proof (Hrz tmpdir rd Hrd Hn s) as H. by rewrite E in H. }
    destruct r as [[]|e].
    + apply (outcome_preserves R); [by apply Hep|].
      intros r2 s2 HR2. destruct r2 as [[]|e].
      * apply (Hend bak s1); [done|]. by transitivity s'.
      * apply (outcome_preserves R); [done|].
        intros _ s3 HR3. apply (Hend bak s1); [done|].
        transitivity s'; [done|]. by transitivity s2.
    + apply (outcome_preserves R); [done|].
      intros _ s3 HR3. apply (Hend bak s1); [done|]. by transitivity s'.
Qed.

End RunAfterBackup.

(** ** The names of the files of a run *)

Lemma dots_not_suffix p x : 2 ≤ dots x -> stem p +:+ x ≠ name p.
Proof.
  intros Hx. rewrite <- stem_suffix. intros ->%append_inj_l.
  pose proof (dots_suffix p). lia.
Qed.

(** A name made of the stem of [p] and of an ending with two dots or more
    is not the name of [p]. *)
Lemma sibling_not_self p x (k : string) :
  2 ≤ dots x -> k = dirpart p +:+ (stem p +:+ x) -> k ≠ str p.
Proof.
  intros Hx ->. unfold str. intros H%append_inj_l.
  by apply (dots_not_suffix p x).
Qed.

Lemma stem_with_name p a ext q :
  with_name p (a +:+ ext) = inr q ->
  a ≠ "" -> rfind_dot ext = Some 0 -> 1 < String.length ext ->
  stem q = a ∧ dirpart q = dirpart p.
Proof.
  unfold with_name. destruct (String.eqb _ _); [done|]. intros [= <-] ? ? ?.
  unfold stem. simpl. by rewrite split_suffix_app.
Qed.

Lemma stem_with_suffix p ext q :
  with_suffix p ext = inr q ->
  rfind_dot ext = Some 0 -> 1 < String.length ext ->
  String.eqb (name p) "" = false ->
  stem q = stem p ∧ dirpart q = dirpart p.
Proof.
  unfold with_suffix. intros H Hd Hl Hn. rewrite Hn in H.
  injection H as <-. unfold stem at 1. simpl.
  rewrite split_suffix_app; [done| |done..].
  unfold stem, split_suffix. intros Hs.
  destruct (rfind_dot (name p)) as [i|] eqn:E; simpl in Hs.
  - destruct (0 <? i) eqn:Hi; simpl in Hs.
    + destruct (i <? _); simpl in Hs.
      * apply Nat.ltb_lt in Hi. destruct i; [lia|].
        destruct (name p); simpl in *; done.
      * by rewrite Hs in Hn.
    + by rewrite Hs in Hn.
  - by rewrite Hs in Hn.
Qed.

(** ** The backup *)

Section Backup.
Variable w : World.

(** What [backup_file] does, case by case. *)
Lemma backup_file_outcome p s dat (Q : result Path -> state -> Prop) :
  disk s !! str p = Some dat ->
  (∀ e s', disk s' = disk s -> scratch s' = scratch s ->
           backup_path (report s') = backup_path (report s) ->
           actions (report s') = actions (report s) ->
           errors (report s') = errors (report s) ->
           (trace s' = trace s ++ [Call Fbackup_file]
            ∨ ∃ b, trace s' = trace s ++ [Call Fbackup_file; Copy2 (str p) b]) ->
           Q (Raise e) s') ->
  (∀ bak s',
     String.eqb (name p) "" = false ->
     str bak = str p +:+ ".backup." +:+ utcnow_compact w (ticks s) ->
     os_error w (SCopy2 (str p) (str bak)) = None ->
     disk s' = <[str bak := dat]> (disk s) ->
     scratch s' = scratch s ->
     backup_path (report s') = Some (str bak) ->
     (∃ e, actions (report s') = actions (report s) ++ [e]
           ∧ msg e = "Backed up original file to " +:+ str bak) ->
     errors (report s') = errors (report s) ->
     trace s' = trace s ++ [Call Fbackup_file; Copy2 (str p) (str bak)] ->
     Q (Ok bak) s') ->
  outcome (backup_file w p) s Q.
Proof.
  intros Hin Hfail Hok. unfold backup_file, copy2.
  repeat run_prim.
  destruct (with_suffix p _) as [e|bak] eqn:Hb; norm; repeat run_prim.
  { apply Hfail; norm; auto. }
  assert (Hn : String.eqb (name p) "" = false).
  { unfold with_suffix in Hb. by destruct (String.eqb (name p) ""). }
  apply with_suffix_suffix in Hb.
  destruct (os_error w _) as [e|] eqn:Hos; norm; repeat run_prim.
  { apply Hfail; norm; auto. right. eexists. by rewrite <- app_assoc. }
  rewrite Hin. norm. repeat run_prim.
  apply Hok; norm; auto.
  - eauto.
  - by rewrite <- app_assoc.
Qed.

End Backup.




(** ** The files that a run writes *)

Lemma preserves_bind_lift {A B} (R : relation state) `{!PreOrder R}
    (x : string + A) (k : A -> M B) :
  (∀ a, x = inr a -> preserves R (k a)) -> preserves R (lift x ≫= k).
Proof.
  intros H s. destruct x as [e|a]; simpl; [reflexivity|]. by apply H.
Qed.

(** [preserves R m] as [preserves_with] proves it, with the paths that [m]
    computes known in what follows them. *)
Ltac frame_step leaf :=
  lazymatch goal with
  | |- preserves _ (mbind _ (lift _)) =>
      apply (preserves_bind_lift _); intros ? ?
  | |- _ => preserves_step leaf
  end.

Ltac frame_with leaf := repeat frame_step leaf.

Lemma temp_name rd tmp :
  with_name rd (stem rd +:+ ".pandoc_temp.docx") = inr tmp ->
  str tmp = pandoc_temp rd.
Proof. apply with_name_str. Qed.

Lemma md_name rd tmp md :
  with_name rd (stem rd +:+ ".pandoc_temp.docx") = inr tmp ->
  with_suffix tmp ".md" = inr md ->
  str md = pandoc_md rd.
Proof.
  intros Ht Hm. apply with_suffix_str in Hm as ->.
  change (stem rd +:+ ".pandoc_temp.docx")
    with (stem rd +:+ (".pandoc_temp" +:+ ".docx")) in Ht.
  rewrite <- append_assoc in Ht.
  apply stem_with_name in Ht as [-> ->]; [|by destruct (stem rd)|done|simpl; lia].
  unfold pandoc_md. by rewrite append_assoc.
Qed.

Lemma rebuilt_name rd new :
  with_name rd (stem rd +:+ ".pandoc_rebuilt.docx") = inr new ->
  str new = pandoc_rebuilt rd.
Proof. apply with_name_str. Qed.

(** The names of the files of the fallback, in the hypotheses. *)
Ltac fallback_names :=
  repeat match goal with
         | H : with_name ?rd (stem ?rd +:+ ".pandoc_temp.docx") = inr ?tmp,
           H' : with_suffix ?tmp ".md" = inr _ |- _ =>
             apply (md_name _ _ _ H) in H'
         end;
  repeat match goal with
         | H : with_name ?rd (stem ?rd +:+ ".pandoc_temp.docx") = inr _ |- _ =>
             apply temp_name in H
         | H : with_name ?rd (stem ?rd +:+ ".pandoc_rebuilt.docx") = inr _
           |- _ =>
             apply rebuilt_name in H
         end.

(** The disk at [K] is kept by a write or a removal elsewhere. *)
Ltac elsewhere_leaf :=
  unfold keeps; norm;
  first [ reflexivity
        | fallback_names;
          first [ rewrite lookup_insert_ne by congruence
                | rewrite lookup_delete_ne by congruence ];
          reflexivity ].

Section Fallback.

Variable w : World.

Lemma pandoc_roundtrip_elsewhere K t rd :
  K ≠ str rd -> K ≠ pandoc_temp rd -> K ≠ pandoc_md rd ->
  K ≠ pandoc_rebuilt rd ->
  preserves (keeps (λ s, disk s !! K)) (pandoc_roundtrip w t rd).
Proof.
  intros H1 H2 H3 H4. frame_with elsewhere_leaf.
Qed.

Lemma pandoc_roundtrip_scratch t rd :
  preserves (keeps scratch) (pandoc_roundtrip w t rd).
Proof. preserves_with keeps_leaf. Qed.

End Fallback.

(** X3.  [pandoc_roundtrip] touches four paths at most: the repaired
    package and, next to it, [<stem>.pandoc_temp.docx],
    [<stem>.pandoc_temp.md] and [<stem>.pandoc_rebuilt.docx].  Every other
    path of the disk holds after the call what it held before, whether the
    call returns or raises, and the scratch directory is not changed. *)
Theorem fallback_touches_four_files_only w t rd s K :
  K ≠ str rd -> K ≠ pandoc_temp rd -> K ≠ pandoc_md rd ->
  K ≠ pandoc_rebuilt rd ->
  let s' := (pandoc_roundtrip w t rd s).2 in
  disk s' !! K = disk s !! K ∧ scratch s' = scratch s.
Proof.
  intros H1 H2 H3 H4. split.
  - by apply (pandoc_roundtrip_elsewhere w K t rd).
  - apply (pandoc_roundtrip_scratch w t rd).
Qed.

Lemma fallback_touches_four_files_witness :
  let rd := mkPath "/home/u/" "report.repaired.docx" in
  let s := Sample.unpacked Sample.plain in
  let s' := (pandoc_roundtrip (Sample.world false true)
               "/tmp/docx_repair_k3x9" rd s).2 in
  disk s' !! "/home/u/report.docx" = disk s !! "/home/u/report.docx"
  ∧ scratch s' = scratch s.
Proof.
  apply (fallback_touches_four_files_only (Sample.world false true)
           "/tmp/docx_repair_k3x9"
           (mkPath "/home/u/" "report.repaired.docx")
           (Sample.unpacked Sample.plain) "/home/u/report.docx");
    vm_compute; discriminate.
Defined.

Lemma default_output_names input rd :
  with_name input (stem input +:+ ".repaired.docx") = inr rd ->
  str rd ≠ str input ∧ pandoc_temp rd ≠ str input
  ∧ pandoc_md rd ≠ str input ∧ pandoc_rebuilt rd ≠ str input.
Proof.
  intros Hrd. pose proof (with_name_str _ _ _ Hrd) as Hs.
  change (stem input +:+ ".repaired.docx")
    with (stem input +:+ (".repaired" +:+ ".docx")) in Hrd.
  rewrite <- append_assoc in Hrd.
  apply stem_with_name in Hrd as [Hst Hdir];
    [|by destruct (stem input)|done|simpl; lia].
  unfold pandoc_temp, pandoc_md, pandoc_rebuilt.
  rewrite Hst, Hdir, !append_assoc.
  repeat split;
    (eapply sibling_not_self; [|first [exact Hs | reflexivity]]);
    simpl; lia.
Qed.

Lemma report_not_input input rf :
  with_suffix input ".repair_report.json" = inr rf -> str rf ≠ str input.
Proof.
  intros H%with_suffix_str. eapply sibling_not_self; [|exact H]. simpl. lia.
Qed.

Ltac run_names :=
  fallback_names;
  repeat match goal with
         | H : with_suffix ?input ".repair_report.json" = inr _ |- _ =>
             apply report_not_input in H
         end.

Ltac input_leaf :=
  unfold keeps; norm;
  first [ reflexivity
        | run_names;
          first [ rewrite lookup_insert_ne by congruence
                | rewrite lookup_delete_ne by congruence ];
          reflexivity ].

(** X4.  With the default output path, an input file that exists has the
    same content at the end of the run as at the start, whatever the
    stages do and wherever the run stops: the backup, the repaired
    package, the files of the fallback and the report all have names that
    differ from the name of the input. *)
Theorem default_output_leaves_the_input_untouched w d input dat :
  d !! str input = Some dat ->
  disk (run w d input None) !! str input = Some dat.
Proof.
  intros Hin. pattern (run w d input None).
  apply (run_after_backup w (keeps (λ s, disk s !! str input))
           (λ _ s1, disk s1 !! str input = Some dat)); cbv beta.
  - preserves_with keeps_leaf.
  - intros. preserves_with keeps_leaf.
  - intros. preserves_with keeps_leaf.
  - preserves_with keeps_leaf.
  - intros. preserves_with keeps_leaf.
  - intros t rd Hrd _. simpl in Hrd.
    destruct (default_output_names _ _ Hrd) as (H1 & _).
    frame_with input_leaf.
  - intros t rd Hrd _. simpl in Hrd.
    destruct (default_output_names _ _ Hrd) as (H1 & H2 & H3 & H4).
    frame_with input_leaf.
  - intros. preserves_with keeps_leaf.
  - intros Hn. congruence.
  - intros dat' Hin'. assert (dat' = dat) as -> by congruence.
    apply (backup_file_outcome w _ _ dat); [done| |].
    + intros e s' Hd _ _ _ _ _. repeat run_prim. by rewrite Hd.
    + intros bak s' _ _ _ Hd _ _ _ _ _. rewrite Hd.
      by apply lookup_insert_same_value.
  - intros bak s1 s HB HR. unfold keeps in HR. by rewrite HR.
Qed.

Lemma default_output_leaves_the_input_witness :
  disk (run (Sample.world false true) (Sample.on_disk Sample.plain)
          Sample.input None) !! str Sample.input
  = Some Sample.plain.
Proof.
  apply (default_output_leaves_the_input_untouched (Sample.world false true)
           (Sample.on_disk Sample.plain) Sample.input Sample.plain).
  vm_compute. reflexivity.
Defined.

(** ** The backup and the other files of a run *)

Lemma dotless_split a b u v :
  dots a = 0 -> dots b = 0 ->
  a +:+ String "." u = b +:+ String "." v -> a = b ∧ u = v.
Proof.
  revert b. induction a as [|x a IH]; intros [|y b];
    rewrite ?append_nil_l, ?append_cons; simpl.
  - by intros _ _ [= ->].
  - intros _ Hb [= <- _]. done.
  - intros Ha _ [= -> _]. done.
  - intros Ha Hb [= -> H].
    destruct (Ascii.eqb y "."); [done|]. simpl in *.
    destruct (IH b Ha Hb H) as [-> ->]. done.
Qed.

Lemma suffix_shape p :
  suffix p = "" ∨ ∃ r, suffix p = String "." r ∧ dots r = 0.
Proof.
  unfold suffix, split_suffix.
  destruct (rfind_dot (name p)) as [i|] eqn:E; simpl; [|by left].
  destruct (_ && _); simpl; [|by left]. right.
  pose proof (rfind_dot_drop _ _ E) as Hd.
  clear -E Hd. revert i E Hd. induction (name p) as [|c s IH]; intros i; [done|].
  simpl. destruct (rfind_dot s) as [j|] eqn:Ej.
  - intros [= <-]. simpl. by apply IH.
  - destruct (Ascii.eqb c ".") eqn:Ec; [|done]. intros [= <-]. simpl.
    rewrite Ec. intros Hd. apply Ascii.eqb_eq in Ec as ->.
    exists s. split; [done|]. lia.
Qed.

(** The backup of [p] is not a file named after the stem of [p] with an
    ending [.x1.rest] that is not a backup's. *)
Lemma backup_not_sibling p ts x1 rest (k : string) :
  dots x1 = 0 ->
  (∀ u v, String "b" u ≠ x1 +:+ v) ->
  (∀ u, String "b" u ≠ rest) ->
  k = dirpart p +:+ (stem p +:+ String "." (x1 +:+ String "." rest)) ->
  k ≠ str p +:+ ".backup." +:+ ts.
Proof.
  intros Hx H1 H2 ->. unfold str.
  rewrite <- (stem_suffix p), !append_assoc.
  intros H%append_inj_l%append_inj_l.
  destruct (suffix_shape p) as [E|(r & E & Hr)]; rewrite E in H.
  - rewrite append_nil_l in H. injection H as H. symmetry in H.
    rewrite append_cons in H. by apply H1 in H.
  - rewrite append_cons in H. injection H as H.
    change (".backup." +:+ ts) with (String "." ("backup." +:+ ts)) in H.
    apply dotless_split in H as [_ H]; [|done..].
    rewrite append_cons in H. symmetry in H. by apply H2 in H.
Qed.

Lemma default_output_names_backup input rd ts :
  with_name input (stem input +:+ ".repaired.docx") = inr rd ->
  let b := str input +:+ ".backup." +:+ ts in
  str rd ≠ b ∧ pandoc_temp rd ≠ b ∧ pandoc_md rd ≠ b ∧ pandoc_rebuilt rd ≠ b.
Proof.
  intros Hrd. pose proof (with_name_str _ _ _ Hrd) as Hs.
  change (stem input +:+ ".repaired.docx")
    with (stem input +:+ (".repaired" +:+ ".docx")) in Hrd.
  rewrite <- append_assoc in Hrd.
  apply stem_with_name in Hrd as [Hst Hdir];
    [|by destruct (stem input)|done|simpl; lia].
  unfold pandoc_temp, pandoc_md, pandoc_rebuilt. cbv zeta.
  rewrite Hst, Hdir, !append_assoc.
  repeat split;
    (eapply (backup_not_sibling input ts "repaired"); [done | | |];
     [ | | first [exact Hs | reflexivity]];
     [intros ? ?; rewrite append_cons; discriminate | intros ?; discriminate]).
Qed.

Lemma report_not_backup input rf ts :
  with_suffix input ".repair_report.json" = inr rf ->
  str rf ≠ str input +:+ ".backup." +:+ ts.
Proof.
  intros H%with_suffix_str.
  eapply (backup_not_sibling input ts "repair_report"); [done | | |];
    [ | | exact H];
    [intros ? ?; rewrite append_cons; discriminate | intros ?; discriminate].
Qed.

Ltac backup_names ts :=
  fallback_names;
  repeat match goal with
         | H : with_suffix ?input ".repair_report.json" = inr _ |- _ =>
             apply (report_not_backup _ _ ts) in H
         end.

Ltac backup_leaf ts K :=
  split; [|reflexivity];
  unfold keeps; norm;
  first [ reflexivity
        | backup_names ts; unfold K in *;
          first [ rewrite lookup_insert_ne by congruence
                | rewrite lookup_delete_ne by congruence ];
          reflexivity ].

(** X5.  With the default output path, the backup that the report names is
    on disk at the end of the run and holds what the input held at the
    start, whatever the later stages do and wherever the run stops. *)
Theorem default_output_keeps_the_backup w d input :
  let s := run w d input None in
  ∀ b, backup_path (report s) = Some b ->
       ∃ dat, d !! str input = Some dat ∧ disk s !! b = Some dat.
Proof.
  cbv zeta. pattern (run w d input None).
  set (ts := utcnow_compact w 1).
  set (K := str input +:+ ".backup." +:+ ts).
  apply (run_after_backup w
           (both (keeps (λ s, disk s !! K))
                 (keeps (λ s, backup_path (report s))))
           (λ _ s1, ∃ dat, d !! str input = Some dat
                           ∧ disk s1 !! K = Some dat
                           ∧ backup_path (report s1) = Some K)); cbv beta.
  - preserves_with ltac:(backup_leaf ts K).
  - intros. preserves_with ltac:(backup_leaf ts K).
  - intros. preserves_with ltac:(backup_leaf ts K).
  - preserves_with ltac:(backup_leaf ts K).
  - intros. preserves_with ltac:(backup_leaf ts K).
  - intros t rd Hrd _. simpl in Hrd.
    destruct (default_output_names_backup _ _ ts Hrd) as (H1 & _).
    fold K in H1. frame_with ltac:(backup_leaf ts K).
  - intros t rd Hrd _. simpl in Hrd.
    destruct (default_output_names_backup _ _ ts Hrd) as (H1 & H2 & H3 & H4).
    fold K in H1, H2, H3, H4. frame_with ltac:(backup_leaf ts K).
  - intros. preserves_with ltac:(backup_leaf ts K).
  - intros _. repeat run_prim. done.
  - intros dat Hin. apply (backup_file_outcome w _ _ dat); [done| |].
    + intros e s' _ _ Hb _ _ _. repeat run_prim. by rewrite Hb.
    + intros bak s' _ Hb _ Hd _ Hbp _ _ _. exists dat.
      change (str bak = K) in Hb. rewrite Hd, Hbp, Hb.
      split; [done|]. split; [apply lookup_insert_eq|done].
  - intros bak s1 s (dat & Hin & Hd & Hbp) [HK1 HK2]. unfold keeps in *.
    intros b Hb. rewrite HK2, Hbp in Hb. injection Hb as <-.
    exists dat. by rewrite HK1.
Qed.

Lemma default_output_keeps_the_backup_witness :
  ∃ dat, Sample.on_disk Sample.plain !! str Sample.input = Some dat
         ∧ disk (run (Sample.world false true) (Sample.on_disk Sample.plain)
                   Sample.input None)
             !! "/home/u/report.docx.backup.20240501100000" = Some dat.
Proof.
  apply (default_output_keeps_the_backup (Sample.world false true)
           (Sample.on_disk Sample.plain) Sample.input
           "/home/u/report.docx.backup.20240501100000").
  vm_compute. reflexivity.
Defined.

(** ** A missing input *)

(** X6.  A run on an input path that does not exist does nothing but
    report it: the disk is unchanged, no scratch directory is made, no
    stage is called, and the report holds the one error
    [Input file not found: <path>], no action, the input path, and neither
    [backup_path] nor [final_docx] nor [final_docx_ok]. *)
Theorem missing_input_is_reported_and_nothing_else w d input out :
  d !! str input = None ->
  let s := run w d input out in
  disk s = d ∧ scratch s = None ∧ trace s = []
  ∧ map msg (errors (report s)) = ["Input file not found: " +:+ str input]
  ∧ actions (report s) = []
  ∧ input_path (report s) = str input
  ∧ backup_path (report s) = None
  ∧ final_docx (report s) = None ∧ flag s = None.
Proof.
  intros Hin. cbv zeta. pattern (run w d input out). apply run_outcome.
  cbv beta. rewrite repair_docx_phases.
  unfold RepairReport_init, now_ts, disk_exists. repeat run_prim.
  rewrite Hin, bool_decide_false by (by intros [? ?]). norm.
  repeat run_prim. done.
Qed.

Lemma missing_input_witness :
  let s := run (Sample.world true true) ∅ Sample.input None in
  disk s = ∅ ∧ scratch s = None ∧ trace s = []
  ∧ map msg (errors (report s))
    = ["Input file not found: " +:+ str Sample.input]
  ∧ actions (report s) = []
  ∧ input_path (report s) = str Sample.input
  ∧ backup_path (report s) = None
  ∧ final_docx (report s) = None ∧ flag s = None.
Proof.
  apply (missing_input_is_reported_and_nothing_else (Sample.world true true)
           ∅ Sample.input None).
  vm_compute. reflexivity.
Defined.

(** ** Archives and trees *)

(** A path in normal form is not empty and is not the marker of a
    directory. *)
Lemma ends_with_sep_inv k :
  ends_with_sep k = true -> ∃ a, k = a +:+ "/" +:+ "".
Proof.
  induction k as [|c r IH]; [done|]. cbn [ends_with_sep].
  destruct r as [|c' r'].
  - intros H. apply Ascii.eqb_eq in H as ->. by exists "".
  - intros H. destruct (IH H) as [a Ha]. exists (String c a).
    change (String c a +:+ "/" +:+ "") with (String c (a +:+ "/" +:+ "")).
    by rewrite <- Ha.
Qed.

Lemma tidy_not_marker k :
  tidy k = true -> String.eqb k "" = false ∧ ends_with_sep k = false.
Proof.
  intros Ht. split.
  - by destruct (tidy_head k Ht) as (c & r & -> & _).
  - destruct (ends_with_sep k) eqn:He; [|done].
    destruct (ends_with_sep_inv k He) as [a ->].
    rewrite tidy_app in Ht. by rewrite andb_comm in Ht.
Qed.

Lemma is_file_weaken (acc t : gmap string string) h :
  acc ⊆ t -> is_file acc h = true -> is_file t h = true.
Proof.
  unfold is_file. intros Hs H%bool_decide_eq_true.
  apply bool_decide_eq_true. by eapply lookup_weaken_is_Some.
Qed.

Lemma is_dir_weaken (acc t : gmap string string) h :
  acc ⊆ t -> is_dir acc h = true -> is_dir t h = true.
Proof.
  unfold is_dir. intros Hs H%bool_decide_eq_true.
  apply bool_decide_eq_true.
  destruct H as (i & x & Hi & HP). exists i, x.
  split; [by eapply lookup_weaken|done].
Qed.

Lemma is_dir_above (t : gmap string string) h k v :
  t !! k = Some v -> String.prefix (h +:+ "/") k = true ->
  is_dir t h = true.
Proof.
  intros Hk Hp. unfold is_dir. apply bool_decide_eq_true. by exists k, v.
Qed.

(** The directory that stops the extraction of a member is a file, and
    the member lies below it. *)
Lemma blocked_file (t : gmap string string) parts : ∀ at_ p,
  Forall (λ x, x ≠ "") parts ->
  blocked t at_ parts = Some p ->
  ∃ here, is_file t here = true
    ∧ String.prefix (here +:+ "/")
        (if String.eqb at_ "" then join_path parts
         else at_ +:+ "/" +:+ join_path parts) = true.
Proof.
  induction parts as [|x rest IH]; intros at_ p Hv Hb; [done|].
  destruct rest as [|y rest]; [done|].
  cbn [blocked] in Hb.
  set (here := if String.eqb at_ "" then x else at_ +:+ "/" +:+ x) in *.
  assert (Hfull :
    (if String.eqb at_ "" then join_path (x :: y :: rest)
     else at_ +:+ "/" +:+ join_path (x :: y :: rest))
    = here +:+ "/" +:+ join_path (y :: rest)).
  { rewrite join_path_cons. unfold here.
    destruct (String.eqb at_ ""); [done|].
    rewrite !append_assoc. f_equal. }
  rewrite Hfull.
  assert (Hne : String.eqb here "" = false).
  { unfold here. destruct at_ as [|a r]; [|done].
    apply String.eqb_neq. by inversion Hv. }
  destruct (is_file t here) eqn:Hf.
  - exists here. split; [done|]. rewrite <- append_assoc. apply prefix_app.
  - apply IH in Hb as (h & Hh & Hp); [|by inversion Hv].
    exists h. split; [done|]. by rewrite Hne in Hp.
Qed.

Section Plain.
Variable w : World.
Variable tmpdir : string.
Variable t : gmap string string.
Hypothesis plain :
  map_Forall (λ k _, tidy k = true ∧ is_dir t k = false) t.

(** A file of a tree whose files are in normal form, none of them a
    directory as well, is extracted to its own path wherever a part of
    that tree has been extracted. *)
Lemma extract_member_plain acc k v :
  t !! k = Some v -> acc ⊆ t ->
  extract_member w tmpdir acc (k, v) = inr (<[k := v]> acc).
Proof.
  intros Hk Hs. destruct (plain k v Hk) as [Ht Hd].
  destruct (tidy_not_marker k Ht) as [Hne Hm].
  unfold extract_member. cbn [fst snd].
  rewrite (forallb_filter_id valid_part (split_path k) Ht), join_split.
  destruct (blocked acc "" (split_path k)) as [p|] eqn:Hb.
  - apply blocked_file in Hb as (h & Hh & Hp).
    + change (String.eqb "" "") with true in Hp. cbv iota in Hp.
      rewrite join_split in Hp.
      apply (is_file_weaken _ _ _ Hs) in Hh.
      apply bool_decide_eq_true in Hh as [x Hx].
      destruct (plain h x Hx) as [_ Hdh].
      by rewrite (is_dir_above t h k v Hk Hp) in Hdh.
    + apply Forall_forall. intros x Hx.
      unfold tidy in Ht. rewrite forallb_forall in Ht.
      apply list_elem_of_In in Hx.
      by destruct (valid_part_spec x (Ht x Hx)).
  - rewrite Hne, Hm. cbn [orb].
    destruct (is_dir acc k) eqn:Hda; [|done].
    by rewrite (is_dir_weaken _ _ _ Hs Hda) in Hd.
Qed.

Lemma extract_entries_plain l : ∀ acc,
  (∀ k v, (k, v) ∈ l -> t !! k = Some v) ->
  NoDup l.*1 ->
  acc ⊆ t ->
  extract_entries w tmpdir l acc = (list_to_map l ∪ acc, None).
Proof.
  induction l as [|[k v] l IH]; intros acc Hl Hnd Hs.
  - simpl. by rewrite (left_id_L ∅ (∪)).
  - rewrite fmap_cons in Hnd. apply NoDup_cons in Hnd as [Hk Hnd].
    cbn [extract_entries].
    rewrite extract_member_plain; [|apply Hl; left|done].
    rewrite IH; [|intros; apply Hl; by right|done|].
    + f_equal. simpl. rewrite <- insert_union_l. symmetry.
      apply insert_union_r. by apply not_elem_of_list_to_map_1.
    + apply insert_subseteq_l; [apply Hl; left|done].
Qed.

End Plain.

(** The files with plain names are stored under their own paths. *)
Lemma zip_members_plain l :
  Forall (λ kv : string * string,
            tidy kv.1 = true ∧ backslash_free kv.1 = true) l ->
  zip_members l = (l, None).
Proof.
  induction 1 as [|[k v] l [Ht Hb] _ IH]; [done|].
  cbn [zip_members fst snd] in *.
  destruct (tidy_not_marker k Ht) as [_ ->].
  by rewrite (arcname_tidy k Ht Hb), IH.
Qed.

Section Returns.
Variable w : World.

Lemma rezip_from_temp_returns t p s es :
  os_error w (SZipWrite (str p)) = None ->
  zip_members (map_to_list (files s)) = (es, None) ->
  ∃ s', rezip_from_temp w t p s = (Ok tt, s')
        ∧ disk s' = <[str p := ZipArchive es]> (disk s)
        ∧ scratch s' = scratch s.
Proof.
  intros Hz Hm. unfold files in Hm.
  unfold rezip_from_temp, mbind, M_bind, emit, os_check, modify, get,
    add_action.
  simpl. rewrite Hz. simpl. unfold files. simpl. rewrite Hm. simpl.
  eexists. split; [reflexivity|]. done.
Qed.

Lemma unzip_to_temp_returns p s es tr :
  disk s !! str p = Some (ZipArchive es) ->
  os_error w SMkdtemp = None ->
  os_error w (SExtractAll (str p)) = None ->
  extract_entries w (mkdtemp w) es ∅ = (tr, None) ->
  ∃ s', unzip_to_temp w p s = (Ok (mkdtemp w), s')
        ∧ files s' = tr ∧ disk s' = disk s.
Proof.
  intros Hin Hm He Hex.
  unfold unzip_to_temp, mkdtemp_call, extractall, mbind, M_bind,
    try_except, emit, os_check, modify, get, add_action.
  simpl. rewrite Hm. simpl. rewrite Hin. simpl. rewrite He. simpl.
  unfold files. simpl. rewrite Hex. simpl.
  eexists. split; [reflexivity|]. done.
Qed.

End Returns.





(** ** The XML parts *)

(** X9.  [safe_parse_xml] never raises and writes nothing: the disk, the
    scratch directory and the actions of the report are unchanged.  When
    the part parses it returns [True] with the serialisation of the tree
    and logs nothing; otherwise it returns [False] with a message and logs
    exactly one error, [lxml not installed; cannot parse XML safely.] when
    lxml is missing and [XML parse error for <path>: <message>] when the
    parser raised. *)
Theorem safe_parse_xml_never_raises w t rel s :
  let r := safe_parse_xml w t rel s in
  disk r.2 = disk s ∧ scratch r.2 = scratch s
  ∧ actions (report r.2) = actions (report s)
  ∧ if parses w (files s !! rel)
    then ∃ c tree, files s !! rel = Some c ∧ etree_parse w c = inr tree
                   ∧ r.1 = Ok (true, etree_tostring w tree)
                   ∧ errors (report r.2) = errors (report s)
    else ∃ e x, r.1 = Ok (false, e)
                ∧ errors (report r.2) = errors (report s) ++ [x]
                ∧ msg x = (if etree_imported w
                           then "XML parse error for " +:+ t +:+ "/" +:+ rel
                                +:+ ": " +:+ e
                           else "lxml not installed; cannot parse XML safely.").
Proof.
  cbv zeta. unfold safe_parse_xml, parse_and_print, parses, files,
    mbind, M_bind, try_except, emit, get, lift, add_error, utcnow_iso.
  destruct (etree_imported w); simpl.
  - destruct (default ∅ (scratch s) !! rel) as [c|]; simpl.
    + destruct (etree_parse w c) as [e|tree] eqn:Hp; simpl.
      * do 3 (split; [done|]). by eexists _, _.
      * do 3 (split; [done|]). by eexists _, _.
    + do 3 (split; [done|]). by eexists _, _.
  - do 3 (split; [done|]). by eexists _, _.
Qed.

(** ** The core properties *)

Lemma find_descendant_insert_first_same tg el root :
  String.eqb (el_tag el) tg = true ->
  find_descendant tg (insert_first el root) = Some el.
Proof. intros H. destruct root. simpl. by rewrite H. Qed.

(** X10.  When [docProps/core.xml] is there and does not parse, and the
    write is not refused, [fix_core_properties] overwrites it with the
    minimal template, whose creation and modification times are the two
    clock readings taken while the template is built; nothing else in the
    scratch directory and nothing on disk changes, and the error of the
    failed parse is the one error logged. *)
Theorem unparsable_core_is_replaced_by_the_template w t s c :
  files s !! core_xml = Some c ->
  parses w (Some c) = false ->
  is_dir (files s) core_xml = false ->
  os_error w (SWriteText core_xml) = None ->
  let r := fix_core_properties w t s in
  r.1 = Ok tt
  ∧ files r.2 =
      <[core_xml := minimal_core (utcnow_isoformat w (S (S (ticks s))))
                      (utcnow_isoformat w (S (S (S (ticks s)))))]> (files s)
  ∧ disk r.2 = disk s
  ∧ ∃ x, errors (report r.2) = errors (report s) ++ [x].
Proof.
  intros Hc Hp Hd Hos. cbv zeta.
  change (outcome (fix_core_properties w t) s
            (λ r s', r = Ok tt
               ∧ files s' =
                   <[core_xml := minimal_core
                                   (utcnow_isoformat w (S (S (ticks s))))
                                   (utcnow_isoformat w (S (S (S (ticks s)))))]>
                     (files s)
               ∧ disk s' = disk s
               ∧ ∃ x, errors (report s') = errors (report s) ++ [x])).
  unfold parses in Hp.
  unfold fix_core_properties, path_exists, safe_parse_xml, parse_and_print,
    write_text_file, is_file.
  repeat run_prim. unfold files in *.
  rewrite Hc, bool_decide_true by eauto. norm.
  destruct (etree_imported w); norm; repeat run_prim.
  - rewrite Hc. norm. repeat run_prim.
    destruct (etree_parse w c) as [e|tree]; [|done]. norm.
    repeat run_prim. rewrite Hos. norm. repeat run_prim. rewrite Hd. norm.
    repeat run_prim. eauto.
  - rewrite Hos. norm. repeat run_prim. rewrite Hd. norm.
    repeat run_prim. eauto.
Qed.

Lemma unparsable_core_witness :
  let w := Sample.world true true in
  let s := Sample.unpacked
             (ZipArchive [("docProps/core.xml", "not xml at all")]) in
  files (fix_core_properties w "/tmp/docx_repair_k3x9" s).2
  = <[core_xml := minimal_core "2024-05-01T10:00:02" "2024-05-01T10:00:03"]>
      (files s).
Proof.
  apply (proj1 (proj2
    (unparsable_core_is_replaced_by_the_template (Sample.world true true)
       "/tmp/docx_repair_k3x9"
       (Sample.unpacked (ZipArchive [("docProps/core.xml", "not xml at all")]))
       "not xml at all" eq_refl eq_refl eq_refl eq_refl))).
Defined.

(** X11.  When [docProps/core.xml] parses, its serialisation is read back
    and the write is not refused, [fix_core_properties] rewrites the part
    as the serialisation of the tree with a default title inserted in front
    if the title was absent or blank, and a default creator inserted in
    front of that if the creator was absent.  On the tree written the tests
    of the script for a missing title and a missing creator both fail, and
    no error is logged. *)
Theorem parsed_core_gets_a_title_and_a_creator w t s c tree root :
  etree_imported w = true ->
  os_error w (SWriteText core_xml) = None ->
  files s !! core_xml = Some c ->
  is_dir (files s) core_xml = false ->
  etree_parse w c = inr tree ->
  etree_fromstring w (etree_tostring w tree) = inr root ->
  let r := fix_core_properties w t s in
  let root1 := if title_missing root
               then insert_first (new_element dc_title "Repaired Document")
                                 root
               else root in
  let root2 := if creator_missing root
               then insert_first (new_element dc_creator "AutoRepair") root1
               else root1 in
  r.1 = Ok tt
  ∧ files r.2 = <[core_xml := etree_tostring w root2]> (files s)
  ∧ title_missing root2 = false
  ∧ creator_missing root2 = false
  ∧ errors (report r.2) = errors (report s).
Proof.
  intros Hi Hos Hc Hd Hp Hf. cbv zeta.
  match goal with
  | |- _ ∧ files _ = ?F ∧ ?T ∧ ?C ∧ _ =>
      change (outcome (fix_core_properties w t) s
                (λ r s', r = Ok tt ∧ files s' = F ∧ T ∧ C
                         ∧ errors (report s') = errors (report s)))
  end.
  assert (HT : ∀ r1 r2,
            r1 = (if title_missing root
                  then insert_first (new_element dc_title "Repaired Document")
                         root
                  else root) ->
            r2 = (if creator_missing root
                  then insert_first (new_element dc_creator "AutoRepair") r1
                  else r1) ->
            title_missing r2 = false ∧ creator_missing r2 = false).
  { intros r1 r2 -> ->.
    destruct (creator_missing root) eqn:Ec, (title_missing root) eqn:Et;
      unfold title_missing, creator_missing in *;
      rewrite ?find_descendant_insert_first by done;
      rewrite ?(find_descendant_insert_first_same dc_creator) by done;
      rewrite ?(find_descendant_insert_first_same dc_title) by done;
      rewrite ?find_descendant_insert_first by done;
      rewrite ?(find_descendant_insert_first_same dc_title) by done;
      try done.
    all: by destruct (find_descendant dc_creator root). }
  destruct (HT _ _ eq_refl eq_refl) as [HT1 HT2]. clear HT.
  unfold fix_core_properties, path_exists, safe_parse_xml, parse_and_print,
    write_text_file, is_file.
  repeat run_prim. unfold files in *.
  rewrite Hc, Hi, bool_decide_true by eauto. norm.
  repeat run_prim. rewrite Hc. norm. repeat run_prim. rewrite Hp. norm.
  repeat run_prim. rewrite Hf. norm. repeat run_prim.
  destruct (title_missing root), (creator_missing root); norm;
    repeat run_prim; rewrite Hos; norm; repeat run_prim; rewrite Hd; norm;
    repeat run_prim; done.
Qed.

Lemma parsed_core_witness :
  let w := Sample.world true true in
  let s := Sample.unpacked
             (ZipArchive [("docProps/core.xml",
                           Sample.serialize Sample.body)]) in
  files (fix_core_properties w "/tmp/docx_repair_k3x9" s).2
  = <[core_xml :=
        Sample.serialize
          (Element "document" [] None
             [new_element dc_creator "AutoRepair";
              new_element dc_title "Repaired Document";
              Element "body" [] (Some "hello") [] None] None)]> (files s).
Proof.
  apply (proj1 (proj2
    (parsed_core_gets_a_title_and_a_creator (Sample.world true true)
       "/tmp/docx_repair_k3x9"
       (Sample.unpacked
          (ZipArchive [("docProps/core.xml", Sample.serialize Sample.body)]))
       (Sample.serialize Sample.body) Sample.body Sample.body
       eq_refl eq_refl eq_refl eq_refl eq_refl eq_refl))).
Defined.

Section CoreFrame.

Variable w : World.

Lemma fix_core_properties_other t rel :
  rel ≠ core_xml ->
  preserves (keeps (λ s, files s !! rel)) (fix_core_properties w t).
Proof.
  intros Hne.
  preserves_with ltac:(unfold keeps; norm;
                       first [reflexivity | by rewrite lookup_insert_ne]).
Qed.

Lemma fix_core_properties_disk t :
  preserves (keeps disk) (fix_core_properties w t).
Proof. preserves_with keeps_leaf. Qed.

Lemma fix_core_properties_parsed_returns t s :
  parses w (files s !! core_xml) = true ->
  (fix_core_properties w t s).1 = Ok tt.
Proof.
  unfold parses. intros Hp.
  destruct (etree_imported w) eqn:Hi; [|done]. simpl in Hp.
  destruct (files s !! core_xml) as [c|] eqn:Hc; [|done].
  destruct (etree_parse w c) as [e|tree] eqn:He; [done|].
  change (outcome (fix_core_properties w t) s (λ r _, r = Ok tt)).
  unfold fix_core_properties, path_exists, safe_parse_xml, parse_and_print,
    is_file.
  repeat run_prim. unfold files in *.
  rewrite Hc, Hi, bool_decide_true by eauto. norm.
  repeat run_prim. rewrite Hc. norm. repeat run_prim. rewrite He. norm.
  unfold write_text_file.
  repeat (first [run_prim | run_case]); done.
Qed.

End CoreFrame.

(** X12.  [fix_core_properties] changes no file of the scratch directory
    other than [docProps/core.xml] and nothing on disk, whatever the part
    holds.  It can raise only when the part did not parse: the write of
    the minimal template is outside every [try], the rewrite of a parsed
    part is inside one. *)
Theorem metadata_repair_touches_core_xml_only w t s :
  let r := fix_core_properties w t s in
  (∀ rel, rel ≠ core_xml -> files r.2 !! rel = files s !! rel)
  ∧ disk r.2 = disk s
  ∧ (∀ e, r.1 = Raise e -> parses w (files s !! core_xml) = false).
Proof.
  cbv zeta. split; [|split].
  - intros rel Hne. by apply (fix_core_properties_other w t rel).
  - apply (fix_core_properties_disk w t).
  - intros e He. destruct (parses w (files s !! core_xml)) eqn:Hp; [|done].
    rewrite (fix_core_properties_parsed_returns w t s Hp) in He. done.
Qed.

(** ** The custom XML *)

Lemma is_dir_false (t : gmap string string) rel k v :
  is_dir t rel = false -> t !! k = Some v ->
  String.prefix (rel +:+ "/") k = false.
Proof.
  unfold is_dir. intros Hd%bool_decide_eq_false Hk.
  apply not_true_is_false. intros Hp. apply Hd, map_Exists_lookup. eauto.
Qed.

Section Rename.

Variable t : gmap string string.
Hypothesis dst_not_file : t !! "customXml.removed" = None.
Hypothesis dst_not_dir : is_dir t "customXml.removed" = false.

Local Abbreviation rk := (rename_key "customXml" "customXml.removed").

(** The keys that the move makes are new, the others are kept. *)
Lemma rename_key_cases k v :
  t !! k = Some v ->
  (k = "customXml" ∧ rk k = "customXml.removed")
  ∨ (∃ x, k = "customXml/" +:+ x ∧ rk k = "customXml.removed/" +:+ x)
  ∨ (k ≠ "customXml" ∧ String.prefix "customXml/" k = false ∧ rk k = k
     ∧ k ≠ "customXml.removed"
     ∧ String.prefix "customXml.removed/" k = false).
Proof.
  intros Hk. unfold rename_key.
  destruct (String.eqb k "customXml") eqn:E1.
  { apply String.eqb_eq in E1. by left. }
  apply String.eqb_neq in E1. right.
  change ("customXml" +:+ "/") with "customXml/".
  destruct (String.prefix "customXml/" k) eqn:E2.
  - left. apply prefix_split in E2. exists (drop_string 10 k).
    split; [exact E2|]. rewrite E2 at 1.
    change ("customXml/" +:+ drop_string (String.length "customXml/") k)
      with ("customXml" +:+ ("/" +:+ drop_string 10 k)).
    rewrite drop_string_app. reflexivity.
  - right. repeat split; try done.
    + intros ->. congruence.
    + exact (is_dir_false _ _ _ _ dst_not_dir Hk).
Qed.

Lemma rename_key_inj k1 v1 k2 v2 :
  t !! k1 = Some v1 -> t !! k2 = Some v2 -> rk k1 = rk k2 -> k1 = k2.
Proof.
  intros H1 H2 He.
  destruct (rename_key_cases _ _ H1)
    as [[-> E1]|[(x1 & -> & E1)|(N1 & P1 & E1 & D1 & Q1)]];
  destruct (rename_key_cases _ _ H2)
    as [[-> E2]|[(x2 & -> & E2)|(N2 & P2 & E2 & D2 & Q2)]];
  rewrite ?E1, ?E2 in He; try done.
  all: try congruence.
  all: try (apply (f_equal String.length) in He; rewrite ?length_app in He;
            simpl in He; lia).
  all: try (apply String.app_inj in He; by subst).
  all: try (subst; match goal with
                   | H : String.prefix _ (_ +:+ _) = false |- _ =>
                       by rewrite prefix_app in H
                   end).
Qed.

Lemma rename_tree_lookup_Some k' v :
  rename_tree "customXml" "customXml.removed" t !! k' = Some v
  <-> ∃ k, t !! k = Some v ∧ rk k = k'.
Proof.
  unfold rename_tree.
  rewrite (delete_id t "customXml.removed" dst_not_file).
  rewrite <- elem_of_list_to_map.
  - rewrite list_elem_of_In, in_map_iff. split.
    + intros ([k v0] & [= <- <-] & Hin).
      apply list_elem_of_In, elem_of_map_to_list in Hin. eauto.
    + intros (k & Hk & <-). exists (k, v). split; [done|].
      by apply list_elem_of_In, elem_of_map_to_list.
  - change (map (λ kv : string * string, (rk kv.1, kv.2)) (map_to_list t)).*1
      with (fmap fst (fmap (λ kv : string * string, (rk kv.1, kv.2))
                        (map_to_list t))).
    rewrite <- list_fmap_compose.
    apply NoDup_fmap_2_strong; [|apply NoDup_map_to_list].
    intros [k1 v1] [k2 v2] H1%elem_of_map_to_list H2%elem_of_map_to_list.
    simpl. intros He. pose proof (rename_key_inj _ _ _ _ H1 H2 He) as ->.
    congruence.
Qed.

End Rename.

Ltac length_clash H :=
  apply (f_equal String.length) in H; rewrite ?length_app in H;
  simpl in H; lia.

(** X13.  [remove_custom_xml] removes nothing: when [customXml] is a
    directory, [customXml.removed] does not exist and the move is not
    refused, every file [customXml/x] is afterward at
    [customXml.removed/x] with the same content, nothing is left under
    [customXml/], every other file of the scratch directory is as it was,
    and the disk is unchanged. *)
Theorem custom_xml_is_renamed_not_removed w tdir s :
  is_dir (files s) "customXml" = true ->
  files s !! "customXml.removed" = None ->
  is_dir (files s) "customXml.removed" = false ->
  os_error w (SMove "customXml" "customXml.removed") = None ->
  let r := remove_custom_xml w tdir s in
  r.1 = Ok tt
  ∧ (∀ x, files r.2 !! ("customXml.removed/" +:+ x)
          = files s !! ("customXml/" +:+ x))
  ∧ (∀ k, String.prefix "customXml/" k = true -> files r.2 !! k = None)
  ∧ (∀ k, k ≠ "customXml" -> String.prefix "customXml/" k = false ->
          k ≠ "customXml.removed" ->
          String.prefix "customXml.removed/" k = false ->
          files r.2 !! k = files s !! k)
  ∧ disk r.2 = disk s.
Proof.
  intros Hsrc Hf Hd Hos. cbv zeta.
  assert (E : outcome (remove_custom_xml w tdir) s
                (λ r s', r = Ok tt
                   ∧ files s'
                     = rename_tree "customXml" "customXml.removed" (files s)
                   ∧ disk s' = disk s)).
  { unfold remove_custom_xml, path_exists, shutil_move, is_file.
    repeat run_prim. unfold files in *. rewrite Hsrc, orb_true_r. norm.
    repeat run_prim. rewrite Hos. norm. repeat run_prim.
    rewrite Hd, Hsrc, Hf, bool_decide_false by (by intros [? ?]). norm.
    repeat run_prim. done. }
  destruct E as (E1 & E2 & E3). split; [done|]. rewrite E2.
  pose proof (rename_tree_lookup_Some (files s) Hf Hd) as HL.
  pose proof (rename_key_cases (files s) Hf Hd) as HC.
  split; [|split; [|split; [|done]]].
  - intros x. apply option_eq. intros v. rewrite HL. split.
    + intros (k & Hk & He).
      destruct (HC _ _ Hk) as [[-> E]|[(y & -> & E)|(_ & _ & E & _ & Q)]];
        rewrite E in He.
      * length_clash He.
      * by apply String.app_inj in He as ->.
      * subst k. by rewrite prefix_app in Q.
    + intros Hk. exists ("customXml/" +:+ x). split; [done|].
      destruct (HC _ _ Hk) as [[E _]|[(y & Ey & E)|(_ & Q & _)]].
      * length_clash E.
      * apply String.app_inj in Ey as <-. done.
      * by rewrite prefix_app in Q.
  - intros k' Hp. apply eq_None_not_Some. intros [v Hv].
    apply HL in Hv as (k & Hk & He).
    destruct (HC _ _ Hk) as [[-> E]|[(y & -> & E)|(_ & Q & E & _)]];
      rewrite E in He; subst k'.
    + done.
    + by cbv in Hp.
    + congruence.
  - intros k' N1 P1 N2 P2. apply option_eq. intros v. rewrite HL. split.
    + intros (k & Hk & He).
      destruct (HC _ _ Hk) as [[-> E]|[(y & -> & E)|(_ & _ & E & _)]];
        rewrite E in He; subst k'.
      * done.
      * by rewrite prefix_app in P2.
      * done.
    + intros Hk. exists k'. split; [done|].
      destruct (HC _ _ Hk) as [[E _]|[(y & -> & E)|(_ & _ & E & _)]].
      * done.
      * by rewrite prefix_app in P1.
      * done.
Qed.

Lemma custom_xml_witness :
  let w := Sample.world true true in
  let s := Sample.unpacked
             (ZipArchive [("word/document.xml", "<document/>");
                          ("customXml/item1.xml", "<item/>")]) in
  files (remove_custom_xml w "/tmp/docx_repair_k3x9" s).2
    !! "customXml.removed/item1.xml" = Some "<item/>"
  ∧ files (remove_custom_xml w "/tmp/docx_repair_k3x9" s).2
    !! "customXml/item1.xml" = None.
Proof.
  pose proof (custom_xml_is_renamed_not_removed (Sample.world true true)
                "/tmp/docx_repair_k3x9"
                (Sample.unpacked
                   (ZipArchive [("word/document.xml", "<document/>");
                                ("customXml/item1.xml", "<item/>")]))
                ltac:(vm_compute; reflexivity) ltac:(vm_compute; reflexivity)
                ltac:(vm_compute; reflexivity) eq_refl)
    as (_ & H1 & H2 & _).
  split.
  - exact (H1 "item1.xml").
  - exact (H2 "customXml/item1.xml" eq_refl).
Defined.

(** ** The fallback and the repaired package *)

Section Cleanup.

Variable w : World.

(** The [finally] clause of the fallback never raises; it removes the
    files it is given, unless the operating system refuses, and touches
    no other. *)
Lemma cleanup_outcome fs s (Q : result unit -> state -> Prop) :
  (∀ s',
     (∀ K, Forall (λ f, str f ≠ K) fs -> disk s' !! K = disk s !! K) ->
     (∀ K, disk s !! K = None -> disk s' !! K = None) ->
     Forall (λ f, os_error w (SUnlink (str f)) = None ->
                  disk s' !! str f = None) fs ->
     scratch s' = scratch s -> report s' = report s ->
     Q (Ok tt) s') ->
  outcome (cleanup w fs) s Q.
Proof.
  revert s Q. induction fs as [|f fs IH]; intros s Q HQ.
  - simpl. apply outcome_ret. apply HQ; auto.
  - cbn [cleanup]. unfold disk_exists, unlink. repeat run_prim.
    destruct (bool_decide (is_Some (disk s !! str f))) eqn:Hex; norm;
      repeat run_prim.
    + destruct (os_error w (SUnlink (str f))) as [e|] eqn:Hos; norm;
        repeat run_prim; apply IH; intros s' F1 F2 F3 F4 F5; apply HQ.
      * intros K HK. apply Forall_cons in HK as [_ HK]. by rewrite F1.
      * intros K HK. by apply F2.
      * constructor; [intros; congruence|exact F3].
      * done.
      * done.
      * intros K HK. apply Forall_cons in HK as [Hf HK]. rewrite F1 by done.
        norm. by rewrite lookup_delete_ne.
      * intros K HK. apply F2. norm.
        destruct (decide (str f = K)) as [->|Hne].
        -- apply lookup_delete_eq.
        -- by rewrite lookup_delete_ne.
      * constructor; [|exact F3]. intros _. apply F2. norm.
        apply lookup_delete_eq.
      * done.
      * done.
    + apply bool_decide_eq_false in Hex.
      apply IH; intros s' F1 F2 F3 F4 F5; apply HQ.
      * intros K HK. apply Forall_cons in HK as [_ HK]. by rewrite F1.
      * done.
      * constructor; [|exact F3]. intros _. apply F2.
        by apply eq_None_not_Some.
      * done.
      * done.
Qed.

End Cleanup.

Ltac fallback_go :=
  repeat first
    [ run_prim
    | run_case
    | lazymatch goal with
      | |- outcome (rezip_from_temp _ _ _) _ _ => unfold rezip_from_temp
      | |- outcome (convert _ _ _ _) _ _ => unfold convert
      | |- outcome (disk_exists _) _ _ => unfold disk_exists
      | |- outcome (copy2 _ _ _) _ _ => unfold copy2
      end ].

Lemma fallback_names_differ rd :
  str rd ≠ pandoc_temp rd ∧ str rd ≠ pandoc_md rd
  ∧ str rd ≠ pandoc_rebuilt rd
  ∧ pandoc_temp rd ≠ pandoc_rebuilt rd ∧ pandoc_md rd ≠ pandoc_rebuilt rd
  ∧ pandoc_temp rd ≠ pandoc_md rd.
Proof.
  unfold pandoc_temp, pandoc_md, pandoc_rebuilt.
  repeat split;
    try (apply not_eq_sym; eapply sibling_not_self; [|reflexivity];
         simpl; lia);
    intros H%append_inj_l%append_inj_l; discriminate.
Qed.

Lemma pandoc_roundtrip_output w t rd s :
  let r := pandoc_roundtrip w t rd s in
  match r.1 with
  | Ok true =>
      ∃ dat, disk r.2 !! pandoc_rebuilt rd = Some dat
             ∧ disk r.2 !! str rd = Some dat
  | _ => disk r.2 !! str rd = disk s !! str rd
  end.
Proof.
  cbv zeta.
  change (outcome (pandoc_roundtrip w t rd) s
            (λ r s', match r with
                     | Ok true =>
                         ∃ dat, disk s' !! pandoc_rebuilt rd = Some dat
                                ∧ disk s' !! str rd = Some dat
                     | _ => disk s' !! str rd = disk s !! str rd
                     end)).
  destruct (fallback_names_differ rd) as (N1 & N2 & N3 & N4 & N5 & N6).
  unfold pandoc_roundtrip, ensure_pandoc_available.
  fallback_go.
  all: fallback_names.
  all: try done.
  all: try (apply cleanup_outcome; intros s' F1 _ _ _ _;
            pose proof (F1 (str rd)
                          ltac:(repeat constructor; congruence)) as Hrd';
            pose proof (F1 (pandoc_rebuilt rd)
                          ltac:(repeat constructor; congruence)) as Hnew';
            clear F1; norm in *; repeat run_prim).
  all: repeat match goal with
              | H : str ?p = _ |- _ => rewrite H in *; clear H
              end.
  all: rewrite ?Hrd', ?Hnew'.
  all: try (eexists; split).
  all: repeat first [ rewrite lookup_insert_eq
                    | rewrite lookup_insert_ne by congruence
                    | rewrite lookup_delete_ne by congruence ].
  all: try done.
  all: repeat match goal with
              | H : context [<[_ := _]> _ !! _] |- _ =>
                  first [ rewrite lookup_insert_eq in H
                        | rewrite lookup_insert_ne in H by congruence ]
              end.
  all: congruence.
Qed.


Lemma append_nonempty (a b : string) : b ≠ "" -> String.eqb (a +:+ b) "" = false.
Proof.
  intros Hb. apply String.eqb_neq. intros H%(f_equal String.length).
  rewrite length_app in H. destruct b; [done|]. simpl in H. lia.
Qed.

Lemma with_name_named p n q :
  with_name p n = inr q -> name q = n.
Proof. unfold with_name. destruct (String.eqb _ _); [done|]. by intros [= <-]. Qed.



(** ** The report *)

#[global] Instance grows_preorder : PreOrder grows.
Proof.
  split.
  - intros s. by repeat split.
  - intros s1 s2 s3 (A1 & E1 & I1 & T1) (A2 & E2 & I2 & T2).
    repeat split; [by etrans | by etrans | congruence | congruence].
Qed.

Ltac grows_leaf :=
  unfold grows; norm;
  repeat split; first [done | by apply prefix_app_r].

(** X16.  The report only grows.  Each stage of the pipeline, whether it
    returns or raises, leaves the actions and the errors logged before it
    in place, in their order, and does not change [input_path] nor
    [timestamp]; at the end of every run [input_path] is the input path and
    [timestamp] is the first clock reading of the run followed by [Z]. *)
Theorem report_entries_are_never_removed w :
  (∀ p, preserves grows (backup_file w p))
  ∧ (∀ p, preserves grows (unzip_to_temp w p))
  ∧ (∀ t, preserves grows (fix_core_properties w t))
  ∧ (∀ t l, preserves grows (sanitize_xml_files w t l))
  ∧ (∀ t, preserves grows (remove_custom_xml w t))
  ∧ (∀ t p, preserves grows (rezip_from_temp w t p))
  ∧ (∀ p, preserves grows (try_open_with_python_docx w p))
  ∧ (∀ t p, preserves grows (pandoc_roundtrip w t p))
  ∧ (∀ d input out,
       let s := run w d input out in
       input_path (report s) = str input
       ∧ timestamp (report s) = utcnow_isoformat w 0 +:+ "Z").
Proof.
  split; [intros; preserves_with grows_leaf|].
  split; [intros; preserves_with grows_leaf|].
  split; [intros; preserves_with grows_leaf|].
  split.
  { intros. unfold sanitize_xml_files. apply (preserves_bind _).
    - preserves_with grows_leaf.
    - intros _. apply (preserves_sanitize_each _ _).
      intros. preserves_with grows_leaf. }
  split; [intros; preserves_with grows_leaf|].
  split; [intros; preserves_with grows_leaf|].
  split; [intros; preserves_with grows_leaf|].
  split; [intros; preserves_with grows_leaf|].
  intros d input out. cbv zeta. pattern (run w d input out).
  apply (whole_run w grows); cbv beta.
  - prologue_with grows_leaf.
  - intros _. repeat run_prim. done.
  - intros s e (_ & _ & HI & HT). repeat run_prim. by rewrite HI, HT.
  - intros s t rd HG _ _.
    apply (outcome_preserves grows); [preserves_with grows_leaf|].
    intros r s1 HG1. assert (HG2 : grows (started w d input) s1)
      by (by transitivity s).
    destruct HG2 as (_ & _ & HI & HT).
    destruct r as [[]|e]; [by rewrite HI, HT|].
    repeat run_prim. by rewrite HI, HT.
Qed.

(** ** The validation and the scratch directory *)

Lemma not_judged s :
  happened judged s = false ->
  happened is_load s = false
  ∧ happened (is_call Ftry_open_with_python_docx) s = false
  ∧ happened (is_call Fpandoc_roundtrip) s = false.
Proof.
  unfold happened. induction (trace s) as [|ev tr IH]; simpl; [done|].
  intros [H1 H2]%orb_false_elim. destruct (IH H2) as (-> & -> & ->).
  unfold judged in H1.
  apply orb_false_elim in H1 as [[-> ->]%orb_false_elim ->]. done.
Qed.

Lemma pandoc_roundtrip_loads_nothing w t p :
  preserves (silent is_load) (pandoc_roundtrip w t p).
Proof. preserves_with appends_leaf. Qed.

(** X17.  Without python-docx no run reports a validated package:
    [final_docx_ok] is never [True], [Document] is never called on a file,
    and every run that reaches the validation goes on to the pandoc
    fallback. *)
Theorem without_python_docx_no_run_reports_success w d input out :
  Document_imported w = false ->
  let s := run w d input out in
  flag s ≠ Some true
  ∧ happened is_load s = false
  ∧ (happened (is_call Ftry_open_with_python_docx) s = true ->
     happened (is_call Fpandoc_roundtrip) s = true).
Proof.
  intros Hdoc. cbv zeta. pattern (run w d input out).
  apply (whole_run w (both (silent judged) (keeps flag))); cbv beta.
  - prologue_with both_leaf.
  - intros _. repeat run_prim. done.
  - intros s e [HS HK]. apply silent_happened in HS.
    change (happened judged (started w d input)) with false in HS.
    destruct (not_judged _ HS) as (H1 & H2 & H3).
    change (flag (started w d input)) with (@None bool) in HK.
    unfold keeps, flag, happened in *. repeat run_prim.
    rewrite HK, H1, H2. done.
  - intros s tmpdir rd [HS HK] _ _. apply silent_happened in HS.
    change (happened judged (started w d input)) with false in HS.
    destruct (not_judged _ HS) as (H1 & H2 & H3). clear HS.
    change (flag (started w d input)) with (@None bool) in HK.
    unfold keeps in HK.
    unfold epilogue, try_open_with_python_docx. repeat run_prim.
    rewrite Hdoc. norm. repeat run_prim.
    unfold outcome at 1.
    match goal with
    | |- context [pandoc_roundtrip w tmpdir rd ?sa] =>
        destruct (pandoc_roundtrip_attempt w tmpdir rd sa)
          as (P1 & P2 & _); [norm; apply errors_snoc_nonempty|];
        pose proof (pandoc_roundtrip_unjudged w tmpdir rd sa) as [_ PK];
        pose proof (pandoc_roundtrip_loads_nothing w tmpdir rd sa) as PS;
        destruct (pandoc_roundtrip w tmpdir rd sa) as [r s2]
    end.
    simpl in *. apply silent_happened in PS. rename PS into PL.
    clear P2. unfold keeps, flag, happened in *. norm in *.
    rewrite existsb_app, H1 in PL. simpl in PL.
    destruct r as [[|]|e]; norm; repeat run_prim;
      first [ run_closing | idtac ];
      unfold flag, happened; norm;
      rewrite ?existsb_app, ?PL, ?P1, ?PK, ?HK; simpl; done.
Qed.

Lemma without_python_docx_witness :
  let s := run (without_python_docx (Sample.world true true))
             (Sample.on_disk Sample.plain) Sample.input None in
  flag s ≠ Some true
  ∧ happened is_load s = false
  ∧ (happened (is_call Ftry_open_with_python_docx) s = true ->
     happened (is_call Fpandoc_roundtrip) s = true).
Proof.
  apply (without_python_docx_no_run_reports_success
           (without_python_docx (Sample.world true true))
           (Sample.on_disk Sample.plain) Sample.input None).
  reflexivity.
Defined.

Lemma not_closing s :
  happened closing_event s = false ->
  happened is_rmtree s = false ∧ happened is_save s = false
  ∧ happened is_saved s = false.
Proof.
  unfold happened. induction (trace s) as [|ev tr IH]; simpl; [done|].
  intros [H1 H2]%orb_false_elim. destruct (IH H2) as (-> & -> & ->).
  unfold closing_event in H1. apply orb_false_elim in H1 as [-> H1].
  rewrite H1. by destruct ev.
Qed.

Ltac unpacking_leaf :=
  split;
  [ appends_leaf
  | unfold maintains, unpacking, happened; norm;
    rewrite ?existsb_app; simpl; rewrite ?orb_false_r; done ].

Section Scratch.

Variable w : World.

Lemma unzip_to_temp_unpacking p :
  preserves (both (silent closing_event) (maintains unpacking))
    (unzip_to_temp w p).
Proof.
  apply preserves_both; [preserves_with appends_leaf|].
  intros s HI.
  change (outcome (unzip_to_temp w p) s (λ _ s', unpacking s')).
  unfold unzip_to_temp, mkdtemp_call, extractall.
  repeat (first [run_prim | run_case]); unfold unpacking, happened in *;
    norm; rewrite ?existsb_app; simpl; rewrite ?orb_false_r; done.
Qed.

End Scratch.

Ltac scratch_leaf :=
  unfold unpacking, happened in *; norm;
  rewrite ?existsb_app; simpl; use_trace_facts; simpl;
  rewrite ?orb_false_r;
  repeat split; intros; first [done | congruence | auto].

(** X18.  The scratch directory is removed by the runs that saved their
    report and by no other: [shutil.rmtree] is attempted exactly in the
    runs that wrote the report file.  A run that attempted the extraction
    and did not save its report leaves the scratch directory behind; a run
    that saved it and whose removal is not refused leaves none. *)
Theorem scratch_directory_is_removed_only_after_the_save w d input out :
  let s := run w d input out in
  happened is_rmtree s = happened is_saved s
  ∧ (happened is_extract s = true -> happened is_saved s = false ->
     scratch s ≠ None)
  ∧ (happened is_saved s = true -> os_error w SRmtree = None ->
     scratch s = None).
Proof.
  cbv zeta. pattern (run w d input out).
  match goal with |- ?P0 _ => set (P := P0) end.
  set (R := both (silent closing_event) (maintains unpacking)).
  assert (Hfrom : ∀ s0 s, happened closing_event s0 = false -> unpacking s0 ->
            R s0 s ->
            existsb is_rmtree (trace s) = false
            ∧ existsb is_save (trace s) = false
            ∧ existsb is_saved (trace s) = false
            ∧ unpacking s).
  { intros s0 s H0 HI [HS HM]. apply silent_happened in HS.
    rewrite H0 in HS. destruct (not_closing _ HS) as (? & ? & ?).
    unfold happened in *. repeat split; auto. }
  apply (run_cases w R
           (λ _ s1, happened closing_event s1 = false ∧ unpacking s1)
           (λ _ _, True)); try done.
  - apply unzip_to_temp_unpacking.
  - intros. unfold R. preserves_with unpacking_leaf.
  - intros. unfold R. preserves_with unpacking_leaf.
  - unfold R. preserves_with unpacking_leaf.
  - intros. unfold R. preserves_with unpacking_leaf.
  - intros dat Hin. apply (backup_file_outcome w _ _ dat); [done| |].
    + intros e s' _ Hs _ _ _ Ht. repeat run_prim. unfold P.
      destruct Ht as [Ht|[b Ht]]; unfold happened; norm; rewrite Ht, Hs;
        done.
    + intros bak s' _ _ _ _ _ _ _ _ Ht. unfold unpacking, happened.
      rewrite Ht. done.
  - intros bak s1 s e [H0 HI] HR.
    destruct (Hfrom _ _ H0 HI HR) as (F1 & F2 & F3 & F4).
    repeat run_prim. unfold P. scratch_leaf.
  - intros bak s1 s tmpdir rd r s' [H0 HI] HR _ Hn _ E.
    assert (HR' : R s1 s').
    { transitivity s; [done|].
      assert (H : preserves R (rezip_from_temp w tmpdir rd))
        by (unfold R; preserves_with unpacking_leaf).
      specialize (H s). by rewrite E in H. }
    clear HR E. destruct (Hfrom _ _ H0 HI HR') as (F1 & F2 & F3 & F4).
    destruct r as [[]|e]; [|repeat run_prim; unfold P; scratch_leaf].
    unfold epilogue. repeat run_prim.
    apply try_open_outcome. intros sa b _ _ Hsc _ _ _ _ _ _ HE.
    pose proof (HE is_rmtree eq_refl (λ _ _, eq_refl)) as G1.
    pose proof (HE is_save eq_refl (λ _ _, eq_refl)) as G2.
    pose proof (HE is_saved eq_refl (λ _ _, eq_refl)) as G3.
    pose proof (HE is_extract eq_refl (λ _ _, eq_refl)) as G4.
    clear HE. unfold happened in G1, G2, G3, G4. norm in *.
    rewrite F1 in G1. rewrite F2 in G2. rewrite F3 in G3.
    assert (G5 : unpacking sa).
    { unfold unpacking, happened in *. rewrite G4, Hsc. exact F4. }
    clear F1 F2 F3 F4 G4 Hsc HR' H0 HI.
    unfold closing, with_suffix. rewrite Hn.
    destruct b; norm; repeat run_prim.
    + unfold save, rmtree. repeat (first [run_prim | run_case]);
        unfold P; scratch_leaf.
    + apply (outcome_preserves
               (both (silent (λ ev, closing_event ev || is_extract ev))
                     (keeps scratch))).
      { preserves_with both_leaf. }
      intros r s2 [HS2 HK2].
      pose proof (silent_happened_of
                    (λ ev, closing_event ev || is_extract ev) is_rmtree _ _
                    ltac:(by intros []) HS2) as L1.
      pose proof (silent_happened_of
                    (λ ev, closing_event ev || is_extract ev) is_save _ _
                    ltac:(by intros []) HS2) as L2.
      pose proof (silent_happened_of
                    (λ ev, closing_event ev || is_extract ev) is_saved _ _
                    ltac:(by intros []) HS2) as L3.
      pose proof (silent_happened_of
                    (λ ev, closing_event ev || is_extract ev) is_extract _ _
                    ltac:(by intros []) HS2) as L4.
      clear HS2. unfold keeps, happened in *. norm in *.
      rewrite G1 in L1. rewrite G2 in L2. rewrite G3 in L3.
      assert (G6 : unpacking s2).
      { unfold unpacking, happened in *. rewrite L4, HK2. exact G5. }
      clear G1 G2 G3 G5 L4 HK2.
      unfold save, rmtree.
      destruct r as [[|]|e]; norm;
        repeat (first [run_prim | run_case]); unfold P; scratch_leaf.
Qed.

(** ** The final package *)

Lemma is_Some_insert {V} (m : gmap string V) k k' v :
  is_Some (m !! k) -> is_Some (<[k' := v]> m !! k).
Proof.
  intros H. destruct (decide (k' = k)) as [->|Hne].
  - rewrite lookup_insert_eq. eauto.
  - by rewrite lookup_insert_ne.
Qed.

Ltac named_leaf Hrd :=
  norm; intros ? [= <-]; eexists; split; [exact Hrd|];
  split; [reflexivity|]; split; [|done];
  repeat apply is_Some_insert; norm; eauto.

(** X19.  When the report has a [final_docx], it is the path of the
    repaired package (the given output path, or the default one next to
    the input), a file is on disk at that path at the end of the run, and
    [final_docx_ok] is set as well. *)
Theorem final_docx_names_a_file_on_disk w d input out :
  let s := run w d input out in
  ∀ x, final_docx (report s) = Some x ->
       ∃ rd, repaired_docx_path input out = inr rd ∧ x = str rd
             ∧ is_Some (disk s !! x) ∧ flag s ≠ None.
Proof.
  cbv zeta. pattern (run w d input out).
  match goal with |- ?P0 _ => set (P := P0) end.
  set (R := keeps (λ s, final_docx (report s))).
  apply (run_cases w R (λ _ s1, final_docx (report s1) = None)
           (λ _ _, True)).
  - unfold R. preserves_with keeps_leaf.
  - intros. unfold R. preserves_with keeps_leaf.
  - intros. unfold R. preserves_with keeps_leaf.
  - unfold R. preserves_with keeps_leaf.
  - intros. unfold R. preserves_with keeps_leaf.
  - intros _. repeat run_prim. unfold P. norm. done.
  - intros dat Hin.
    apply (outcome_preserves R); [unfold R; preserves_with keeps_leaf|].
    intros r s1 HR. unfold R, keeps in HR.
    destruct r as [bak|e]; [done|]. repeat run_prim. unfold P. norm.
    rewrite HR. done.
  - intros bak s1 s e H0 HR. unfold R, keeps in HR. repeat run_prim.
    unfold P. norm. rewrite HR, H0. done.
  - done.
  - done.
  - done.
  - done.
  - intros bak s1 s tmpdir rd r s' H0 HR _ Hn Hrd E. unfold R, keeps in HR.
    assert (HF : final_docx (report s') = None).
    { assert (H : preserves R (rezip_from_temp w tmpdir rd))
        by (unfold R; preserves_with keeps_leaf).
      specialize (H s). rewrite E in H. unfold R, keeps in H. simpl in H.
      congruence. }
    destruct r as [[]|e];
      [|repeat run_prim; unfold P; norm; rewrite HF; done].
    apply rezip_from_temp_ok in E as (es & _ & Hd & _).
    assert (Hex : is_Some (disk s' !! str rd))
      by (rewrite Hd, lookup_insert_eq; eauto).
    clear Hd HR H0.
    unfold epilogue. repeat run_prim.
    apply try_open_outcome. intros sa b _ Hda _ _ Hfa _ _ _ _ _.
    norm in *. rewrite <- Hda in Hex. rewrite HF in Hfa. clear Hda HF.
    unfold closing, with_suffix. rewrite Hn.
    destruct b; norm; repeat run_prim.
    + unfold save, rmtree. repeat (first [run_prim | run_case]);
        unfold P, flag; named_leaf Hrd.
    + unfold outcome at 1.
      match goal with
      | |- context [pandoc_roundtrip w tmpdir rd ?sb] =>
          pose proof (pandoc_roundtrip_output w tmpdir rd sb) as HO;
          assert (HK : final_docx (report (pandoc_roundtrip w tmpdir rd sb).2)
                       = None)
            by (assert (H : preserves R (pandoc_roundtrip w tmpdir rd))
                  by (unfold R; preserves_with keeps_leaf);
                specialize (H sb); unfold R, keeps in H; rewrite H;
                exact Hfa);
          cbv zeta in HO;
          destruct (pandoc_roundtrip w tmpdir rd sb) as [r s2]
      end.
      simpl in *.
      assert (Hex2 : is_Some (disk s2 !! str rd)).
      { destruct r as [[|]|e]; [by destruct HO as (dat & _ & ->)|..];
          by rewrite HO. }
      clear HO Hex Hfa.
      unfold save, rmtree.
      destruct r as [[|]|e]; norm;
        repeat (first [run_prim | run_case]); unfold P, flag;
        first [ named_leaf Hrd | norm; rewrite HK; done ].
Qed.

Lemma final_docx_names_a_file_witness :
  let s := run (Sample.world true true) (Sample.on_disk Sample.plain)
             Sample.input None in
  ∃ rd, repaired_docx_path Sample.input None = inr rd
        ∧ "/home/u/report.repaired.docx" = str rd
        ∧ is_Some (disk s !! "/home/u/report.repaired.docx")
        ∧ flag s ≠ None.
Proof.
  apply (final_docx_names_a_file_on_disk (Sample.world true true)
           (Sample.on_disk Sample.plain) Sample.input None
           "/home/u/report.repaired.docx").
  vm_compute. reflexivity.
Defined.

(** ** The validator, on its own *)

